(** * Flight search tool: a shallow embedding of [scripts/flight_search.py]

    The development follows the script top-down: the configuration presets,
    the URL generators, the Amadeus client with its response parser, the
    aggregator ([search_flights], [search_date_combinations]) and the
    formatter ([format_results]).

    Modelling conventions.
    - A Python [str] is a Rocq [string]; the text handled by the script
      (airport codes, ISO dates, URLs, JSON keys) is ASCII, and the string
      functions below ([py_lower], [py_title], [quote_plus], the JSON string
      escapes) are the ASCII behaviour of their Python counterparts.  The
      two characters of the script's own messages that are not ASCII, the
      arrow and the bullet, stand in the output as their UTF-8 bytes.
    - A Python [int] is a [Z].
    - A Python [float] is a value of an abstract type with the operations
      of the class [PyFloat]: the script never computes with floats, it only
      converts to them, compares them inside a [set] and prints them.
    - An exception is a value of [exn]; a computation that may raise returns
      a [result]; a computation with effects (clock, environment, network,
      standard error) is a function of the [world].
    - A [dict] is an association list in insertion order, keys unique. *)

From Stdlib Require Import String Ascii ZArith NArith List Lia Bool Arith.
From Stdlib Require Import DecimalString DecimalFacts DecimalPos DecimalN DecimalZ.
Import ListNotations.
Open Scope string_scope.
Open Scope Z_scope.

Set Implicit Arguments.
Set Maximal Implicit Insertion.

(* ================================================================== *)
(** ** Exceptions and results *)

(** The [ValueError]s the script can meet, by origin. *)
Inductive value_error : Type :=
  | TimeDataMismatch            (* strptime: the text does not match the format *)
  | UnconvertedData             (* strptime: text left after the match *)
  | DateOutOfRange              (* strptime: no such day, or year 0 *)
  | InvalidFloatLiteral         (* float(str) *)
  | UnknownPreset (name : string). (* raise ValueError(f"Unknown preset: {name}") *)

Inductive exn : Type :=
  | AttributeError
  | TypeError
  | KeyError
  | IndexError
  | OverflowError
  | ValueError (why : value_error)
  | JSONDecodeError
  | URLError.

Inductive result (A : Type) : Type :=
  | Ok (a : A)
  | Raise (e : exn).

Arguments Ok {A} a.
Arguments Raise {A} e.

Definition rbind {A B} (m : result A) (k : A -> result B) : result B :=
  match m with
  | Ok a => k a
  | Raise e => Raise e
  end.

Declare Scope result_scope.
Delimit Scope result_scope with result.
Notation "x <- m ;; k" := (rbind m (fun x => k))
  (at level 61, m at next level, right associativity) : result_scope.
Notation "' p <- m ;; k" := (rbind m (fun x => let p := x in k))
  (at level 61, p pattern, m at next level, right associativity) : result_scope.

(** A [for] loop whose body may raise: the first exception ends the loop. *)
Fixpoint rmap {A B} (f : A -> result B) (l : list A) : result (list B) :=
  match l with
  | [] => Ok []
  | a :: l' =>
      match f a with
      | Raise e => Raise e
      | Ok b =>
          match rmap f l' with
          | Raise e => Raise e
          | Ok bs => Ok (b :: bs)
          end
      end
  end.

Definition is_ok {A} (r : result A) : bool :=
  match r with Ok _ => true | Raise _ => false end.

(* ================================================================== *)
(** ** Strings *)

Definition chars (s : string) : list ascii := list_ascii_of_string s.
Definition text (l : list ascii) : string := string_of_list_ascii l.

Definition code (c : ascii) : nat := nat_of_ascii c.

Definition in_range (lo hi : nat) (c : ascii) : bool :=
  (lo <=? code c)%nat && (code c <=? hi)%nat.

Definition is_digit (c : ascii) : bool := in_range 48 57 c.
Definition is_upper (c : ascii) : bool := in_range 65 90 c.
Definition is_lower (c : ascii) : bool := in_range 97 122 c.
Definition is_alpha (c : ascii) : bool := is_upper c || is_lower c.

Definition digit_val (c : ascii) : Z := Z.of_nat (code c) - 48.

Definition to_lower (c : ascii) : ascii :=
  if is_upper c then ascii_of_nat (code c + 32) else c.
Definition to_upper (c : ascii) : ascii :=
  if is_lower c then ascii_of_nat (code c - 32) else c.

(** [str.lower()] *)
Definition py_lower (s : string) : string := text (map to_lower (chars s)).

(** [str.replace(old, new)] for one-character [old] and [new]. *)
Definition py_replace_char (old new : ascii) (s : string) : string :=
  text (map (fun c => if Ascii.eqb c old then new else c) (chars s)).

(** [str.title()]: a letter is upper-cased when the previous character is
    not a letter, lower-cased otherwise. *)
Fixpoint title_from (prev_cased : bool) (l : list ascii) : list ascii :=
  match l with
  | [] => []
  | c :: l' =>
      (if is_alpha c
       then (if prev_cased then to_lower c else to_upper c)
       else c) :: title_from (is_alpha c) l'
  end.
Definition py_title (s : string) : string := text (title_from false (chars s)).

(** [sep.join(items)] *)
Definition py_join (sep : string) (items : list string) : string :=
  String.concat sep items.

(** [s * n] *)
Fixpoint py_repeat (s : string) (n : nat) : string :=
  match n with
  | O => ""
  | S n' => s ++ py_repeat s n'
  end.

(** [str(n)] for an [int]. *)
Definition py_str_int (z : Z) : string := NilZero.string_of_int (Z.to_int z).

(** [int(s)] for a decimal literal. *)
Definition py_int_of_str (s : string) : option Z :=
  option_map Z.of_int (NilZero.int_of_string s).

Definition newline : ascii := ascii_of_nat 10.
Definition nl : string := String newline "".

(** A two-digit, zero-padded decimal ([%02d]) for [0 <= n < 100]. *)
Definition two_digits (n : Z) : string :=
  (if n <? 10 then "0" else "") ++ py_str_int n.

(* ------------------------------------------------------------------ *)
(** *** [urllib.parse.quote_plus] and [urlencode] *)

Definition hex_digit (n : nat) : ascii :=
  if (n <? 10)%nat then ascii_of_nat (48 + n) else ascii_of_nat (55 + n).

(** The characters [quote] never escapes: letters, digits and [_.-~]. *)
Definition always_safe (c : ascii) : bool :=
  is_alpha c || is_digit c ||
  Ascii.eqb c "_" || Ascii.eqb c "." || Ascii.eqb c "-" || Ascii.eqb c "~".

Definition quote_plus_char (c : ascii) : list ascii :=
  if always_safe c then [c]
  else if Ascii.eqb c " " then ["+"%char]
  else ["%"%char; hex_digit (code c / 16); hex_digit (code c mod 16)].

Definition quote_plus (s : string) : string :=
  text (flat_map quote_plus_char (chars s)).

(** [urlencode(params)] for a dict of strings, in insertion order. *)
Definition urlencode (params : list (string * string)) : string :=
  py_join "&" (map (fun kv => quote_plus (fst kv) ++ "=" ++ quote_plus (snd kv)) params).

(* ------------------------------------------------------------------ *)
(** *** [datetime.strptime(s, "%Y-%m-%d")] and [strftime("%y%m%d")] *)

Record date : Type := mk_date { year : Z; month : Z; day : Z }.

Definition is_leap (y : Z) : bool :=
  ((y mod 4 =? 0) && negb (y mod 100 =? 0)) || (y mod 400 =? 0).

Definition days_in_month (y m : Z) : Z :=
  if m =? 2 then (if is_leap y then 29 else 28)
  else if (m =? 4) || (m =? 6) || (m =? 9) || (m =? 11) then 30
  else 31.

(** [%Y] is the pattern [\d\d\d\d]. *)
Definition match_year (l : list ascii) : option (Z * list ascii) :=
  match l with
  | a :: b :: c :: d :: rest =>
      if is_digit a && is_digit b && is_digit c && is_digit d
      then Some (1000 * digit_val a + 100 * digit_val b + 10 * digit_val c + digit_val d, rest)
      else None
  | _ => None
  end.

(** [%m] is the pattern [1[0-2]|0[1-9]|[1-9]], alternatives tried in order. *)
Definition match_month (l : list ascii) : list (Z * list ascii) :=
  (match l with
   | a :: b :: rest =>
       if Ascii.eqb a "1" && in_range 48 50 b then [(10 + digit_val b, rest)] else []
   | _ => []
   end) ++
  (match l with
   | a :: b :: rest =>
       if Ascii.eqb a "0" && in_range 49 57 b then [(digit_val b, rest)] else []
   | _ => []
   end) ++
  (match l with
   | a :: rest => if in_range 49 57 a then [(digit_val a, rest)] else []
   | _ => []
   end).

(** [%d] is the pattern [3[0-1]|[1-2]\d|0[1-9]|[1-9]| [1-9]]. *)
Definition match_day (l : list ascii) : list (Z * list ascii) :=
  (match l with
   | a :: b :: rest =>
       if Ascii.eqb a "3" && in_range 48 49 b then [(30 + digit_val b, rest)] else []
   | _ => []
   end) ++
  (match l with
   | a :: b :: rest =>
       if in_range 49 50 a && is_digit b then [(10 * digit_val a + digit_val b, rest)] else []
   | _ => []
   end) ++
  (match l with
   | a :: b :: rest =>
       if Ascii.eqb a "0" && in_range 49 57 b then [(digit_val b, rest)] else []
   | _ => []
   end) ++
  (match l with
   | a :: rest => if in_range 49 57 a then [(digit_val a, rest)] else []
   | _ => []
   end) ++
  (match l with
   | a :: b :: rest =>
       if Ascii.eqb a " " && in_range 49 57 b then [(digit_val b, rest)] else []
   | _ => []
   end).

Definition expect_dash (l : list ascii) : option (list ascii) :=
  match l with
  | c :: rest => if Ascii.eqb c "-" then Some rest else None
  | [] => None
  end.

(** The first way, in the regular expression's order, of matching month,
    dash and day: [re.match] backtracks over the alternatives of [%m] and
    takes the first alternative of [%d] that matches. *)
Fixpoint first_month_day (ms : list (Z * list ascii)) : option (Z * Z * list ascii) :=
  match ms with
  | [] => None
  | (m, rest) :: ms' =>
      match expect_dash rest with
      | Some rest' =>
          match match_day rest' with
          | (d, rest'') :: _ => Some (m, d, rest'')
          | [] => first_month_day ms'
          end
      | None => first_month_day ms'
      end
  end.

Definition strptime (s : string) : result date :=
  match match_year (chars s) with
  | None => Raise (ValueError TimeDataMismatch)
  | Some (y, rest) =>
      match expect_dash rest with
      | None => Raise (ValueError TimeDataMismatch)
      | Some rest' =>
          match first_month_day (match_month rest') with
          | None => Raise (ValueError TimeDataMismatch)
          | Some (m, d, []) =>
              if (1 <=? y) && (d <=? days_in_month y m)
              then Ok (mk_date y m d)
              else Raise (ValueError DateOutOfRange)
          | Some (_, _, _ :: _) => Raise (ValueError UnconvertedData)
          end
      end
  end.

(** [strftime("%y%m%d")] *)
Definition strftime_yymmdd (d : date) : string :=
  two_digits (year d mod 100) ++ two_digits (month d) ++ two_digits (day d).

(* ================================================================== *)
(** ** Configuration presets *)

Record preset : Type := mk_preset {
  p_origin : string;
  p_destination : string;
  outbound_dates : list string;
  return_dates : list string;
  p_passengers : Z;
  description : string
}.

(** [d.get(k)] / [k in d] on an association list. *)
Fixpoint dict_get {V} (k : string) (d : list (string * V)) : option V :=
  match d with
  | [] => None
  | (k', v) :: d' => if String.eqb k k' then Some v else dict_get k d'
  end.

Definition PRESETS : list (string * preset) :=
  [("colorado_trip",
    mk_preset "PHL" "DEN"
      ["2026-01-23"; "2026-01-24"]
      ["2026-01-26"; "2026-01-27"; "2026-01-28"; "2026-01-29"]
      2
      "Colorado snowboarding trip - Jan 2026")].

(* ================================================================== *)
(** ** URL generators *)

Definition generate_google_flights_url
    (origin destination depart_date return_date : string) (passengers : Z) : string :=
  let base_url := "https://www.google.com/travel/flights" in
  let query := "Flights from " ++ origin ++ " to " ++ destination
               ++ " on " ++ depart_date ++ " through " ++ return_date in
  let query := if 1 <? passengers
               then query ++ " " ++ py_str_int passengers ++ " passengers"
               else query in
  let params := [("hl", "en"); ("curr", "USD"); ("q", query)] in
  base_url ++ "?" ++ urlencode params.

Definition generate_google_flights_direct_url
    (origin destination depart_date return_date : string) (passengers : Z) : string :=
  let params := ["f=" ++ origin; "t=" ++ destination;
                 "d=" ++ depart_date; "r=" ++ return_date] in
  let params := if 1 <? passengers
                then List.app params [("px=" ++ py_str_int passengers)%string]
                else params in
  (* the list built above is not used by the source either *)
  let simple_url := "https://www.google.com/travel/flights?q=Flights+to+" ++ destination
                    ++ "+from+" ++ origin ++ "+on+" ++ depart_date
                    ++ "+through+" ++ return_date in
  simple_url.

Definition generate_kayak_url
    (origin destination depart_date return_date : string) (passengers : Z) : string :=
  let passengers_str := if 1 <? passengers
                        then py_str_int passengers ++ "adults" else "" in
  "https://www.kayak.com/flights/" ++ origin ++ "-" ++ destination ++ "/"
    ++ depart_date ++ "/" ++ return_date ++ "/" ++ passengers_str.

Definition generate_skyscanner_url
    (origin destination depart_date return_date : string) (passengers : Z)
    : result string :=
  (d <- strptime depart_date ;;
   r <- strptime return_date ;;
   Ok ("https://www.skyscanner.com/transport/flights/" ++ py_lower origin ++ "/"
       ++ py_lower destination ++ "e/" ++ strftime_yymmdd d ++ "/"
       ++ strftime_yymmdd r ++ "/"))%result.

Definition southwest_params
    (origin destination depart_date return_date : string) (passengers : Z)
    : list (string * string) :=
  [("originationAirportCode", origin);
   ("destinationAirportCode", destination);
   ("returnAirportCode", "");
   ("departureDate", depart_date);
   ("departureTimeOfDay", "ALL_DAY");
   ("returnDate", return_date);
   ("returnTimeOfDay", "ALL_DAY");
   ("adultPassengersCount", py_str_int passengers);
   ("seniorPassengersCount", "0");
   ("tripType", "roundtrip");
   ("fareType", "USD");
   ("passengerType", "ADULT");
   ("reset", "true");
   ("int", "HOMEQBOMAIR")].

Definition generate_southwest_url
    (origin destination depart_date return_date : string) (passengers : Z) : string :=
  let base := "https://www.southwest.com/air/booking/select.html" in
  base ++ "?" ++ urlencode (southwest_params origin destination depart_date return_date passengers).

Definition generate_chase_ur_url : string :=
  "https://ultimaterewardspoints.chase.com/travel".

Definition generate_citi_ty_url : string :=
  "https://www.thankyou.com/cms/thankyou/travel.page".

(* ================================================================== *)
(** ** Python values *)

(** The text [json.dumps] writes for a float: [NaN], [Infinity],
    [-Infinity], or [float.__repr__], which is a sign, an integer part
    without leading zeros, and a fraction, an exponent, or both ([".0"] is
    appended when the shortest digits have neither). *)
Inductive float_text : Type :=
  | TextNaN
  | TextInfinity (negative : bool)
  | TextDecimal (negative : bool) (int_part : N)
                (frac : option Decimal.uint)
                (expo : option (bool * Decimal.uint)).

(** What the script needs of Python's [float]. *)
Class PyFloat (F : Type) : Type := {
  (** [float(n)] for an int; [None] is [OverflowError]. *)
  float_of_int : Z -> option F;
  (** [float(s)] for a str; [None] is [ValueError]. *)
  float_of_str : string -> option F;
  (** [float(token)] for a JSON number token with a fraction or an
      exponent, which [float] always accepts. *)
  float_of_json : string -> F;
  float_nan : F;
  float_inf : F;
  float_neg_inf : F;
  (** [x == y] between floats, and between a float and an int. *)
  float_eqb : F -> F -> bool;
  float_eq_int : F -> Z -> bool;
  (** The text of a float in JSON. *)
  float_repr : F -> float_text;
  (** [format(x, ".2f")] *)
  float_format_2f : F -> string
}.

Section PythonValues.

Variable F : Type.
Context {float_ops : PyFloat F}.

(** The values [json.loads] builds, which are also the values the script
    stores in its result dicts.  The induction principle that reaches inside
    lists and dicts is [pyval_ind'] below. *)
Unset Elimination Schemes.
Inductive pyval : Type :=
  | PNone
  | PBool (b : bool)
  | PInt (z : Z)
  | PFloat (f : F)
  | PStr (s : string)
  | PList (items : list pyval)
  | PDict (entries : list (string * pyval)).
Set Elimination Schemes.

(** [bool(v)] *)
Definition truthy (v : pyval) : bool :=
  match v with
  | PNone => false
  | PBool b => b
  | PInt z => negb (z =? 0)
  | PFloat f => negb (float_eq_int f 0)
  | PStr s => negb (String.eqb s "")
  | PList l => match l with [] => false | _ => true end
  | PDict d => match d with [] => false | _ => true end
  end.

(** [v.get(key, default)]: only a dict has the method. *)
Definition py_get (v : pyval) (key : string) (default : pyval) : result pyval :=
  match v with
  | PDict d =>
      match dict_get key d with
      | Some x => Ok x
      | None => Ok default
      end
  | _ => Raise AttributeError
  end.

(** [iter(v)]: the items of a list, the keys of a dict, the characters of
    a str; nothing else is iterable. *)
Definition py_iter (v : pyval) : result (list pyval) :=
  match v with
  | PList l => Ok l
  | PDict d => Ok (map (fun kv => PStr (fst kv)) d)
  | PStr s => Ok (map (fun c => PStr (String c "")) (chars s))
  | _ => Raise TypeError
  end.

(** [float(v)] *)
Definition py_float (v : pyval) : result F :=
  match v with
  | PFloat f => Ok f
  | PBool b =>
      match float_of_int (if b then 1 else 0) with
      | Some f => Ok f
      | None => Raise OverflowError
      end
  | PInt z =>
      match float_of_int z with
      | Some f => Ok f
      | None => Raise OverflowError
      end
  | PStr s =>
      match float_of_str s with
      | Some f => Ok f
      | None => Raise (ValueError InvalidFloatLiteral)
      end
  | PNone | PList _ | PDict _ => Raise TypeError
  end.

Definition hashable (v : pyval) : bool :=
  match v with
  | PList _ | PDict _ => false
  | _ => true
  end.

(** [x == y] between hashable values ([True == 1 == 1.0]). *)
Definition int_of_bool (b : bool) : Z := if b then 1 else 0.

Definition py_eqb (x y : pyval) : bool :=
  match x, y with
  | PNone, PNone => true
  | PStr s, PStr t => String.eqb s t
  | PBool a, PBool b => int_of_bool a =? int_of_bool b
  | PBool a, PInt z | PInt z, PBool a => int_of_bool a =? z
  | PInt a, PInt b => a =? b
  | PFloat f, PFloat g => float_eqb f g
  | PFloat f, PInt z | PInt z, PFloat f => float_eq_int f z
  | PFloat f, PBool b | PBool b, PFloat f => float_eq_int f (int_of_bool b)
  | _, _ => false
  end.

(** [s.add(v)] on a set kept as the list of its elements in the order they
    were first added (the order in which Python iterates a set is
    unspecified; this list is one of the orders). *)
Definition set_add (s : list pyval) (v : pyval) : result (list pyval) :=
  if hashable v
  then Ok (if existsb (py_eqb v) s then s else List.app s [v])
  else Raise TypeError.

(** A loop that updates an accumulator and may raise. *)
Fixpoint rfold {A S} (f : S -> A -> result S) (l : list A) (s : S) : result S :=
  match l with
  | [] => Ok s
  | a :: l' =>
      match f s a with
      | Ok s' => rfold f l' s'
      | Raise e => Raise e
      end
  end.

(* ================================================================== *)
(** ** The Amadeus client: response parsing *)

Record segment_info : Type := mk_segment {
  departure : pyval;
  arrival : pyval;
  departure_time : pyval;
  arrival_time : pyval;
  carrier : pyval;
  flight_number : pyval;
  duration : pyval
}.

Record parsed_offer : Type := mk_offer {
  price : F;
  currency : pyval;
  segments : list segment_info;
  airlines : list pyval
}.

Local Open Scope result_scope.

(** The dict literal [seg_info], its values evaluated in source order. *)
Definition parse_segment (segment : pyval) : result segment_info :=
  d1 <- py_get segment "departure" (PDict []) ;;
  v_departure <- py_get d1 "iataCode" PNone ;;
  a1 <- py_get segment "arrival" (PDict []) ;;
  v_arrival <- py_get a1 "iataCode" PNone ;;
  d2 <- py_get segment "departure" (PDict []) ;;
  v_departure_time <- py_get d2 "at" PNone ;;
  a2 <- py_get segment "arrival" (PDict []) ;;
  v_arrival_time <- py_get a2 "at" PNone ;;
  v_carrier <- py_get segment "carrierCode" PNone ;;
  v_number <- py_get segment "number" PNone ;;
  v_duration <- py_get segment "duration" PNone ;;
  Ok (mk_segment v_departure v_arrival v_departure_time v_arrival_time
                 v_carrier v_number v_duration).

(** The body of the inner loop: append [seg_info], add the carrier code. *)
Definition add_segment (acc : list segment_info * list pyval) (segment : pyval)
    : result (list segment_info * list pyval) :=
  seg_info <- parse_segment segment ;;
  code <- py_get segment "carrierCode" PNone ;;
  airlines' <- set_add (snd acc) code ;;
  Ok (List.app (fst acc) [seg_info], airlines').

Definition add_itinerary (acc : list segment_info * list pyval) (itinerary : pyval)
    : result (list segment_info * list pyval) :=
  segs <- py_get itinerary "segments" (PList []) ;;
  segs <- py_iter segs ;;
  rfold add_segment segs acc.

(** The body of the outer loop of [_parse_offers]. *)
Definition parse_offer (offer : pyval) : result parsed_offer :=
  p1 <- py_get offer "price" (PDict []) ;;
  total <- py_get p1 "total" (PInt 0) ;;
  v_price <- py_float total ;;
  p2 <- py_get offer "price" (PDict []) ;;
  v_currency <- py_get p2 "currency" (PStr "USD") ;;
  its <- py_get offer "itineraries" (PList []) ;;
  its <- py_iter its ;;
  acc <- rfold add_itinerary its ([], []) ;;
  Ok (mk_offer v_price v_currency (fst acc) (snd acc)).

Definition _parse_offers (response : pyval) : result (list parsed_offer) :=
  data <- py_get response "data" (PList []) ;;
  offers <- py_iter data ;;
  rmap parse_offer offers.

End PythonValues.

Arguments PNone {F}.
Arguments PBool {F} b.
Arguments PInt {F} z.
Arguments PStr {F} s.

(* ================================================================== *)
(** ** The world: environment, clock, network, standard error *)

Section World.

Variable F : Type.
Context {float_ops : PyFloat F}.

(** The two HTTP requests of the client, by their parameters. *)
Inductive request : Type :=
  | TokenRequest (client_id client_secret : option string)
  | OffersRequest (bearer : pyval F)
                  (origin destination depart_date return_date : string)
                  (adults max_results : Z).

(** A line printed to [sys.stderr]; an exception is kept as a value instead
    of being rendered into the line. *)
Inductive diag : Type :=
  | Line (s : string)
  | ErrorLine (prefix : string) (e : exn).

(** [urlopen_json n req] is what [json.loads(urlopen(req).read())] evaluates
    to for the [n]-th request of the run: an exception (no connection, a
    status other than 2xx, a body that is not JSON) or the decoded body.
    [now_isoformat n] is the [n]-th reading of the clock. *)
Record world : Type := mk_world {
  environ : string -> option string;
  urlopen_json : nat -> request -> result (pyval F);
  now_isoformat : nat -> string;
  requests : list request;
  clock_reads : nat;
  stderr : list diag
}.

Definition IO (A : Type) : Type := world -> result A * world.

Definition ret {A} (a : A) : IO A := fun w => (Ok a, w).

Definition raise {A} (e : exn) : IO A := fun w => (Raise e, w).

Definition bind {A B} (m : IO A) (k : A -> IO B) : IO B :=
  fun w =>
    match m w with
    | (Ok a, w') => k a w'
    | (Raise e, w') => (Raise e, w')
    end.

Definition lift {A} (r : result A) : IO A := fun w => (r, w).

(** [try: m except Exception as e: handler e] *)
Definition try_except {A} (m : IO A) (handler : exn -> IO A) : IO A :=
  fun w =>
    match m w with
    | (Ok a, w') => (Ok a, w')
    | (Raise e, w') => handler e w'
    end.

Declare Scope io_scope.
Delimit Scope io_scope with io.
Notation "x <- m ;; k" := (bind m (fun x => k))
  (at level 61, m at next level, right associativity) : io_scope.
Notation "m ;;; k" := (bind m (fun _ => k))
  (at level 61, right associativity) : io_scope.

Definition getenv (name : string) : IO (option string) :=
  fun w => (Ok (environ w name), w).

Definition datetime_now : IO string :=
  fun w => (Ok (now_isoformat w (clock_reads w)),
            mk_world (environ w) (urlopen_json w) (now_isoformat w)
                     (requests w) (S (clock_reads w)) (stderr w)).

Definition eprint (d : diag) : IO unit :=
  fun w => (Ok tt,
            mk_world (environ w) (urlopen_json w) (now_isoformat w)
                     (requests w) (clock_reads w) (List.app (stderr w) [d])).

Definition send (req : request) : IO (pyval F) :=
  fun w => (urlopen_json w (length (requests w)) req,
            mk_world (environ w) (urlopen_json w) (now_isoformat w)
                     (List.app (requests w) [req]) (clock_reads w) (stderr w)).

(** A [for] loop that collects one value per item. *)
Fixpoint io_map {A B} (f : A -> IO B) (l : list A) : IO (list B) :=
  match l with
  | [] => ret []
  | a :: l' => bind (f a) (fun b => bind (io_map f l') (fun bs => ret (b :: bs)))
  end.

Local Open Scope io_scope.

(* ================================================================== *)
(** ** The Amadeus client *)

(** The methods of the class [AmadeusAPI] carry the prefix [AmadeusAPI_]. *)

Record AmadeusAPI : Type := mk_api {
  api_key : option string;
  api_secret : option string;
  token : pyval F;
  base_url : string
}.

(** [__init__] *)
Definition AmadeusAPI_init : IO AmadeusAPI :=
  key <- getenv "AMADEUS_API_KEY" ;;
  secret <- getenv "AMADEUS_API_SECRET" ;;
  ret (mk_api key secret PNone "https://test.api.amadeus.com").

Definition nonempty (s : option string) : bool :=
  match s with
  | Some s => negb (String.eqb s "")
  | None => false
  end.

(** [bool(self.api_key and self.api_secret)] *)
Definition AmadeusAPI_is_configured (self : AmadeusAPI) : bool :=
  nonempty (api_key self) && nonempty (api_secret self).

(** Returns the flag and the client with its token updated. *)
Definition AmadeusAPI_authenticate (self : AmadeusAPI) : IO (bool * AmadeusAPI) :=
  if negb (AmadeusAPI_is_configured self) then ret (false, self)
  else
    try_except
      (result <- send (TokenRequest (api_key self) (api_secret self)) ;;
       tok <- lift (py_get result "access_token" PNone) ;;
       ret (truthy tok, mk_api (api_key self) (api_secret self) tok (base_url self)))
      (fun e =>
         eprint (ErrorLine "Amadeus auth error: " e) ;;;
         ret (false, self)).

(** The request and the parse, inside the [try]. *)
Definition AmadeusAPI_fetch_offers (self : AmadeusAPI)
    (origin destination depart_date return_date : string)
    (passengers max_results : Z) : IO (option (list (parsed_offer F))) :=
  try_except
    (result <- send (OffersRequest (token self) origin destination
                                   depart_date return_date passengers max_results) ;;
     offers <- lift (_parse_offers result) ;;
     ret (Some offers))
    (fun e =>
       eprint (ErrorLine "Amadeus search error: " e) ;;;
       ret None).

(** The client is local to one call of the aggregator, so the updated
    client is not returned. *)
Definition AmadeusAPI_search_flights (self : AmadeusAPI)
    (origin destination depart_date return_date : string)
    (passengers max_results : Z) : IO (option (list (parsed_offer F))) :=
  if negb (truthy (token self)) then
    r <- AmadeusAPI_authenticate self ;;
    if negb (fst r) then ret None
    else AmadeusAPI_fetch_offers (snd r) origin destination depart_date return_date
                      passengers max_results
  else AmadeusAPI_fetch_offers self origin destination depart_date return_date
                    passengers max_results.


(* ================================================================== *)
(** ** The aggregator *)

Record search_params_t : Type := mk_params {
  origin : string;
  destination : string;
  depart_date : string;
  return_date : string;
  passengers : Z
}.

(** The result dict; [trip_name] is [None] while the key is absent. *)
Record search_result : Type := mk_result {
  search_params : search_params_t;
  api_results : option (list (parsed_offer F));
  urls : list (string * string);
  points_urls : list (string * string);
  timestamp : string;
  trip_name : option string
}.

(** [bool(result["api_results"])] *)
Definition offers_truthy (r : option (list (parsed_offer F))) : bool :=
  match r with
  | Some (_ :: _) => true
  | _ => false
  end.

Definition arrow : string := " → ".

(** The block under [if use_api:]. *)
Definition try_api (origin destination depart_date return_date : string)
    (passengers : Z) : IO (option (list (parsed_offer F))) :=
  api <- AmadeusAPI_init ;;
  if AmadeusAPI_is_configured api then
    eprint (Line ("Searching Amadeus API for " ++ origin ++ arrow ++ destination ++ "...")) ;;;
    r <- AmadeusAPI_search_flights api origin destination depart_date return_date
                                   passengers 10 ;;
    (if offers_truthy r
     then eprint (Line ("Found "
                        ++ py_str_int (Z.of_nat (length (match r with Some l => l | None => [] end)))
                        ++ " offers"))
     else ret tt) ;;;
    ret r
  else
    eprint (Line "Amadeus API not configured (set AMADEUS_API_KEY and AMADEUS_API_SECRET)") ;;;
    ret None.

Definition comparison_urls (origin destination depart_date return_date : string)
    (passengers : Z) : result (list (string * string)) :=
  let google := generate_google_flights_direct_url
                  origin destination depart_date return_date passengers in
  let kayak := generate_kayak_url origin destination depart_date return_date passengers in
  rbind (generate_skyscanner_url origin destination depart_date return_date passengers)
    (fun skyscanner =>
       let southwest := generate_southwest_url
                          origin destination depart_date return_date passengers in
       Ok [("google_flights", google); ("kayak", kayak);
           ("skyscanner", skyscanner); ("southwest", southwest)]).

Definition portal_urls : list (string * string) :=
  [("chase_ultimate_rewards", generate_chase_ur_url);
   ("citi_thankyou", generate_citi_ty_url)].

Definition search_flights (origin destination depart_date return_date : string)
    (passengers : Z) (use_api : bool) : IO search_result :=
  ts <- datetime_now ;;
  api <- (if use_api
          then try_api origin destination depart_date return_date passengers
          else ret None) ;;
  us <- lift (comparison_urls origin destination depart_date return_date passengers) ;;
  ret (mk_result (mk_params origin destination depart_date return_date passengers)
                 api us portal_urls ts None).

Definition set_trip_name (name : string) (r : search_result) : search_result :=
  mk_result (search_params r) (api_results r) (urls r) (points_urls r)
            (timestamp r) (Some name).

(** The body of the inner loop of [search_date_combinations]. *)
Definition search_one (preset_name : string) (p : preset) (depart return_ : string)
    : IO search_result :=
  eprint (Line (nl ++ py_repeat "=" 60)) ;;;
  eprint (Line ("Searching: " ++ depart ++ arrow ++ return_)) ;;;
  eprint (Line (py_repeat "=" 60)) ;;;
  result <- search_flights (p_origin p) (p_destination p) depart return_
                           (p_passengers p) true ;;
  ret (set_trip_name preset_name result).

(** [search_date_combinations], reading the preset table it is given. *)
Definition search_date_combinations_in (presets : list (string * preset))
    (preset_name : string) : IO (list search_result) :=
  match dict_get preset_name presets with
  | None => raise (ValueError (UnknownPreset preset_name))
  | Some p =>
      rows <- io_map (fun depart =>
                        io_map (fun return_ => search_one preset_name p depart return_)
                               (return_dates p))
                     (outbound_dates p) ;;
      ret (concat rows)
  end.

Definition search_date_combinations : string -> IO (list search_result) :=
  search_date_combinations_in PRESETS.

End World.

Arguments TokenRequest {F} client_id client_secret.

(* ================================================================== *)
(** ** JSON: [json.dumps(obj, indent=2)] and [json.loads] *)

Section Json.

Variable F : Type.
Context {float_ops : PyFloat F}.

Definition quote : ascii := ascii_of_nat 34.
Definition backslash : ascii := ascii_of_nat 92.

Definition hex_lower (n : nat) : ascii :=
  if (n <? 10)%nat then ascii_of_nat (48 + n) else ascii_of_nat (87 + n).

(** [ESCAPE_ASCII]: the quote, the backslash and every character outside
    [' ' .. '~'] is escaped. *)
Definition escape_char (c : ascii) : list ascii :=
  if Ascii.eqb c quote then [backslash; quote]
  else if Ascii.eqb c backslash then [backslash; backslash]
  else if (code c =? 8)%nat then [backslash; "b"%char]
  else if (code c =? 12)%nat then [backslash; "f"%char]
  else if (code c =? 10)%nat then [backslash; "n"%char]
  else if (code c =? 13)%nat then [backslash; "r"%char]
  else if (code c =? 9)%nat then [backslash; "t"%char]
  else if in_range 32 126 c then [c]
  else [backslash; "u"%char; "0"%char; "0"%char;
        hex_lower (code c / 16); hex_lower (code c mod 16)].

Definition encode_string (s : string) : list ascii :=
  quote :: List.app (flat_map escape_char (chars s)) [quote].

Definition uint_chars (d : Decimal.uint) : list ascii :=
  chars (NilZero.string_of_uint d).

Definition render_float (t : float_text) : list ascii :=
  match t with
  | TextNaN => chars "NaN"
  | TextInfinity false => chars "Infinity"
  | TextInfinity true => chars "-Infinity"
  | TextDecimal neg ip frac expo =>
      List.app (if neg then ["-"%char] else [])
        (List.app (uint_chars (N.to_uint ip))
           (match frac, expo with
            | None, None => chars ".0"
            | _, _ =>
                List.app
                  (match frac with
                   | Some d => "."%char :: uint_chars d
                   | None => []
                   end)
                  (match expo with
                   | Some (eneg, d) =>
                       "e"%char :: (if eneg then "-"%char else "+"%char) :: uint_chars d
                   | None => []
                   end)
            end))
  end.

(** A line break followed by the indentation of [level]. *)
Definition newline_indent (level : nat) : list ascii :=
  newline :: repeat " "%char (2 * level).

(** [_make_iterencode] with [indent=2]: item separator [","], key
    separator [": "], empty containers written [[]] and [{}]. *)
Fixpoint encode (level : nat) (v : pyval F) : list ascii :=
  match v with
  | PNone => chars "null"
  | PBool true => chars "true"
  | PBool false => chars "false"
  | PInt z => chars (py_str_int z)
  | PFloat f => render_float (float_repr f)
  | PStr s => encode_string s
  | PList items =>
      match items with
      | [] => chars "[]"
      | x :: xs =>
          "["%char ::
          List.app (newline_indent (S level))
            (List.app (encode (S level) x)
               (List.app
                  ((fix rest_items (l : list (pyval F)) : list ascii :=
                      match l with
                      | [] => []
                      | y :: l' =>
                          ","%char ::
                          List.app (newline_indent (S level))
                            (List.app (encode (S level) y) (rest_items l'))
                      end) xs)
                  (List.app (newline_indent level) ["]"%char])))
      end
  | PDict entries =>
      match entries with
      | [] => chars "{}"
      | (k, x) :: xs =>
          "{"%char ::
          List.app (newline_indent (S level))
            (List.app (encode_string k)
               (":"%char :: " "%char ::
                List.app (encode (S level) x)
                  (List.app
                     ((fix rest_entries (l : list (string * pyval F)) : list ascii :=
                         match l with
                         | [] => []
                         | (k', y) :: l' =>
                             ","%char ::
                             List.app (newline_indent (S level))
                               (List.app (encode_string k')
                                  (":"%char :: " "%char ::
                                   List.app (encode (S level) y) (rest_entries l')))
                         end) xs)
                     (List.app (newline_indent level) ["}"%char]))))
      end
  end.

Definition json_dumps (v : pyval F) : string := text (encode 0 v).

(* ------------------------------------------------------------------ *)
(** *** The decoder *)

Definition is_ws (c : ascii) : bool :=
  Ascii.eqb c " " || (code c =? 9)%nat || (code c =? 10)%nat || (code c =? 13)%nat.

Fixpoint skip_ws (l : list ascii) : list ascii :=
  match l with
  | c :: l' => if is_ws c then skip_ws l' else l
  | [] => []
  end.

Definition hex_val (c : ascii) : option nat :=
  if is_digit c then Some (code c - 48)%nat
  else if in_range 97 102 c then Some (code c - 87)%nat
  else if in_range 65 70 c then Some (code c - 55)%nat
  else None.

(** The character a [\uXXXX] escape denotes; code points above 255 are
    outside the string model and are rejected. *)
Definition decode_u (a b c d : ascii) : option ascii :=
  match hex_val a, hex_val b, hex_val c, hex_val d with
  | Some x, Some y, Some z, Some t =>
      let n := (4096 * x + 256 * y + 16 * z + t)%nat in
      if (n <? 256)%nat then Some (ascii_of_nat n) else None
  | _, _, _, _ => None
  end.

Definition decode_escape (c : ascii) : option ascii :=
  if Ascii.eqb c quote then Some quote
  else if Ascii.eqb c backslash then Some backslash
  else if Ascii.eqb c "/" then Some "/"%char
  else if Ascii.eqb c "b" then Some (ascii_of_nat 8)
  else if Ascii.eqb c "f" then Some (ascii_of_nat 12)
  else if Ascii.eqb c "n" then Some (ascii_of_nat 10)
  else if Ascii.eqb c "r" then Some (ascii_of_nat 13)
  else if Ascii.eqb c "t" then Some (ascii_of_nat 9)
  else None.

(** [scanstring] in strict mode, after the opening quote; [acc] holds the
    characters read so far, last first. *)
Fixpoint scanstring (l : list ascii) (acc : list ascii) : result (string * list ascii) :=
  match l with
  | [] => Raise JSONDecodeError
  | c :: rest =>
      if Ascii.eqb c quote then Ok (text (rev acc), rest)
      else if Ascii.eqb c backslash then
        match rest with
        | [] => Raise JSONDecodeError
        | e :: rest' =>
            if Ascii.eqb e "u" then
              match rest' with
              | h1 :: h2 :: h3 :: h4 :: rest'' =>
                  match decode_u h1 h2 h3 h4 with
                  | Some x => scanstring rest'' (x :: acc)
                  | None => Raise JSONDecodeError
                  end
              | _ => Raise JSONDecodeError
              end
            else
              match decode_escape e with
              | Some x => scanstring rest' (x :: acc)
              | None => Raise JSONDecodeError
              end
        end
      else if (code c <? 32)%nat then Raise JSONDecodeError
      else scanstring rest (c :: acc)
  end.

(** The longest prefix of digits. *)
Fixpoint span_digits (l : list ascii) : list ascii * list ascii :=
  match l with
  | c :: l' =>
      if is_digit c
      then let (ds, rest) := span_digits l' in (c :: ds, rest)
      else ([], l)
  | [] => ([], [])
  end.

(** [NUMBER_RE]: an optional minus sign; a zero, or a nonzero digit and
    any digits; optionally a dot and at least one digit; optionally [e] or
    [E], an optional sign and at least one digit.  [scan_number] returns the
    token, whether it has a fraction or an exponent, and the rest of the
    input. *)
Definition scan_int_part (l : list ascii) : option (list ascii * list ascii) :=
  match l with
  | c :: l' =>
      if Ascii.eqb c "0" then Some ([c], l')
      else if in_range 49 57 c
      then let (ds, rest) := span_digits l' in Some (c :: ds, rest)
      else None
  | [] => None
  end.

Definition scan_frac (l : list ascii) : list ascii * list ascii :=
  match l with
  | c :: l' =>
      if Ascii.eqb c "." then
        match span_digits l' with
        | ([], _) => ([], l)
        | (ds, rest) => (c :: ds, rest)
        end
      else ([], l)
  | [] => ([], [])
  end.

Definition scan_exp (l : list ascii) : list ascii * list ascii :=
  match l with
  | c :: l' =>
      if Ascii.eqb c "e" || Ascii.eqb c "E" then
        match l' with
        | s :: l'' =>
            if Ascii.eqb s "-" || Ascii.eqb s "+" then
              match span_digits l'' with
              | ([], _) => ([], l)
              | (ds, rest) => (c :: s :: ds, rest)
              end
            else
              match span_digits l' with
              | ([], _) => ([], l)
              | (ds, rest) => (c :: ds, rest)
              end
        | [] => ([], l)
        end
      else ([], l)
  | [] => ([], [])
  end.

Definition scan_number (l : list ascii) : option (list ascii * bool * list ascii) :=
  let signed :=
    match l with
    | c :: l' =>
        if Ascii.eqb c "-"
        then match scan_int_part l' with
             | Some (ds, rest) => Some (c :: ds, rest)
             | None => None
             end
        else scan_int_part l
    | [] => None
    end in
  match signed with
  | None => None
  | Some (int_tok, rest) =>
      let (frac_tok, rest1) := scan_frac rest in
      let (exp_tok, rest2) := scan_exp rest1 in
      Some (List.app int_tok (List.app frac_tok exp_tok),
            match frac_tok, exp_tok with
            | [], [] => false
            | _, _ => true
            end,
            rest2)
  end.

(** [l] starts with the characters of [word]. *)
Fixpoint strip_prefix (word l : list ascii) : option (list ascii) :=
  match word with
  | [] => Some l
  | c :: word' =>
      match l with
      | d :: l' => if Ascii.eqb c d then strip_prefix word' l' else None
      | [] => None
      end
  end.

(** [dict(pairs)]: a later pair with the same key replaces the value and
    keeps the position of the first. *)
Fixpoint dict_set {V} (k : string) (v : V) (d : list (string * V)) : list (string * V) :=
  match d with
  | [] => [(k, v)]
  | (k', v') :: d' =>
      if String.eqb k k' then (k', v) :: d' else (k', v') :: dict_set k v d'
  end.

Definition dict_of_pairs {V} (pairs : list (string * V)) : list (string * V) :=
  fold_left (fun d kv => dict_set (fst kv) (snd kv) d) pairs [].

Local Open Scope result_scope.

Definition number_or_constant (l : list ascii) : result (pyval F * list ascii) :=
  match scan_number l with
  | Some (tok, true, rest) => Ok (PFloat (float_of_json (text tok)), rest)
  | Some (tok, false, rest) =>
      match py_int_of_str (text tok) with
      | Some z => Ok (PInt z, rest)
      | None => Raise JSONDecodeError
      end
  | None =>
      match strip_prefix (chars "NaN") l with
      | Some rest => Ok (PFloat float_nan, rest)
      | None =>
          match strip_prefix (chars "Infinity") l with
          | Some rest => Ok (PFloat float_inf, rest)
          | None =>
              match strip_prefix (chars "-Infinity") l with
              | Some rest => Ok (PFloat float_neg_inf, rest)
              | None => Raise JSONDecodeError
              end
          end
      end
  end.

(** [scan_once] with [JSONArray] and [JSONObject].  The recursion is on
    [fuel]: every call reads at least one character, so the length of the
    input is always enough, and [json_loads] starts from there. *)
Fixpoint scan_once (fuel : nat) (l : list ascii) {struct fuel}
    : result (pyval F * list ascii) :=
  match fuel with
  | O => Raise JSONDecodeError
  | S fuel' =>
      match l with
      | [] => Raise JSONDecodeError
      | c :: l' =>
          if Ascii.eqb c quote then
            r <- scanstring l' [] ;; Ok (PStr (fst r), snd r)
          else if Ascii.eqb c "{" then
            match skip_ws l' with
            | d :: l'' =>
                if Ascii.eqb d "}" then Ok (PDict [], l'')
                else if Ascii.eqb d quote then
                  r <- scan_pairs fuel' l'' [] ;;
                  Ok (PDict (dict_of_pairs (fst r)), snd r)
                else Raise JSONDecodeError
            | [] => Raise JSONDecodeError
            end
          else if Ascii.eqb c "[" then
            match skip_ws l' with
            | d :: l'' =>
                if Ascii.eqb d "]" then Ok (PList [], l'')
                else r <- scan_items fuel' (d :: l'') [] ;; Ok (PList (fst r), snd r)
            | [] => Raise JSONDecodeError
            end
          else
            match strip_prefix (chars "null") l with
            | Some rest => Ok (PNone, rest)
            | None =>
                match strip_prefix (chars "true") l with
                | Some rest => Ok (PBool true, rest)
                | None =>
                    match strip_prefix (chars "false") l with
                    | Some rest => Ok (PBool false, rest)
                    | None => number_or_constant l
                    end
                end
            end
      end
  end

(** The loop of [JSONArray], at the start of an item. *)
with scan_items (fuel : nat) (l : list ascii) (acc : list (pyval F)) {struct fuel}
    : result (list (pyval F) * list ascii) :=
  match fuel with
  | O => Raise JSONDecodeError
  | S fuel' =>
      r <- scan_once fuel' l ;;
      match skip_ws (snd r) with
      | d :: rest =>
          if Ascii.eqb d "]" then Ok (rev (fst r :: acc), rest)
          else if Ascii.eqb d ","
          then scan_items fuel' (skip_ws rest) (fst r :: acc)
          else Raise JSONDecodeError
      | [] => Raise JSONDecodeError
      end
  end

(** The loop of [JSONObject], after the opening quote of a key. *)
with scan_pairs (fuel : nat) (l : list ascii) (acc : list (string * pyval F)) {struct fuel}
    : result (list (string * pyval F) * list ascii) :=
  match fuel with
  | O => Raise JSONDecodeError
  | S fuel' =>
      k <- scanstring l [] ;;
      match skip_ws (snd k) with
      | c :: rest =>
          if Ascii.eqb c ":" then
            r <- scan_once fuel' (skip_ws rest) ;;
            match skip_ws (snd r) with
            | d :: rest' =>
                if Ascii.eqb d "}" then Ok (rev ((fst k, fst r) :: acc), rest')
                else if Ascii.eqb d "," then
                  match skip_ws rest' with
                  | q :: rest'' =>
                      if Ascii.eqb q quote
                      then scan_pairs fuel' rest'' ((fst k, fst r) :: acc)
                      else Raise JSONDecodeError
                  | [] => Raise JSONDecodeError
                  end
                else Raise JSONDecodeError
            | [] => Raise JSONDecodeError
            end
          else Raise JSONDecodeError
      | [] => Raise JSONDecodeError
      end
  end.

(** [json.loads]: leading white space, one value, trailing white space. *)
Definition json_loads (s : string) : result (pyval F) :=
  let l := skip_ws (chars s) in
  r <- scan_once (S (length l)) l ;;
  match skip_ws (snd r) with
  | [] => Ok (fst r)
  | _ :: _ => Raise JSONDecodeError
  end.

End Json.

(* ================================================================== *)
(** ** The formatter *)

Section Formatter.

Variable F : Type.
Context {float_ops : PyFloat F}.

(** The result dicts as Python values, keys in insertion order. *)
Definition py_of_segment (s : segment_info F) : pyval F :=
  PDict [("departure", departure s); ("arrival", arrival s);
         ("departure_time", departure_time s); ("arrival_time", arrival_time s);
         ("carrier", carrier s); ("flight_number", flight_number s);
         ("duration", duration s)].

Definition py_of_offer (o : parsed_offer F) : pyval F :=
  PDict [("price", PFloat (price o)); ("currency", currency o);
         ("segments", PList (map py_of_segment (segments o)));
         ("airlines", PList (airlines o))].

Definition py_of_params (p : search_params_t) : pyval F :=
  PDict [("origin", PStr (origin p)); ("destination", PStr (destination p));
         ("depart_date", PStr (depart_date p)); ("return_date", PStr (return_date p));
         ("passengers", PInt (passengers p))].

Definition py_of_urls (d : list (string * string)) : pyval F :=
  PDict (map (fun kv => (fst kv, PStr (snd kv))) d).

Definition py_of_result (r : search_result F) : pyval F :=
  PDict (List.app
           [("search_params", py_of_params (search_params r));
            ("api_results",
             match api_results r with
             | Some offers => PList (map py_of_offer offers)
             | None => PNone
             end);
            ("urls", py_of_urls (urls r));
            ("points_urls", py_of_urls (points_urls r));
            ("timestamp", PStr (timestamp r))]
           (match trip_name r with
            | Some name => [("trip_name", PStr name)]
            | None => []
            end)).

Local Open Scope result_scope.

(** The items of [", ".join(items)]: each must be a str. *)
Definition str_item (v : pyval F) : result string :=
  match v with
  | PStr s => Ok s
  | _ => Raise TypeError
  end.

Definition bullet : string := "  • ".

(** [f"  • {name.replace('_', ' ').title()}: {url}"] *)
Definition url_line (kv : string * string) : string :=
  bullet ++ py_title (py_replace_char "_" " " (fst kv)) ++ ": " ++ snd kv.

(** One line per offer of [enumerate(offers[:5], 1)]. *)
Fixpoint offer_lines (i : Z) (offers : list (parsed_offer F)) : result (list string) :=
  match offers with
  | [] => Ok []
  | o :: offers' =>
      names <- rmap str_item (airlines o) ;;
      let line := "  " ++ py_str_int i ++ ". $" ++ float_format_2f (price o)
                  ++ " - " ++ py_join ", " names in
      rest <- offer_lines (i + 1) offers' ;;
      Ok (line :: rest)
  end.

(** The lines the loop body appends for one result. *)
Definition result_lines (r : search_result F) : result (list string) :=
  let params := search_params r in
  let head :=
    [""; "Route: " ++ origin params ++ " → " ++ destination params;
     "Dates: " ++ depart_date params ++ " to " ++ return_date params;
     "Passengers: " ++ py_str_int (passengers params);
     py_repeat "-" 50] in
  api <- (if offers_truthy (api_results r)
          then
            ls <- offer_lines 1 (firstn 5 (match api_results r with
                                           | Some l => l
                                           | None => []
                                           end)) ;;
            Ok ("API RESULTS (prices in USD):" :: ls)
          else Ok ["API: Not available (check URLs below)"]) ;;
  Ok (List.app head
        (List.app api
           (List.app [""; "SEARCH URLS (click to compare prices):"]
              (List.app (map url_line (urls r)) [""])))).

Definition format_results (results : list (search_result F)) (output_format : string)
    : result string :=
  if String.eqb output_format "json"
  then Ok (json_dumps (PList (map py_of_result results)))
  else
    let lines := [py_repeat "=" 70; "FLIGHT SEARCH RESULTS"; py_repeat "=" 70] in
    body <- rmap result_lines results ;;
    let lines := List.app lines (concat body) in
    let lines := List.app lines [py_repeat "=" 70; "POINTS PORTALS:"] in
    (* results[0] *)
    first <- match results with
             | r :: _ => Ok r
             | [] => Raise IndexError
             end ;;
    let lines := List.app lines (map url_line (points_urls first)) in
    let lines := List.app lines
      [""; "NOTE: Points redemption values vary. Check portals for current rates:";
       "  - Chase UR: Often 1.25-1.5 cents/point via portal";
       "  - Citi TY: Often 1-1.25 cents/point via portal";
       "  - Transfer partners may offer better value"] in
    Ok (py_join nl lines).

End Formatter.

(* ================================================================== *)
(** ** An instance of [PyFloat] for running examples

    Finite decimals, exactly: a sign, an integer part and the fraction
    digits without trailing zeros.  It accepts the literals
    [digits] and [digits.digits] with an optional minus sign.  The theorems
    below are stated for every instance; this one evaluates them on examples. *)

Record decimal : Type := mk_decimal {
  dec_neg : bool;
  dec_int : N;
  dec_frac : Decimal.uint
}.

(** Drop trailing zeros. *)
Definition trim_frac (d : Decimal.uint) : Decimal.uint :=
  Decimal.rev (Decimal.nzhead (Decimal.rev d)).

Definition split_dot (l : list ascii) : list ascii * option (list ascii) :=
  let (i, rest) := span_digits l in
  match rest with
  | [] => (i, None)
  | c :: f => if Ascii.eqb c "." then (i, Some f) else ([], None)
  end.

Definition decimal_of_chars (neg : bool) (l : list ascii) : option decimal :=
  match split_dot l with
  | ([], _) => None
  | (i, None) =>
      option_map (fun u => mk_decimal neg (N.of_uint u) Decimal.Nil)
                 (NilEmpty.uint_of_string (text i))
  | (i, Some f) =>
      match f, NilEmpty.uint_of_string (text i), NilEmpty.uint_of_string (text f) with
      | _ :: _, Some u, Some v => Some (mk_decimal neg (N.of_uint u) (trim_frac v))
      | _, _, _ => None
      end
  end.

Definition decimal_of_str (s : string) : option decimal :=
  match chars s with
  | c :: l => if Ascii.eqb c "-" then decimal_of_chars true l
              else decimal_of_chars false (c :: l)
  | [] => None
  end.

Definition decimal_is_zero (d : decimal) : bool :=
  (dec_int d =? 0)%N &&
  match dec_frac d with Decimal.Nil => true | _ => false end.

Definition decimal_eqb (x y : decimal) : bool :=
  (decimal_is_zero x && decimal_is_zero y) ||
  (Bool.eqb (dec_neg x) (dec_neg y) && (dec_int x =? dec_int y)%N &&
   String.eqb (NilEmpty.string_of_uint (dec_frac x)) (NilEmpty.string_of_uint (dec_frac y))).

Definition decimal_of_int (z : Z) : decimal :=
  mk_decimal (z <? 0) (Z.to_N (Z.abs z)) Decimal.Nil.

(** Two fraction digits, the further ones cut. *)
Definition decimal_format_2f (d : decimal) : string :=
  (if dec_neg d then "-" else "") ++ NilZero.string_of_uint (N.to_uint (dec_int d)) ++ "." ++
  text (firstn 2 (List.app (chars (NilEmpty.string_of_uint (dec_frac d))) (chars "00"))).

#[export] Instance decimal_float : PyFloat decimal := {
  float_of_int z := Some (decimal_of_int z);
  float_of_str := decimal_of_str;
  float_of_json s :=
    match decimal_of_str s with
    | Some d => d
    | None => decimal_of_int 0
    end;
  float_nan := decimal_of_int 0;
  float_inf := decimal_of_int 0;
  float_neg_inf := decimal_of_int 0;
  float_eqb := decimal_eqb;
  float_eq_int d z := decimal_eqb d (decimal_of_int z);
  float_repr d :=
    TextDecimal (dec_neg d) (dec_int d)
      (match dec_frac d with
       | Decimal.Nil => None
       | f => Some f
       end)
      None;
  float_format_2f := decimal_format_2f
}.

(* ================================================================== *)
(** ** Predicates used in the statements *)

Section Shapes.

Variable F : Type.
Context {float_ops : PyFloat F}.

Definition is_dict (v : pyval F) : bool :=
  match v with PDict _ => true | _ => false end.

(** The value under [key], or [default] when the key is missing. *)
Definition field (v : pyval F) (key : string) (default : pyval F) : pyval F :=
  match v with
  | PDict d => match dict_get key d with Some x => x | None => default end
  | _ => default
  end.

Definition iterable (v : pyval F) : bool := is_ok (py_iter v).

Definition items_of (v : pyval F) : list (pyval F) :=
  match py_iter v with Ok l => l | Raise _ => [] end.

(** A segment the parser can read: an object whose [departure] and
    [arrival], when present, are objects and whose [carrierCode], when
    present, is hashable. *)
Definition segment_shaped (seg : pyval F) : bool :=
  is_dict seg
  && is_dict (field seg "departure" (PDict []))
  && is_dict (field seg "arrival" (PDict []))
  && hashable (field seg "carrierCode" PNone).

Definition itinerary_shaped (it : pyval F) : bool :=
  is_dict it
  && iterable (field it "segments" (PList []))
  && forallb segment_shaped (items_of (field it "segments" (PList []))).

(** An offer the parser can read: an object whose [price], when present, is
    an object with a [total] that [float] accepts, and whose [itineraries],
    when present, can be iterated and hold readable itineraries. *)
Definition offer_shaped (o : pyval F) : bool :=
  is_dict o
  && is_dict (field o "price" (PDict []))
  && is_ok (py_float (field (field o "price" (PDict [])) "total" (PInt 0)))
  && iterable (field o "itineraries" (PList []))
  && forallb itinerary_shaped (items_of (field o "itineraries" (PList []))).

Definition response_shaped (response : pyval F) : bool :=
  is_dict response
  && iterable (field response "data" (PList []))
  && forallb offer_shaped (items_of (field response "data" (PList []))).

(** Both credentials are set and not empty. *)
Definition configured (w : world F) : bool :=
  nonempty (environ w "AMADEUS_API_KEY") && nonempty (environ w "AMADEUS_API_SECRET").

(** The reply the world gives to the token request of the next call. *)
Definition token_reply (w : world F) : result (pyval F) :=
  urlopen_json w (length (requests w))
    (TokenRequest (environ w "AMADEUS_API_KEY") (environ w "AMADEUS_API_SECRET")).

(** The reply to the offers request that follows a token request. *)
Definition offers_reply (w : world F) (tok : pyval F)
    (origin destination depart_date return_date : string) (passengers : Z)
    : result (pyval F) :=
  urlopen_json w (S (length (requests w)))
    (OffersRequest tok origin destination depart_date return_date passengers 10).

(** The ways the authenticate-and-search cycle of one call can fail. *)
Inductive api_failure (w : world F)
    (origin destination depart_date return_date : string) (passengers : Z) : Prop :=
  | auth_request_fails e :
      token_reply w = Raise e ->
      api_failure w origin destination depart_date return_date passengers
  | auth_body_not_object v :
      token_reply w = Ok v -> is_dict v = false ->
      api_failure w origin destination depart_date return_date passengers
  | auth_token_missing v :
      token_reply w = Ok v -> is_dict v = true ->
      truthy (field v "access_token" PNone) = false ->
      api_failure w origin destination depart_date return_date passengers
  | search_request_fails v e :
      token_reply w = Ok v -> is_dict v = true ->
      truthy (field v "access_token" PNone) = true ->
      offers_reply w (field v "access_token" PNone)
                   origin destination depart_date return_date passengers = Raise e ->
      api_failure w origin destination depart_date return_date passengers
  | search_body_malformed v body e :
      token_reply w = Ok v -> is_dict v = true ->
      truthy (field v "access_token" PNone) = true ->
      offers_reply w (field v "access_token" PNone)
                   origin destination depart_date return_date passengers = Ok body ->
      _parse_offers body = Raise e ->
      api_failure w origin destination depart_date return_date passengers.

(** A date string [strptime] accepts. *)
Definition valid_date (s : string) : bool := is_ok (strptime s).

(** Dict keys are unique, here and in every dict inside. *)
Fixpoint keys_unique (v : pyval F) : Prop :=
  match v with
  | PList items =>
      (fix all (l : list (pyval F)) : Prop :=
         match l with
         | [] => True
         | x :: l' => keys_unique x /\ all l'
         end) items
  | PDict entries =>
      NoDup (map fst entries) /\
      (fix all (l : list (string * pyval F)) : Prop :=
         match l with
         | [] => True
         | (_, x) :: l' => keys_unique x /\ all l'
         end) entries
  | _ => True
  end.

(** The value [json.loads] gives back for what [json.dumps] wrote for [v]:
    [v] itself, each float read back from its text. *)
Definition reread_float (f : F) : F :=
  match float_repr f with
  | TextNaN => float_nan
  | TextInfinity false => float_inf
  | TextInfinity true => float_neg_inf
  | t => float_of_json (text (render_float t))
  end.

Fixpoint reread (v : pyval F) : pyval F :=
  match v with
  | PFloat f => PFloat (reread_float f)
  | PList items => PList (map reread items)
  | PDict entries =>
      PDict ((fix go (l : list (string * pyval F)) : list (string * pyval F) :=
                match l with
                | [] => []
                | (k, x) :: l' => (k, reread x) :: go l'
                end) entries)
  | _ => v
  end.

(** The dicts of a result that hold caller-supplied keys have unique keys,
    as has every value kept from the API response. *)
Definition result_keys_unique (r : search_result F) : Prop :=
  keys_unique (py_of_result r).

End Shapes.

(** Example worlds, over the decimal floats.  In [offline_world] the
    credentials are set and every request fails. *)
Definition example_environ (name : string) : option string :=
  if String.eqb name "AMADEUS_API_KEY" then Some "key"
  else if String.eqb name "AMADEUS_API_SECRET" then Some "secret"
  else None.

Definition offline_world : world decimal :=
  mk_world example_environ (fun _ _ => Raise URLError)
           (fun _ => "2026-01-10T09:00:00") [] 0 [].

Definition example_offer : pyval decimal :=
  PDict [("price", PDict [("total", PStr "245.50"); ("currency", PStr "USD")]);
         ("itineraries",
          PList [PDict [("segments",
            PList [PDict [("departure", PDict [("iataCode", PStr "PHL");
                                               ("at", PStr "2026-01-24T07:00:00")]);
                          ("arrival", PDict [("iataCode", PStr "DEN")]);
                          ("carrierCode", PStr "UA");
                          ("number", PStr "1234")]])]])].

(** The network answers every token request with a token and every offers
    request with two offers, the second without any field. *)
Definition online_world : world decimal :=
  mk_world example_environ
    (fun _ req =>
       match req with
       | TokenRequest _ _ => Ok (PDict [("access_token", PStr "t0k3n")])
       | OffersRequest _ _ _ _ _ _ _ => Ok (PDict [("data", PList [example_offer; PDict []])])
       end)
    (fun _ => "2026-01-10T09:00:00") [] 0 [].

(* ================================================================== *)
(** ** Notions used in the proofs *)

(** A digit string, as a predicate on characters. *)
Definition all_digits (l : list ascii) : Prop := Forall (fun c => is_digit c = true) l.

(** The rest of the input does not continue a number. *)
Definition number_end (rest : list ascii) : bool :=
  match rest with
  | [] => true
  | c :: _ => negb (is_digit c || Ascii.eqb c "." || Ascii.eqb c "e" || Ascii.eqb c "E")
  end.

(** [scan_number] after its sign. *)
Definition scan_unsigned (sign l : list ascii) : option (list ascii * bool * list ascii) :=
  match scan_int_part l with
  | None => None
  | Some (int_tok, rest) =>
      let (frac_tok, rest1) := scan_frac rest in
      let (exp_tok, rest2) := scan_exp rest1 in
      Some (List.app (List.app sign int_tok) (List.app frac_tok exp_tok),
            match frac_tok, exp_tok with
            | [], [] => false
            | _, _ => true
            end,
            rest2)
  end.

(** The fraction and exponent of the text of a float. *)
Definition decimal_tail (frac : option Decimal.uint) (expo : option (bool * Decimal.uint))
    : list ascii :=
  match frac, expo with
  | None, None => chars ".0"
  | _, _ =>
      List.app
        (match frac with
         | Some d => "."%char :: uint_chars d
         | None => []
         end)
        (match expo with
         | Some (eneg, d) =>
             "e"%char :: (if eneg then "-"%char else "+"%char) :: uint_chars d
         | None => []
         end)
  end.

(** The first character of an encoded value. *)
Definition value_start (c : ascii) : bool :=
  Ascii.eqb c quote || Ascii.eqb c "{" || Ascii.eqb c "[" || Ascii.eqb c "n"
  || Ascii.eqb c "t" || Ascii.eqb c "f" || Ascii.eqb c "-" || is_digit c
  || Ascii.eqb c "N" || Ascii.eqb c "I".

(** What follows an encoded value: nothing, a comma or a line break. *)
Definition value_end (rest : list ascii) : bool :=
  match rest with
  | [] => true
  | c :: _ => Ascii.eqb c "," || Ascii.eqb c newline
  end.

Definition url_names : list string := ["google_flights"; "kayak"; "skyscanner"; "southwest"].

(** The parameters of the search for one pair of dates of a preset. *)
Definition params_of (p : preset) (dr : string * string) : search_params_t :=
  mk_params (p_origin p) (p_destination p) (fst dr) (snd dr) (p_passengers p).

Definition colorado_trip : preset :=
  mk_preset "PHL" "DEN"
    ["2026-01-23"; "2026-01-24"]
    ["2026-01-26"; "2026-01-27"; "2026-01-28"; "2026-01-29"]
    2
    "Colorado snowboarding trip - Jan 2026".

Section ProofNotions.

Variable F : Type.
Context {float_ops : PyFloat F}.

(** What a computation may change in the world: the log of requests and
    the lines on standard error, never the clock. *)
Definition keeps_clock (w w' : world F) : Prop :=
  clock_reads w' = clock_reads w /\ now_isoformat w' = now_isoformat w.

(** The parsed form of a readable segment: each field the value found, or
    the default when it is missing. *)
Definition segment_fields (seg : pyval F) : segment_info F :=
  mk_segment (field (field seg "departure" (PDict [])) "iataCode" PNone)
             (field (field seg "arrival" (PDict [])) "iataCode" PNone)
             (field (field seg "departure" (PDict [])) "at" PNone)
             (field (field seg "arrival" (PDict [])) "at" PNone)
             (field seg "carrierCode" PNone)
             (field seg "number" PNone)
             (field seg "duration" PNone).

(** The items of a list after the first, and the entries of a dict after
    the first, as [encode] writes them. *)
Definition encode_items (level : nat) (xs : list (pyval F)) : list ascii :=
  flat_map (fun y => ","%char ::
                     List.app (newline_indent (S level)) (encode (S level) y)) xs.

Definition encode_entry (level : nat) (kv : string * pyval F) : list ascii :=
  List.app (encode_string (fst kv))
           (":"%char :: " "%char :: encode (S level) (snd kv)).

Definition encode_entries (level : nat) (xs : list (string * pyval F)) : list ascii :=
  flat_map (fun kv => ","%char ::
                      List.app (newline_indent (S level)) (encode_entry level kv)) xs.

Fixpoint size (v : pyval F) : nat :=
  match v with
  | PList items =>
      S ((fix sum (l : list (pyval F)) : nat :=
            match l with
            | [] => O
            | x :: l' => S (size x + sum l')
            end) items)
  | PDict entries =>
      S ((fix sum (l : list (string * pyval F)) : nat :=
            match l with
            | [] => O
            | (_, x) :: l' => S (size x + sum l')
            end) entries)
  | _ => 1%nat
  end.

Definition items_size (xs : list (pyval F)) : nat :=
  fold_right (fun x n => S (size x + n)) 0%nat xs.

Definition entries_size (xs : list (string * pyval F)) : nat :=
  fold_right (fun kv n => S (size (snd kv) + n)) 0%nat xs.

(** The property proved by induction on the value. *)
Definition reads_back (v : pyval F) : Prop :=
  keys_unique v ->
  forall (level fuel : nat) (rest : list ascii),
    (size v <= fuel)%nat -> value_end rest = true ->
    scan_once fuel (List.app (encode level v) rest) = Ok (reread v, rest).

End ProofNotions.

(** An example sequence: a result with one offer and a result without. *)
Definition example_results : list (search_result decimal) :=
  [mk_result (mk_params "PHL" "DEN" "2026-01-24" "2026-01-26" 2)
     (Some [mk_offer (mk_decimal false 245 (Decimal.D5 Decimal.Nil)) (PStr "USD")
                     [mk_segment (PStr "PHL") (PStr "DEN") (PStr "2026-01-24T07:00:00")
                                 PNone (PStr "UA") (PStr "1234") PNone]
                     [PStr "UA"]])
     [("kayak", "https://www.kayak.com/flights/PHL-DEN/2026-01-24/2026-01-26/2adults")]
     portal_urls "2026-01-10T09:00:00" (Some "colorado_trip");
   mk_result (mk_params "PHL" "DEN" "2026-01-24" "2026-01-27" 2)
     None
     [("kayak", "https://www.kayak.com/flights/PHL-DEN/2026-01-24/2026-01-27/2adults")]
     portal_urls "2026-01-10T09:00:01" None].

(* ================================================================== *)
(** ** The command line *)

Section CommandLine.

Variable F : Type.
Context {float_ops : PyFloat F}.

(** The namespace [parser.parse_args()] returns; [main] starts from it.
    An option that was not given is [None], [--passengers] defaults to 1. *)
Record cli_args : Type := mk_args {
  arg_config : option string;
  arg_origin : option string;
  arg_dest : option string;
  arg_depart : option string;
  arg_return_date : option string;
  arg_passengers : Z;
  arg_json : bool;
  arg_no_api : bool;
  arg_save : option string;
  arg_list_presets : bool
}.

(** What is written to [sys.stdout]: a printed text, or the help text of
    the parser. *)
Inductive output : Type :=
  | Printed (s : string)
  | HelpText.

(** The process: the world of the searches, standard output, the files
    written, and the paths [open(path, "w")] can open. *)
Record process : Type := mk_process {
  net : world F;
  stdout : list output;
  files : list (string * string);
  writable : string -> bool
}.

(** How [main] ends: it returns, [sys.exit(code)], an exception of the
    script's own calls, or the [OSError] of [open]. *)
Inductive exit_status : Type :=
  | Returns
  | SystemExit (code : Z)
  | Raises (e : exn)
  | RaisesOSError.

Definition print (s : string) (ps : process) : process :=
  mk_process (net ps) (List.app (stdout ps) [Printed s]) (files ps) (writable ps).

Definition print_help (ps : process) : process :=
  mk_process (net ps) (List.app (stdout ps) [HelpText]) (files ps) (writable ps).

Definition with_net (w : world F) (ps : process) : process :=
  mk_process w (stdout ps) (files ps) (writable ps).

(** [with open(path, "w") as f: f.write(content)] on a path that opens. *)
Definition write_file (path content : string) (ps : process) : process :=
  mk_process (net ps) (stdout ps) (dict_set path content (files ps)) (writable ps).

(** The four lines printed for one preset. *)
Definition preset_listing (entry : string * preset) : list string :=
  let (name, config) := entry in
  ["  " ++ name ++ ": " ++ description config;
   "    Route: " ++ p_origin config ++ arrow ++ p_destination config;
   "    Outbound: " ++ py_join ", " (outbound_dates config);
   "    Return: " ++ py_join ", " (return_dates config)].

(** The text of an option that is given. *)
Definition value_of (o : option string) : string :=
  match o with
  | Some s => s
  | None => ""
  end.

(** The [if args.config: ... elif ...: ...] that computes [results];
    [None] is the [else] branch. *)
Definition cli_search (args : cli_args)
    : option (world F -> result (list (search_result F)) * world F) :=
  if nonempty (arg_config args)
  then Some (search_date_combinations (value_of (arg_config args)))
  else if nonempty (arg_origin args) && nonempty (arg_dest args)
          && nonempty (arg_depart args) && nonempty (arg_return_date args)
  then Some (bind (search_flights (value_of (arg_origin args)) (value_of (arg_dest args))
                                  (value_of (arg_depart args))
                                  (value_of (arg_return_date args))
                                  (arg_passengers args) (negb (arg_no_api args)))
                  (fun result => ret [result]))
  else None.

Definition main (args : cli_args) (ps : process) : exit_status * process :=
  if arg_list_presets args then
    (Returns,
     fold_left (fun ps s => print s ps)
               ("Available presets:" :: flat_map preset_listing PRESETS) ps)
  else
    match cli_search args with
    | None =>
        (SystemExit 1,
         print (nl ++ "Error: Either --config or all of --origin, --dest, --depart, --return are required")
               (print_help ps))
    | Some search =>
        match search (net ps) with
        | (Raise e, w) => (Raises e, with_net w ps)
        | (Ok results, w) =>
            let output_format := if arg_json args then "json" else "text" in
            match format_results results output_format with
            | Raise e => (Raises e, with_net w ps)
            | Ok output =>
                let ps := print output (with_net w ps) in
                if nonempty (arg_save args) then
                  let path := value_of (arg_save args) in
                  if writable ps path then
                    (* json.dump(results, f, indent=2) *)
                    let ps := write_file path
                                (json_dumps (PList (map (fun r => py_of_result r) results)))
                                ps in
                    (Returns,
                     with_net (snd (eprint (Line (nl ++ "Results saved to: " ++ path))
                                           (net ps))) ps)
                  else (RaisesOSError, ps)
                else (Returns, ps)
            end
        end
    end.

End CommandLine.

(* ================================================================== *)
(** ** Further notions used in the statements *)

(** The characters a percent-encoded value is made of: the ones [quote]
    keeps, [+] for a space, and [%] before two hexadecimal digits. *)
Definition url_safe (c : ascii) : bool :=
  always_safe c || Ascii.eqb c "+" || Ascii.eqb c "%".

(** The number of occurrences of a character in a string. *)
Definition count_char (c : ascii) (s : string) : nat :=
  count_occ ascii_dec (chars s) c.

(** [str.isdigit()] on ASCII text of the given length. *)
Definition digits_n (n : nat) (s : string) : Prop :=
  String.length s = n /\ Forall (fun c => is_digit c = true) (chars s).

Section ParsingNotions.

Variable F : Type.
Context {float_ops : PyFloat F}.

(** The segments of an offer, itinerary after itinerary. *)
Definition offer_segments (o : pyval F) : list (pyval F) :=
  flat_map (fun it => items_of (field it "segments" (PList [])))
           (items_of (field o "itineraries" (PList []))).

(** The carrier code the inner loop adds to the set. *)
Definition carrier_code (seg : pyval F) : pyval F := field seg "carrierCode" PNone.

(** A value that [==] identifies: only itself compares equal to it. *)
Definition exact (v : pyval F) : Prop := forall x, py_eqb v x = true -> x = v.

(** No element compares equal to an earlier one. *)
Definition distinct (s : list (pyval F)) : Prop :=
  ForallOrdPairs (fun a b => py_eqb b a = false) s.

(** What the loops of [parse_offer] do to the accumulator while reading
    [segs]. *)
Definition reads_segments (segs : list (pyval F))
    (acc acc' : list (segment_info F) * list (pyval F)) : Prop :=
  fst acc' = List.app (fst acc) (map (fun s => segment_fields s) segs)
  /\ incl (snd acc) (snd acc')
  /\ (forall a, In a (snd acc') -> In a (snd acc) \/ In a (map carrier_code segs))
  /\ (forall v, In v (map carrier_code segs) ->
       In v (snd acc') \/ exists x, In x (snd acc') /\ py_eqb v x = true)
  /\ (distinct (snd acc) -> distinct (snd acc')).

(** The exceptions the parser can raise: [.get] on a value that is no
    dict, iteration over or [float] of a value of the wrong type, a set
    entry that cannot be hashed, [float] of a string that is no number or
    of an integer too large. *)
Definition parse_error (e : exn) : Prop :=
  e = AttributeError \/ e = TypeError
  \/ e = ValueError InvalidFloatLiteral \/ e = OverflowError.

End ParsingNotions.

Section ReportNotions.

Variable F : Type.
Context {float_ops : PyFloat F}.

Definition is_str (v : pyval F) : bool :=
  match v with
  | PStr _ => true
  | _ => false
  end.

(** The offers the text report shows for a result: [offers[:5]]. *)
Definition shown_offers (r : search_result F) : list (parsed_offer F) :=
  firstn 5 (match api_results r with
            | Some l => l
            | None => []
            end).

(** The airlines of every shown offer can be joined. *)
Definition reportable (r : search_result F) : bool :=
  forallb (fun o => forallb is_str (airlines o)) (shown_offers r).

(** Two results agree on what the loop of the text report reads. *)
Definition same_report_input (a b : search_result F) : Prop :=
  search_params a = search_params b
  /\ api_results a = api_results b
  /\ urls a = urls b.

(** Two sequences of results agree on the points-portal URLs of their
    first result. *)
Definition same_first_portals (rs rs' : list (search_result F)) : Prop :=
  match rs, rs' with
  | r :: _, r' :: _ => points_urls r = points_urls r'
  | _, _ => True
  end.

End ReportNotions.

Section JsonNotions.

Variable F : Type.
Context {float_ops : PyFloat F}.

(** A result without API offers whose URL dicts have no repeated name. *)
Definition without_offers (r : search_result F) : Prop :=
  api_results r = None
  /\ NoDup (map fst (urls r))
  /\ NoDup (map fst (points_urls r)).

End JsonNotions.

Section ApiNotions.

Variable F : Type.
Context {float_ops : PyFloat F}.

(** The token request of a client created in [w]. *)
Definition credentials_request (w : world F) : request F :=
  TokenRequest (environ w "AMADEUS_API_KEY") (environ w "AMADEUS_API_SECRET").

(** The token a reply to the token request holds. *)
Definition access_token (v : pyval F) : pyval F := field v "access_token" PNone.

Definition searching_line (origin destination : string) : diag :=
  Line ("Searching Amadeus API for " ++ origin ++ arrow ++ destination ++ "...").

Definition not_configured_line : diag :=
  Line "Amadeus API not configured (set AMADEUS_API_KEY and AMADEUS_API_SECRET)".

(** The line that reports the number of offers, printed when there is one
    at least. *)
Definition found_lines (offers : list (parsed_offer F)) : list diag :=
  match offers with
  | [] => []
  | _ :: _ => [Line ("Found " ++ py_str_int (Z.of_nat (length offers)) ++ " offers")]
  end.

(** The runs of the API block of [search_flights] in [w]: its value, the
    requests it sends and the lines it prints, by the replies the world
    gives. *)
Inductive api_run (w : world F)
    (origin destination depart_date return_date : string) (passengers : Z)
    : option (list (parsed_offer F)) -> list (request F) -> list diag -> Prop :=
  | run_not_configured :
      configured w = false ->
      api_run w origin destination depart_date return_date passengers
        None [] [not_configured_line]
  | run_auth_error e :
      configured w = true ->
      token_reply w = Raise e ->
      api_run w origin destination depart_date return_date passengers
        None [credentials_request w]
        [searching_line origin destination; ErrorLine "Amadeus auth error: " e]
  | run_auth_not_object v :
      configured w = true ->
      token_reply w = Ok v -> is_dict v = false ->
      api_run w origin destination depart_date return_date passengers
        None [credentials_request w]
        [searching_line origin destination;
         ErrorLine "Amadeus auth error: " AttributeError]
  | run_no_token v :
      configured w = true ->
      token_reply w = Ok v -> is_dict v = true ->
      truthy (access_token v) = false ->
      api_run w origin destination depart_date return_date passengers
        None [credentials_request w] [searching_line origin destination]
  | run_search_error v e :
      configured w = true ->
      token_reply w = Ok v -> is_dict v = true ->
      truthy (access_token v) = true ->
      offers_reply w (access_token v) origin destination depart_date return_date
                   passengers = Raise e ->
      api_run w origin destination depart_date return_date passengers
        None
        [credentials_request w;
         OffersRequest (access_token v) origin destination depart_date return_date
                       passengers 10]
        [searching_line origin destination; ErrorLine "Amadeus search error: " e]
  | run_parse_error v body e :
      configured w = true ->
      token_reply w = Ok v -> is_dict v = true ->
      truthy (access_token v) = true ->
      offers_reply w (access_token v) origin destination depart_date return_date
                   passengers = Ok body ->
      _parse_offers body = Raise e ->
      api_run w origin destination depart_date return_date passengers
        None
        [credentials_request w;
         OffersRequest (access_token v) origin destination depart_date return_date
                       passengers 10]
        [searching_line origin destination; ErrorLine "Amadeus search error: " e]
  | run_offers v body offers :
      configured w = true ->
      token_reply w = Ok v -> is_dict v = true ->
      truthy (access_token v) = true ->
      offers_reply w (access_token v) origin destination depart_date return_date
                   passengers = Ok body ->
      _parse_offers body = Ok offers ->
      api_run w origin destination depart_date return_date passengers
        (Some offers)
        [credentials_request w;
         OffersRequest (access_token v) origin destination depart_date return_date
                       passengers 10]
        (searching_line origin destination :: found_lines offers).

(** The world after a computation that read the clock [ticks] times, sent
    [sent] and printed [said]. *)
Definition world_after (w : world F) (ticks : nat) (sent : list (request F))
    (said : list diag) : world F :=
  mk_world (environ w) (urlopen_json w) (now_isoformat w)
           (List.app (requests w) sent) (ticks + clock_reads w)
           (List.app (stderr w) said).

Definition is_token_request (r : request F) : bool :=
  match r with
  | TokenRequest _ _ => true
  | OffersRequest _ _ _ _ _ _ _ => false
  end.

End ApiNotions.

Section PresetNotions.

Variable F : Type.
Context {float_ops : PyFloat F}.

(** The number of token requests among the requests sent. *)
Definition token_requests (l : list (request F)) : nat :=
  length (filter (fun r => is_token_request r) l).

(** The world in which the search of one combination starts: its banner
    is on standard error. *)
Definition announced (w : world F) (depart return_ : string) : world F :=
  mk_world (environ w) (urlopen_json w) (now_isoformat w) (requests w) (clock_reads w)
           (List.app (stderr w)
              [Line (nl ++ py_repeat "=" 60);
               Line ("Searching: " ++ depart ++ arrow ++ return_);
               Line (py_repeat "=" 60)]).

(** [r] is what [search_flights] returns for the pair of dates [dr] of the
    preset, with the API enabled, with the preset name added; [w'] is the
    world the call leaves. *)
Definition searched_pair (name : string) (p : preset) (dr : string * string)
    (w : world F) (r : search_result F) (w' : world F) : Prop :=
  exists r0,
    search_flights (p_origin p) (p_destination p) (fst dr) (snd dr) (p_passengers p) true
                   (announced w (fst dr) (snd dr)) = (Ok r0, w')
    /\ r = set_trip_name name r0.

(** One call per pair, in the order of the pairs, each starting in the
    world the call before it left. *)
Fixpoint searched_in_order (name : string) (p : preset) (pairs : list (string * string))
    (w : world F) (results : list (search_result F)) (w' : world F) {struct pairs} : Prop :=
  match pairs, results with
  | [], [] => w' = w
  | dr :: pairs', r :: results' =>
      exists w1,
        searched_pair name p dr w r w1
        /\ searched_in_order name p pairs' w1 results' w'
  | _, _ => False
  end.

(** The URL dicts of the result for the pair of dates [dr] of a preset:
    the four comparison sites with the URL of each generator, and the two
    portals. *)
Definition pair_urls (p : preset) (dr : string * string) (r : search_result F) : Prop :=
  exists sky,
    generate_skyscanner_url (p_origin p) (p_destination p) (fst dr) (snd dr)
                            (p_passengers p) = Ok sky
    /\ urls r
       = [("google_flights",
           generate_google_flights_direct_url (p_origin p) (p_destination p)
             (fst dr) (snd dr) (p_passengers p));
          ("kayak",
           generate_kayak_url (p_origin p) (p_destination p) (fst dr) (snd dr)
             (p_passengers p));
          ("skyscanner", sky);
          ("southwest",
           generate_southwest_url (p_origin p) (p_destination p) (fst dr) (snd dr)
             (p_passengers p))]
    /\ points_urls r
       = [("chase_ultimate_rewards", "https://ultimaterewardspoints.chase.com/travel");
          ("citi_thankyou", "https://www.thankyou.com/cms/thankyou/travel.page")].

End PresetNotions.


(** Worlds without credentials, and with a token endpoint whose reply
    holds no token. *)
Definition bare_world : world decimal :=
  mk_world (fun _ => None) (fun _ _ => Raise URLError)
           (fun _ => "2026-01-10T09:00:00") [] 0 [].

Definition tokenless_world : world decimal :=
  mk_world example_environ (fun _ _ => Ok (PDict [("expires_in", PInt 1799)]))
           (fun _ => "2026-01-10T09:00:00") [] 0 [].

(** The characters of the output of [json.dumps] under [ensure_ascii]:
    printable ASCII and the line break of the indentation. *)
Definition json_char (c : ascii) : bool :=
  in_range 32 126 c || (code c =? 10)%nat.

(** The parsed form of [example_offer], and a result holding it. *)
Definition example_parsed_offer : parsed_offer decimal :=
  mk_offer (mk_decimal false 245 (Decimal.D5 Decimal.Nil)) (PStr "USD")
    [mk_segment (PStr "PHL") (PStr "DEN") (PStr "2026-01-24T07:00:00") PNone
                (PStr "UA") (PStr "1234") PNone]
    [PStr "UA"].

Definition example_result : search_result decimal :=
  mk_result (mk_params "PHL" "DEN" "2026-01-24" "2026-01-26" 2)
    (Some [example_parsed_offer])
    [("kayak", "https://www.kayak.com/flights/PHL-DEN/2026-01-24/2026-01-26/2adults")]
    portal_urls "2026-01-10T09:00:00" None.

(** The parsed form of an offer without any field. *)
Definition empty_parsed_offer : parsed_offer decimal :=
  mk_offer (mk_decimal false 0 Decimal.Nil) (PStr "USD") [] [].

(** A world whose offers reply holds an offer with a segment without
    carrier code, and processes started in the example worlds with every
    path writable. *)
Definition codeless_world : world decimal :=
  mk_world example_environ
    (fun _ req =>
       match req with
       | TokenRequest _ _ => Ok (PDict [("access_token", PStr "t0k3n")])
       | OffersRequest _ _ _ _ _ _ _ =>
           Ok (PDict [("data",
                 PList [PDict [("itineraries",
                          PList [PDict [("segments", PList [PDict []])]])]])])
       end)
    (fun _ => "2026-01-10T09:00:00") [] 0 [].

Definition example_process (w : world decimal) : process decimal :=
  mk_process w [] [("notes.txt", "keep")] (fun _ => true).

Definition manual_args (depart : string) (json no_api : bool) (save : option string)
    : cli_args :=
  mk_args None (Some "PHL") (Some "DEN") (Some depart) (Some "2026-01-26") 2
          json no_api save false.


(* ================================================================== *)
(** * Properties *)

Unset Implicit Arguments.
Unset Maximal Implicit Insertion.

(** ** Strings *)

Lemma append_assoc (a b c : string) : (a ++ b) ++ c = a ++ (b ++ c).
Proof.
  induction a as [|x a IH]; simpl; [reflexivity | now rewrite IH].
Qed.

Lemma append_empty_r (a : string) : a ++ "" = a.
Proof.
  induction a as [|x a IH]; simpl; [reflexivity | now rewrite IH].
Qed.

Lemma chars_app (a b : string) : chars (a ++ b) = List.app (chars a) (chars b).
Proof.
  unfold chars. induction a as [|x a IH]; simpl; [reflexivity | now rewrite IH].
Qed.

Lemma text_app (l m : list ascii) : text (List.app l m) = text l ++ text m.
Proof.
  unfold text. induction l as [|x l IH]; simpl; [reflexivity | now rewrite IH].
Qed.

Lemma text_chars (s : string) : text (chars s) = s.
Proof. apply string_of_list_ascii_of_string. Qed.

Lemma chars_text (l : list ascii) : chars (text l) = l.
Proof. apply list_ascii_of_string_of_list_ascii. Qed.

(** *** The decimal text of an integer *)

Lemma uint_digits (d : Decimal.uint) : all_digits (chars (NilEmpty.string_of_uint d)).
Proof.
  unfold all_digits.
  induction d; simpl; constructor; solve [reflexivity | assumption].
Qed.

Lemma uint_chars_digits (d : Decimal.uint) : all_digits (uint_chars d).
Proof.
  unfold uint_chars, NilZero.string_of_uint.
  destruct d; try apply (uint_digits (_ _)).
  repeat constructor.
Qed.

Lemma uint_chars_nonempty (d : Decimal.uint) : uint_chars d <> [].
Proof.
  unfold uint_chars, NilZero.string_of_uint. destruct d; simpl; discriminate.
Qed.

(** The characters of [str(n)]: an optional minus sign, then digits. *)
Lemma py_str_int_chars (z : Z) :
  exists ds, ds <> [] /\ all_digits ds /\
    chars (py_str_int z) = if z <? 0 then "-"%char :: ds else ds.
Proof.
  unfold py_str_int. destruct z as [|p|p]; simpl.
  - exists ["0"%char]. repeat split; [discriminate | repeat constructor].
  - exists (uint_chars (Pos.to_uint p)). repeat split.
    + apply uint_chars_nonempty.
    + apply uint_chars_digits.
  - exists (uint_chars (Pos.to_uint p)). repeat split.
    + apply uint_chars_nonempty.
    + apply uint_chars_digits.
Qed.

(** *** [quote_plus] *)

Lemma quote_plus_app (a b : string) : quote_plus (a ++ b) = quote_plus a ++ quote_plus b.
Proof.
  unfold quote_plus. now rewrite chars_app, flat_map_app, text_app.
Qed.

Lemma quote_plus_digit (c : ascii) : is_digit c = true -> quote_plus_char c = [c].
Proof.
  intros H. unfold quote_plus_char, always_safe. rewrite H.
  now rewrite orb_true_r.
Qed.

Lemma flat_map_quote_digits (ds : list ascii) :
  all_digits ds -> flat_map quote_plus_char ds = ds.
Proof.
  induction 1 as [|c ds Hc _ IH]; simpl; [reflexivity|].
  now rewrite (quote_plus_digit _ Hc), IH.
Qed.

(** The decimal text of an integer needs no escaping. *)
Lemma quote_plus_int (z : Z) : quote_plus (py_str_int z) = py_str_int z.
Proof.
  unfold quote_plus.
  destruct (py_str_int_chars z) as (ds & _ & Hds & E). rewrite E.
  rewrite <- (text_chars (py_str_int z)), E.
  destruct (z <? 0); simpl; now rewrite (flat_map_quote_digits _ Hds).
Qed.

Ltac reassoc := repeat rewrite append_assoc; simpl; repeat rewrite append_empty_r.

(* ================================================================== *)
(** ** URL generators *)

Lemma kayak_url_single (o d dep ret : string) :
  generate_kayak_url o d dep ret 1
  = "https://www.kayak.com/flights/" ++ o ++ "-" ++ d ++ "/" ++ dep ++ "/" ++ ret ++ "/".
Proof. unfold generate_kayak_url. simpl. reflexivity. Qed.

Lemma kayak_url_several (o d dep ret : string) (p : Z) :
  1 < p ->
  generate_kayak_url o d dep ret p
  = generate_kayak_url o d dep ret 1 ++ py_str_int p ++ "adults".
Proof.
  intros Hp. unfold generate_kayak_url.
  apply Z.ltb_lt in Hp. rewrite Hp. simpl (1 <? 1). cbv iota.
  reassoc. reflexivity.
Qed.

Lemma google_query_url_several (o d dep ret : string) (p : Z) :
  1 < p ->
  generate_google_flights_url o d dep ret p
  = generate_google_flights_url o d dep ret 1 ++ "+" ++ py_str_int p ++ "+passengers".
Proof.
  intros Hp. unfold generate_google_flights_url. cbv beta zeta.
  apply Z.ltb_lt in Hp. rewrite Hp. change (1 <? 1) with false. cbv iota.
  set (q := "Flights from " ++ o ++ " to " ++ d ++ " on " ++ dep ++ " through " ++ ret).
  unfold urlencode, py_join. cbn [map String.concat fst snd].
  rewrite !quote_plus_app, quote_plus_int.
  change (quote_plus " ") with "+".
  change (quote_plus " passengers") with "+passengers".
  generalize (quote_plus q) (py_str_int p). intros.
  reassoc. reflexivity.
Qed.

Lemma southwest_url_always_counts (o d dep ret : string) :
  exists before after, forall n,
    generate_southwest_url o d dep ret n
    = before ++ "adultPassengersCount=" ++ py_str_int n ++ after.
Proof.
  exists ("https://www.southwest.com/air/booking/select.html?"
          ++ urlencode [("originationAirportCode", o);
                        ("destinationAirportCode", d);
                        ("returnAirportCode", "");
                        ("departureDate", dep);
                        ("departureTimeOfDay", "ALL_DAY");
                        ("returnDate", ret);
                        ("returnTimeOfDay", "ALL_DAY")] ++ "&").
  exists "&seniorPassengersCount=0&tripType=roundtrip&fareType=USD&passengerType=ADULT&reset=true&int=HOMEQBOMAIR".
  intros n. unfold generate_southwest_url, southwest_params, urlencode, py_join.
  cbn [map String.concat fst snd].
  rewrite quote_plus_int.
  change (quote_plus "adultPassengersCount") with "adultPassengersCount".
  generalize (quote_plus o) (quote_plus d) (quote_plus dep) (quote_plus ret) (py_str_int n).
  intros. reassoc. reflexivity.
Qed.

(** C3 (as amended).  Kayak and the query-style Google Flights generator
    add the passenger count only above one passenger: with one passenger the
    Kayak URL ends after the return date, with more it is that URL followed
    by the count and [adults], and the Google query gains the count and
    [passengers].  The Southwest URL carries [adultPassengersCount=<n>] for
    every [n], one included.  The Google Flights URL the aggregator uses and
    the Skyscanner URL do not depend on the passenger count. *)
Theorem passenger_count_in_urls (o d dep ret : string) (p : Z) :
  1 < p ->
  generate_kayak_url o d dep ret 1
    = "https://www.kayak.com/flights/" ++ o ++ "-" ++ d ++ "/" ++ dep ++ "/" ++ ret ++ "/"
  /\ generate_kayak_url o d dep ret p
     = generate_kayak_url o d dep ret 1 ++ py_str_int p ++ "adults"
  /\ generate_google_flights_url o d dep ret p
     = generate_google_flights_url o d dep ret 1 ++ "+" ++ py_str_int p ++ "+passengers"
  /\ (exists before after, forall n,
        generate_southwest_url o d dep ret n
        = before ++ "adultPassengersCount=" ++ py_str_int n ++ after)
  /\ generate_google_flights_direct_url o d dep ret p
     = generate_google_flights_direct_url o d dep ret 1
  /\ generate_skyscanner_url o d dep ret p = generate_skyscanner_url o d dep ret 1.
Proof.
  intros Hp. repeat split.
  - apply kayak_url_several, Hp.
  - apply google_query_url_several, Hp.
  - apply southwest_url_always_counts.
Qed.

Lemma passenger_count_in_urls_witness :
  1 < 2
  /\ generate_kayak_url "PHL" "DEN" "2026-01-24" "2026-01-26" 2
     = generate_kayak_url "PHL" "DEN" "2026-01-24" "2026-01-26" 1 ++ py_str_int 2 ++ "adults".
Proof.
  split; [lia|].
  apply (passenger_count_in_urls "PHL" "DEN" "2026-01-24" "2026-01-26" 2). lia.
Defined.

(** C3, the claim as stated fails: the Southwest URL for one passenger
    carries the passenger-count parameter. *)
Lemma southwest_counts_single_passenger :
  generate_southwest_url "PHL" "DEN" "2026-01-24" "2026-01-26" 1
  = "https://www.southwest.com/air/booking/select.html?originationAirportCode=PHL&destinationAirportCode=DEN&returnAirportCode=&departureDate=2026-01-24&departureTimeOfDay=ALL_DAY&returnDate=2026-01-26&returnTimeOfDay=ALL_DAY&adultPassengersCount=1&seniorPassengersCount=0&tripType=roundtrip&fareType=USD&passengerType=ADULT&reset=true&int=HOMEQBOMAIR".
Proof. reflexivity. Qed.

(* ================================================================== *)
(** ** Dates *)

Lemma strptime_raises_value_error (s : string) (e : exn) :
  strptime s = Raise e -> exists why, e = ValueError why.
Proof.
  unfold strptime.
  destruct (match_year (chars s)) as [[y rest]|]; [|intros [= <-]; eauto].
  destruct (expect_dash rest) as [rest'|]; [|intros [= <-]; eauto].
  destruct (first_month_day (match_month rest')) as [[[m d] [|c l]]|];
    [| intros [= <-]; eauto | intros [= <-]; eauto].
  destruct ((1 <=? y) && (d <=? days_in_month y m)); [discriminate|].
  intros [= <-]; eauto.
Qed.

Lemma skyscanner_ok_iff_dates (o d dep ret : string) (p : Z) :
  is_ok (generate_skyscanner_url o d dep ret p) = valid_date dep && valid_date ret.
Proof.
  unfold generate_skyscanner_url, valid_date, rbind.
  destruct (strptime dep); [|reflexivity].
  destruct (strptime ret); reflexivity.
Qed.

Lemma skyscanner_raises_value_error (o d dep ret : string) (p : Z) (e : exn) :
  generate_skyscanner_url o d dep ret p = Raise e -> exists why, e = ValueError why.
Proof.
  unfold generate_skyscanner_url, rbind.
  destruct (strptime dep) eqn:E1; [|intros [= <-]; eapply strptime_raises_value_error; eauto].
  destruct (strptime ret) eqn:E2; [discriminate|].
  intros [= <-]. eapply strptime_raises_value_error; eauto.
Qed.

Lemma comparison_urls_raise (o d dep ret : string) (p : Z) (e : exn) :
  generate_skyscanner_url o d dep ret p = Raise e ->
  comparison_urls o d dep ret p = Raise e.
Proof. unfold comparison_urls. now intros ->. Qed.

Lemma comparison_urls_ok (o d dep ret : string) (p : Z) :
  valid_date dep = true -> valid_date ret = true ->
  exists sky,
    generate_skyscanner_url o d dep ret p = Ok sky /\
    comparison_urls o d dep ret p
    = Ok [("google_flights", generate_google_flights_direct_url o d dep ret p);
          ("kayak", generate_kayak_url o d dep ret p);
          ("skyscanner", sky);
          ("southwest", generate_southwest_url o d dep ret p)].
Proof.
  intros H1 H2. unfold comparison_urls.
  pose proof (skyscanner_ok_iff_dates o d dep ret p) as H.
  rewrite H1, H2 in H.
  destruct (generate_skyscanner_url o d dep ret p) as [sky|]; [|discriminate].
  exists sky. split; reflexivity.
Qed.

(* ================================================================== *)
(** ** The client and the aggregator *)

Section Aggregator.

Variable F : Type.
Context {float_ops : PyFloat F}.

Ltac world_step :=
  cbn [fst snd negb token api_key api_secret base_url length
       requests urlopen_json environ now_isoformat clock_reads stderr].

Lemma is_dict_get (v : pyval F) (k : string) (dflt : pyval F) :
  is_dict v = true -> py_get v k dflt = Ok (field v k dflt).
Proof.
  destruct v; try discriminate. intros _. simpl.
  destruct (dict_get k entries); reflexivity.
Qed.

Lemma not_dict_get (v : pyval F) (k : string) (dflt : pyval F) :
  is_dict v = false -> py_get v k dflt = Raise AttributeError.
Proof. destruct v; try discriminate; reflexivity. Qed.

(** The API block never raises and never reads the clock; when the cycle
    fails, its value is [None]. *)
Lemma try_api_spec (o d dep rt : string) (p : Z) (w : world F) :
  exists r w',
    try_api o d dep rt p w = (Ok r, w')
    /\ keeps_clock w w'
    /\ (configured w = true -> api_failure w o d dep rt p -> r = None).
Proof.
  unfold try_api, AmadeusAPI_init, AmadeusAPI_search_flights, AmadeusAPI_authenticate,
    AmadeusAPI_fetch_offers, AmadeusAPI_is_configured, configured,
    bind, getenv, ret, try_except, eprint, send, lift, keeps_clock.
  cbn [api_key api_secret token base_url truthy negb fst snd].
  destruct (nonempty (environ w "AMADEUS_API_KEY") && nonempty (environ w "AMADEUS_API_SECRET")) eqn:Hc;
    world_step.
  2:{ do 2 eexists. split; [reflexivity|]. split; [split; reflexivity|]. discriminate. }
  destruct (urlopen_json w (length (requests w))
              (TokenRequest (environ w "AMADEUS_API_KEY") (environ w "AMADEUS_API_SECRET")))
    as [v|e] eqn:Htok; world_step.
  2:{ do 2 eexists. split; [reflexivity|]. split; [split; reflexivity|]. reflexivity. }
  destruct (is_dict v) eqn:Hd.
  2:{ rewrite not_dict_get by exact Hd. world_step.
      do 2 eexists. split; [reflexivity|]. split; [split; reflexivity|]. reflexivity. }
  rewrite is_dict_get by exact Hd. world_step.
  destruct (truthy (field v "access_token" PNone)) eqn:Ht; world_step.
  2:{ do 2 eexists. split; [reflexivity|]. split; [split; reflexivity|]. reflexivity. }
  rewrite length_app, Nat.add_1_r.
  destruct (urlopen_json w (S (length (requests w)))
              (OffersRequest (field v "access_token" PNone) o d dep rt p 10))
    as [body|e] eqn:Hoff; world_step.
  2:{ do 2 eexists. split; [reflexivity|]. split; [split; reflexivity|]. reflexivity. }
  destruct (_parse_offers body) as [offers|e] eqn:Hp; world_step.
  2:{ do 2 eexists. split; [reflexivity|]. split; [split; reflexivity|]. reflexivity. }
  destruct (offers_truthy (Some offers)); world_step;
    (do 2 eexists; split; [reflexivity|]; split; [split; reflexivity|]);
    intros _ Hfail; exfalso;
    destruct Hfail as [e He|v' Hv Hnd|v' Hv _ Hnt|v' e Hv _ _ He|v' body' e Hv _ _ Hb He];
    unfold token_reply, offers_reply in *; rewrite Htok in *;
    try discriminate;
    injection Hv as <-; congruence.
Qed.


Lemma api_failure_same_network (w w1 : world F) (o d dep rt : string) (p : Z) :
  environ w1 = environ w -> urlopen_json w1 = urlopen_json w ->
  requests w1 = requests w ->
  api_failure w o d dep rt p -> api_failure w1 o d dep rt p.
Proof.
  intros He Hu Hr Hf.
  assert (Ht : token_reply w1 = token_reply w)
    by (unfold token_reply; now rewrite He, Hu, Hr).
  assert (Ho : forall tok, offers_reply w1 tok o d dep rt p = offers_reply w tok o d dep rt p)
    by (intros tok; unfold offers_reply; now rewrite Hu, Hr).
  destruct Hf as [e H1|v H1 H2|v H1 H2 H3|v e H1 H2 H3 H4|v body e H1 H2 H3 H4 H5].
  - eapply auth_request_fails. rewrite Ht. eassumption.
  - eapply auth_body_not_object; [rewrite Ht|]; eassumption.
  - eapply auth_token_missing; [rewrite Ht| |]; eassumption.
  - eapply search_request_fails; [rewrite Ht| | |rewrite Ho]; eassumption.
  - eapply search_body_malformed; [rewrite Ht| | |rewrite Ho|]; eassumption.
Qed.

(** One call of the aggregator: the clock is read once, the API block
    gives [api] without raising, and the result is built from the URL
    generators, whose exception, if any, is the call's. *)
Lemma search_flights_outcome (o d dep rt : string) (p : Z) (use_api : bool) (w : world F) :
  exists api w',
    search_flights o d dep rt p use_api w
    = (rbind (comparison_urls o d dep rt p)
         (fun us => Ok (mk_result (mk_params o d dep rt p) api us portal_urls
                                  (now_isoformat w (clock_reads w)) None)),
       w')
    /\ clock_reads w' = S (clock_reads w)
    /\ now_isoformat w' = now_isoformat w
    /\ (use_api = false ->
        api = None /\ requests w' = requests w /\ stderr w' = stderr w)
    /\ (use_api = true -> configured w = true -> api_failure w o d dep rt p ->
        api = None).
Proof.
  unfold search_flights, bind at 1. unfold datetime_now.
  set (w1 := mk_world (environ w) (urlopen_json w) (now_isoformat w)
                      (requests w) (S (clock_reads w)) (stderr w)).
  destruct use_api.
  - destruct (try_api_spec o d dep rt p w1) as (api & w' & Hrun & [Hc Hn] & Hfail).
    exists api, w'. unfold bind. rewrite Hrun. unfold lift, ret.
    split; [destruct (comparison_urls o d dep rt p); reflexivity|].
    split; [exact Hc|]. split; [exact Hn|]. split; [discriminate|].
    intros _ Hconf Hf. apply Hfail; [exact Hconf|].
    eapply api_failure_same_network; [..|exact Hf]; reflexivity.
  - exists None, w1. unfold bind, ret, lift.
    split; [destruct (comparison_urls o d dep rt p); reflexivity|].
    repeat split; discriminate.
Qed.


(** With dates that parse, a call returns a result, whatever the network does. *)
Lemma search_flights_returns (o d dep rt : string) (p : Z) (use_api : bool) (w : world F) :
  valid_date dep = true -> valid_date rt = true ->
  exists r w',
    search_flights o d dep rt p use_api w = (Ok r, w')
    /\ clock_reads w' = S (clock_reads w)
    /\ now_isoformat w' = now_isoformat w
    /\ search_params r = mk_params o d dep rt p
    /\ Ok (urls r) = comparison_urls o d dep rt p
    /\ map fst (urls r) = url_names
    /\ points_urls r = portal_urls
    /\ trip_name r = None
    /\ (use_api = false ->
        api_results r = None /\ requests w' = requests w /\ stderr w' = stderr w)
    /\ (use_api = true -> configured w = true -> api_failure w o d dep rt p ->
        api_results r = None).
Proof.
  intros Hd Hr.
  destruct (search_flights_outcome o d dep rt p use_api w)
    as (api & w' & Hrun & Hc & Hn & Hoff & Hfail).
  destruct (comparison_urls_ok o d dep rt p Hd Hr) as (sky & _ & Hurls).
  rewrite Hurls in Hrun. cbn [rbind] in Hrun.
  eexists. exists w'. split; [exact Hrun|].
  cbn [search_params urls points_urls trip_name api_results].
  rewrite Hurls. repeat (split; try assumption; try reflexivity).
Qed.


(** C4.  The worked example: without the API, the Kayak URL of the search
    from PHL to DEN, 2026-01-24 to 2026-01-26, two passengers. *)
Theorem kayak_example (w : world F) :
  exists r w',
    search_flights "PHL" "DEN" "2026-01-24" "2026-01-26" 2 false w = (Ok r, w')
    /\ dict_get "kayak" (urls r)
       = Some "https://www.kayak.com/flights/PHL-DEN/2026-01-24/2026-01-26/2adults".
Proof.
  eexists. eexists. split.
  - unfold search_flights, bind, datetime_now, ret, lift. simpl. reflexivity.
  - reflexivity.
Qed.

(** C5 (as amended).  Only the Skyscanner generator parses its dates.  When
    one of the two date strings is rejected by [strptime], it raises a
    [ValueError], and the aggregator raises the same exception, with or
    without the API and whatever the world.  (The generators are pure
    functions: they take no world and so send no request.) *)
Theorem skyscanner_date_error_propagates (o d dep rt : string) (p : Z) :
  valid_date dep && valid_date rt = false ->
  exists why,
    generate_skyscanner_url o d dep rt p = Raise (ValueError why)
    /\ forall (use_api : bool) (w : world F),
         fst (search_flights o d dep rt p use_api w) = Raise (ValueError why).
Proof.
  intros Hbad.
  pose proof (skyscanner_ok_iff_dates o d dep rt p) as Hok. rewrite Hbad in Hok.
  destruct (generate_skyscanner_url o d dep rt p) as [u|e] eqn:Hsky; [discriminate|].
  destruct (skyscanner_raises_value_error _ _ _ _ _ _ Hsky) as [why ->].
  exists why. split; [reflexivity|].
  intros use_api w.
  destruct (search_flights_outcome o d dep rt p use_api w) as (api & w' & Hrun & _).
  rewrite Hrun, (comparison_urls_raise _ _ _ _ _ _ Hsky). reflexivity.
Qed.

(** C6.  An unregistered preset name raises the unknown-preset
    [ValueError] at once: the world is left as it was (no request, no clock
    reading, no line on standard error), and no result is returned. *)
Theorem unknown_preset_fails (name : string) (w : world F) :
  dict_get name PRESETS = None ->
  search_date_combinations name w = (Raise (ValueError (UnknownPreset name)), w).
Proof.
  intros H. unfold search_date_combinations, search_date_combinations_in.
  rewrite H. reflexivity.
Qed.

(** C8.  Without the API a call sends no request and prints nothing,
    whatever its arguments, also when a date does not parse and the call
    raises.  For dates that parse it returns a result without offers whose
    [urls] hold, under the names of the four comparison sites and in their
    order, the URL each generator gives, and whose [points_urls] hold the
    URLs of the two portals. *)
Theorem no_api_no_network (o d dep rt : string) (p : Z) (w : world F) :
  requests (snd (search_flights o d dep rt p false w)) = requests w
  /\ stderr (snd (search_flights o d dep rt p false w)) = stderr w
  /\ (valid_date dep = true -> valid_date rt = true ->
      exists r w' sky,
        search_flights o d dep rt p false w = (Ok r, w')
        /\ requests w' = requests w
        /\ stderr w' = stderr w
        /\ api_results r = None
        /\ generate_skyscanner_url o d dep rt p = Ok sky
        /\ urls r = [("google_flights", generate_google_flights_direct_url o d dep rt p);
                     ("kayak", generate_kayak_url o d dep rt p);
                     ("skyscanner", sky);
                     ("southwest", generate_southwest_url o d dep rt p)]
        /\ map fst (urls r) = url_names
        /\ Ok (urls r) = comparison_urls o d dep rt p
        /\ points_urls r
           = [("chase_ultimate_rewards", "https://ultimaterewardspoints.chase.com/travel");
              ("citi_thankyou", "https://www.thankyou.com/cms/thankyou/travel.page")]
        /\ points_urls r = portal_urls).
Proof.
  destruct (search_flights_outcome o d dep rt p false w)
    as (api & w' & Hrun & _ & _ & Hoff & _).
  destruct (Hoff eq_refl) as (-> & Hreq & Herr).
  rewrite Hrun. cbn [snd]. split; [exact Hreq|]. split; [exact Herr|].
  intros Hd Hr.
  destruct (comparison_urls_ok o d dep rt p Hd Hr) as (sky & Hsky & Hurls).
  rewrite Hurls. cbn [rbind]. eexists. exists w', sky.
  split; [reflexivity|]. cbn [api_results urls points_urls].
  repeat split; assumption || reflexivity.
Qed.

(** Without the API no request is sent, whatever the dates. *)
Lemma no_api_no_request (o d dep rt : string) (p : Z) (w : world F) :
  requests (snd (search_flights o d dep rt p false w)) = requests w.
Proof.
  destruct (search_flights_outcome o d dep rt p false w)
    as (api & w' & Hrun & _ & _ & Hoff & _).
  rewrite Hrun. cbn [snd]. now destruct (Hoff eq_refl) as (_ & H & _).
Qed.

End Aggregator.

(* ================================================================== *)
(** ** Presets *)

Section Presets.

Variable F : Type.
Context {float_ops : PyFloat F}.

Lemma search_one_returns (name : string) (p : preset) (dep rt : string) (w : world F) :
  valid_date dep = true -> valid_date rt = true ->
  exists r w',
    search_one name p dep rt w = (Ok r, w')
    /\ clock_reads w' = S (clock_reads w)
    /\ now_isoformat w' = now_isoformat w
    /\ search_params r = params_of p (dep, rt)
    /\ trip_name r = Some name.
Proof.
  intros Hd Hr. unfold search_one, bind at 1 2 3, eprint.
  set (w1 := mk_world _ _ _ _ _ _).
  destruct (search_flights_returns F (p_origin p) (p_destination p) dep rt
              (p_passengers p) true w1 Hd Hr)
    as (r & w' & Hrun & Hc & Hn & Hp & _).
  unfold bind. rewrite Hrun. unfold ret.
  exists (set_trip_name name r), w'.
  repeat split; try assumption.
Qed.

(** The inner loop: one result per return date, in order. *)
Lemma inner_loop_returns (name : string) (p : preset) (dep : string) (rts : list string) :
  valid_date dep = true -> forallb valid_date rts = true ->
  forall w : world F,
  exists rs w',
    io_map (fun rt => search_one name p dep rt) rts w = (Ok rs, w')
    /\ clock_reads w' = (clock_reads w + length rts)%nat
    /\ now_isoformat w' = now_isoformat w
    /\ map (@search_params F) rs = map (fun rt => params_of p (dep, rt)) rts
    /\ Forall (fun r => trip_name r = Some name) rs.
Proof.
  intros Hd. induction rts as [|rt rts IH]; intros Hrs w.
  - exists [], w. cbn. repeat split; [lia | constructor].
  - cbn [forallb] in Hrs. apply andb_true_iff in Hrs as [Hrt Hrs].
    destruct (search_one_returns name p dep rt w Hd Hrt) as (r & w1 & Hrun & Hc & Hn & Hp & Ht).
    destruct (IH Hrs w1) as (rs & w2 & Hrun2 & Hc2 & Hn2 & Hp2 & Ht2).
    exists (r :: rs), w2. cbn [io_map]. unfold bind. rewrite Hrun, Hrun2. unfold ret.
    split; [reflexivity|]. split; [cbn [length]; lia|]. split; [congruence|].
    split; [cbn [map]; now rewrite Hp, Hp2 | now constructor].
Qed.

(** The outer loop: the rows of the inner loop, one per departure date. *)
Lemma outer_loop_returns (name : string) (p : preset) (rts : list string) (deps : list string) :
  forallb valid_date rts = true -> forallb valid_date deps = true ->
  forall w : world F,
  exists rows w',
    io_map (fun dep => io_map (fun rt => search_one name p dep rt) rts) deps w = (Ok rows, w')
    /\ clock_reads w' = (clock_reads w + length deps * length rts)%nat
    /\ now_isoformat w' = now_isoformat w
    /\ map (@search_params F) (concat rows) = map (params_of p) (list_prod deps rts)
    /\ Forall (fun r => trip_name r = Some name) (concat rows).
Proof.
  intros Hrs. induction deps as [|dep deps IH]; intros Hds w.
  - exists [], w. cbn. repeat split; [lia | constructor].
  - cbn [forallb] in Hds. apply andb_true_iff in Hds as [Hd Hds].
    destruct (inner_loop_returns name p dep rts Hd Hrs w) as (rs & w1 & Hrun & Hc & Hn & Hp & Ht).
    destruct (IH Hds w1) as (rows & w2 & Hrun2 & Hc2 & Hn2 & Hp2 & Ht2).
    exists (rs :: rows), w2. cbn [io_map]. unfold bind. rewrite Hrun, Hrun2. unfold ret.
    split; [reflexivity|]. split; [cbn [length]; lia|]. split; [congruence|].
    cbn [concat list_prod]. rewrite !map_app, Hp, Hp2, map_map. split.
    + reflexivity.
    + apply Forall_app. now split.
Qed.

(** A registered preset whose dates all parse, in any preset table. *)
Lemma preset_search_returns (presets : list (string * preset)) (name : string)
    (p : preset) (w : world F) :
  dict_get name presets = Some p ->
  forallb valid_date (outbound_dates p) = true ->
  forallb valid_date (return_dates p) = true ->
  exists results w',
    search_date_combinations_in presets name w = (Ok results, w')
    /\ length results = (length (outbound_dates p) * length (return_dates p))%nat
    /\ map (@search_params F) results
       = map (params_of p) (list_prod (outbound_dates p) (return_dates p))
    /\ Forall (fun r => trip_name r = Some name) results
    /\ clock_reads w'
       = (clock_reads w + length (outbound_dates p) * length (return_dates p))%nat.
Proof.
  intros Hget Ho Hr. unfold search_date_combinations_in. rewrite Hget.
  destruct (outer_loop_returns name p (return_dates p) (outbound_dates p) Hr Ho w)
    as (rows & w' & Hrun & Hc & _ & Hp & Ht).
  exists (concat rows), w'. unfold bind. rewrite Hrun. unfold ret.
  split; [reflexivity|]. split.
  - rewrite <- (length_map (@search_params F)), Hp, length_map. apply length_prod.
  - repeat split; assumption.
Qed.

Lemma registered_preset (name : string) (p : preset) :
  dict_get name PRESETS = Some p ->
  forallb valid_date (outbound_dates p) = true
  /\ forallb valid_date (return_dates p) = true.
Proof.
  unfold PRESETS. cbn [dict_get].
  destruct (String.eqb name "colorado_trip"); [|discriminate].
  intros [= <-]. split; reflexivity.
Qed.

Lemma announced_after_banner (w : world F) (dep rt : string) :
  mk_world (environ w) (urlopen_json w) (now_isoformat w) (requests w) (clock_reads w)
    (List.app (List.app (List.app (stderr w) [Line (nl ++ py_repeat "=" 60)])
                        [Line ("Searching: " ++ dep ++ arrow ++ rt)])
              [Line (py_repeat "=" 60)])
  = announced w dep rt.
Proof. unfold announced. now rewrite <- !List.app_assoc. Qed.

Lemma search_one_searched (name : string) (p : preset) (dep rt : string) (w : world F) :
  valid_date dep = true -> valid_date rt = true ->
  exists r w',
    search_one name p dep rt w = (Ok r, w')
    /\ searched_pair name p (dep, rt) w r w'
    /\ pair_urls p (dep, rt) r.
Proof.
  intros Hd Hr. unfold search_one, bind at 1 2 3, eprint.
  cbn [environ urlopen_json now_isoformat requests clock_reads stderr].
  rewrite announced_after_banner.
  destruct (search_flights_returns F (p_origin p) (p_destination p) dep rt
              (p_passengers p) true (announced w dep rt) Hd Hr)
    as (r & w' & Hrun & _ & _ & _ & Hurls & _ & Hpts & _).
  destruct (comparison_urls_ok (p_origin p) (p_destination p) dep rt (p_passengers p) Hd Hr)
    as (sky & Hsky & Hcu).
  rewrite Hcu in Hurls. injection Hurls as Hurls.
  unfold bind. rewrite Hrun. unfold ret.
  exists (set_trip_name name r), w'. split; [reflexivity|]. split.
  - exists r. cbn [fst snd]. split; [exact Hrun | reflexivity].
  - exists sky. cbn [fst snd set_trip_name urls points_urls].
    split; [exact Hsky|]. split; [exact Hurls|]. rewrite Hpts. reflexivity.
Qed.

Lemma searched_in_order_app (name : string) (p : preset)
    (pairs1 pairs2 : list (string * string)) :
  forall (w w1 w2 : world F) (rs1 rs2 : list (search_result F)),
    searched_in_order name p pairs1 w rs1 w1 ->
    searched_in_order name p pairs2 w1 rs2 w2 ->
    searched_in_order name p (List.app pairs1 pairs2) w (List.app rs1 rs2) w2.
Proof.
  induction pairs1 as [|dr pairs1 IH]; intros w w1 w2 rs1 rs2 H1 H2.
  - destruct rs1; [|contradiction]. cbn in H1. subst w1. exact H2.
  - destruct rs1 as [|r rs1]; [contradiction|].
    destruct H1 as (wa & Hpair & Hrest). cbn [List.app searched_in_order].
    exists wa. split; [exact Hpair|]. exact (IH _ _ _ _ _ Hrest H2).
Qed.

Lemma inner_loop_searched (name : string) (p : preset) (dep : string) (rts : list string) :
  valid_date dep = true -> forallb valid_date rts = true ->
  forall w : world F,
  exists rs w',
    io_map (fun rt => search_one name p dep rt) rts w = (Ok rs, w')
    /\ searched_in_order name p (map (fun rt => (dep, rt)) rts) w rs w'
    /\ Forall2 (fun dr r => pair_urls p dr r) (map (fun rt => (dep, rt)) rts) rs.
Proof.
  intros Hd. induction rts as [|rt rts IH]; intros Hrs w.
  - exists [], w. cbn. repeat split. constructor.
  - cbn [forallb] in Hrs. apply andb_true_iff in Hrs as [Hrt Hrs].
    destruct (search_one_searched name p dep rt w Hd Hrt) as (r & w1 & Hrun & Hpair & Hurls).
    destruct (IH Hrs w1) as (rs & w2 & Hrun2 & Hchain & Hall).
    exists (r :: rs), w2. cbn [io_map]. unfold bind. rewrite Hrun, Hrun2. unfold ret.
    split; [reflexivity|]. cbn [map searched_in_order]. split.
    + exists w1. split; assumption.
    + constructor; assumption.
Qed.

Lemma outer_loop_searched (name : string) (p : preset) (rts : list string)
    (deps : list string) :
  forallb valid_date rts = true -> forallb valid_date deps = true ->
  forall w : world F,
  exists rows w',
    io_map (fun dep => io_map (fun rt => search_one name p dep rt) rts) deps w = (Ok rows, w')
    /\ searched_in_order name p (list_prod deps rts) w (concat rows) w'
    /\ Forall2 (fun dr r => pair_urls p dr r) (list_prod deps rts) (concat rows).
Proof.
  intros Hrs. induction deps as [|dep deps IH]; intros Hds w.
  - exists [], w. cbn. repeat split. constructor.
  - cbn [forallb] in Hds. apply andb_true_iff in Hds as [Hd Hds].
    destruct (inner_loop_searched name p dep rts Hd Hrs w)
      as (rs & w1 & Hrun & Hchain & Hall).
    destruct (IH Hds w1) as (rows & w2 & Hrun2 & Hchain2 & Hall2).
    exists (rs :: rows), w2. cbn [io_map]. unfold bind. rewrite Hrun, Hrun2. unfold ret.
    split; [reflexivity|]. cbn [concat list_prod]. split.
    + exact (searched_in_order_app name p _ _ _ _ _ _ _ Hchain Hchain2).
    + apply Forall2_app; assumption.
Qed.

(** C7.  For a registered preset with N outbound and M return dates the
    search returns N x M results.  Their parameters are, in order, those of
    the pairs of the cartesian product taken departure date first (every
    return date of the first departure date before any of the second), with
    the preset's origin, destination and passenger count; each result
    carries the preset name; and the clock, which every call of the
    aggregator reads once, has been read N x M times.  The results are
    produced by the aggregator: for each pair in that order, the result is
    what [search_flights] returns for the pair with the API enabled, called
    in the world the call before it left (after the banner of the pair is
    printed), with the preset name added.  In particular each result holds
    the URLs of the four comparison sites for its pair of dates and the
    URLs of the two portals. *)
Theorem preset_search_is_cartesian (name : string) (p : preset) (w : world F) :
  dict_get name PRESETS = Some p ->
  exists results w',
    search_date_combinations name w = (Ok results, w')
    /\ length results = (length (outbound_dates p) * length (return_dates p))%nat
    /\ map (@search_params F) results
       = map (params_of p) (list_prod (outbound_dates p) (return_dates p))
    /\ Forall (fun r => trip_name r = Some name) results
    /\ clock_reads w'
       = (clock_reads w + length (outbound_dates p) * length (return_dates p))%nat
    /\ searched_in_order name p (list_prod (outbound_dates p) (return_dates p))
                         w results w'
    /\ Forall2 (fun dr r => pair_urls p dr r)
               (list_prod (outbound_dates p) (return_dates p)) results.
Proof.
  intros Hget. destruct (registered_preset name p Hget) as [Ho Hr].
  destruct (preset_search_returns PRESETS name p w Hget Ho Hr)
    as (results & w' & Hrun & Hlen & Hpar & Htag & Hclock).
  exists results, w'.
  repeat (split; [assumption|]).
  destruct (outer_loop_searched name p (return_dates p) (outbound_dates p) Hr Ho w)
    as (rows & w2 & Hloop & Hchain & Hall).
  unfold search_date_combinations_in in Hrun.
  rewrite Hget in Hrun. unfold bind in Hrun. rewrite Hloop in Hrun. unfold ret in Hrun.
  injection Hrun as <- <-. split; assumption.
Qed.

End Presets.

(* ================================================================== *)
(** ** Response parsing *)

Section Parsing.

Variable F : Type.
Context {float_ops : PyFloat F}.

Lemma py_get_field (v : pyval F) (k : string) (dflt : pyval F) :
  py_get v k dflt = if is_dict v then Ok (field v k dflt) else Raise AttributeError.
Proof.
  destruct v; try reflexivity. simpl. destruct (dict_get k entries); reflexivity.
Qed.

Ltac run_gets :=
  repeat (rewrite is_dict_get by assumption; cbn [rbind]).

Lemma py_iter_items (v : pyval F) :
  iterable v = true -> py_iter v = Ok (items_of v).
Proof.
  unfold iterable, items_of. destruct (py_iter v); [reflexivity | discriminate].
Qed.

Lemma py_iter_not_iterable (v : pyval F) :
  iterable v = false -> exists e, py_iter v = Raise e.
Proof.
  unfold iterable. destruct (py_iter v) as [l|e]; [discriminate | eauto].
Qed.

Lemma forallb_pointwise {A} (f g : A -> bool) (l : list A) :
  (forall a, f a = g a) -> forallb f l = forallb g l.
Proof.
  intros H. induction l as [|a l IH]; [reflexivity|].
  cbn [forallb]. now rewrite H, IH.
Qed.

(** A loop over items that may raise returns iff every item is read. *)
Lemma rmap_is_ok {A B} (f : A -> result B) (l : list A) :
  is_ok (rmap f l) = forallb (fun a => is_ok (f a)) l.
Proof.
  induction l as [|a l IH]; [reflexivity|]. cbn [rmap forallb].
  destruct (f a); [|reflexivity]. cbn [is_ok andb]. rewrite <- IH.
  destruct (rmap f l); reflexivity.
Qed.

Lemma rmap_pointwise {A B} (f : A -> result B) (l : list A) (bs : list B) :
  rmap f l = Ok bs -> Forall2 (fun a b => f a = Ok b) l bs.
Proof.
  revert bs. induction l as [|a l IH]; cbn [rmap]; intros bs H.
  - injection H as <-. constructor.
  - destruct (f a) as [b|] eqn:Ea; [|discriminate].
    destruct (rmap f l) as [bs'|]; [|discriminate].
    injection H as <-. constructor; auto.
Qed.

Lemma rmap_first_failure {A B} (f : A -> result B) (l1 l2 : list A) (a : A) (e : exn) :
  forallb (fun x => is_ok (f x)) l1 = true -> f a = Raise e ->
  rmap f (List.app l1 (a :: l2)) = Raise e.
Proof.
  intros H1 Ha. induction l1 as [|x l1 IH]; cbn [rmap List.app].
  - now rewrite Ha.
  - cbn [forallb] in H1. apply andb_true_iff in H1 as [Hx H1].
    destruct (f x); [|discriminate]. now rewrite (IH H1).
Qed.

Lemma rmap_raise_from {A B} (f : A -> result B) (l : list A) (e : exn) :
  rmap f l = Raise e -> exists a, In a l /\ f a = Raise e.
Proof.
  induction l as [|a l IH]; cbn [rmap]; [discriminate|].
  destruct (f a) as [b|e'] eqn:Ha.
  - destruct (rmap f l) as [bs|e'']; [discriminate|].
    intros [= <-]. destruct (IH eq_refl) as (x & Hx & Hf).
    exists x. split; [now right | exact Hf].
  - intros [= <-]. exists a. split; [now left | exact Ha].
Qed.

Lemma rfold_is_ok {A S} (f : S -> A -> result S) (good : A -> bool) (l : list A) :
  (forall s a, is_ok (f s a) = good a) ->
  forall s, is_ok (rfold f l s) = forallb good l.
Proof.
  intros Hf. induction l as [|a l IH]; intros s; [reflexivity|].
  cbn [rfold forallb]. rewrite <- (Hf s a).
  destruct (f s a); [apply IH | reflexivity].
Qed.

Lemma parse_segment_spec (seg : pyval F) :
  parse_segment seg
  = if is_dict seg && is_dict (field seg "departure" (PDict []))
       && is_dict (field seg "arrival" (PDict []))
    then Ok (segment_fields seg) else Raise AttributeError.
Proof.
  unfold parse_segment.
  destruct (is_dict seg) eqn:Hs;
    [|rewrite py_get_field, Hs; reflexivity].
  run_gets. cbn [andb].
  destruct (is_dict (field seg "departure" (PDict []))) eqn:Hd;
    [|rewrite py_get_field, Hd; reflexivity].
  run_gets. cbn [andb].
  destruct (is_dict (field seg "arrival" (PDict []))) eqn:Ha;
    [|rewrite py_get_field, Ha; reflexivity].
  run_gets. reflexivity.
Qed.

Lemma add_segment_is_ok (acc : list (segment_info F) * list (pyval F)) (seg : pyval F) :
  is_ok (add_segment acc seg) = segment_shaped seg.
Proof.
  unfold add_segment, segment_shaped. rewrite parse_segment_spec.
  destruct (is_dict seg) eqn:Hs; [|reflexivity]. cbn [andb].
  destruct (is_dict (field seg "departure" (PDict []))); [|reflexivity]. cbn [andb].
  destruct (is_dict (field seg "arrival" (PDict []))); [|reflexivity]. cbn [andb rbind].
  run_gets.
  unfold set_add. destruct (hashable (field seg "carrierCode" PNone)); reflexivity.
Qed.

Lemma add_itinerary_is_ok (acc : list (segment_info F) * list (pyval F)) (it : pyval F) :
  is_ok (add_itinerary acc it) = itinerary_shaped it.
Proof.
  unfold add_itinerary, itinerary_shaped. rewrite py_get_field.
  destruct (is_dict it); [|reflexivity]. cbn [andb rbind].
  destruct (iterable (field it "segments" (PList []))) eqn:Hi.
  - rewrite (py_iter_items _ Hi). cbn [andb rbind].
    apply rfold_is_ok. intros s a. apply add_segment_is_ok.
  - destruct (py_iter_not_iterable _ Hi) as [e ->]. reflexivity.
Qed.

(** [parse_offer] returns exactly on the readable offers. *)
Lemma parse_offer_is_ok (o : pyval F) : is_ok (parse_offer o) = offer_shaped o.
Proof.
  unfold parse_offer, offer_shaped.
  destruct (is_dict o) eqn:Ho;
    [|rewrite py_get_field, Ho; reflexivity].
  run_gets. cbn [andb].
  destruct (is_dict (field o "price" (PDict []))) eqn:Hp;
    [|rewrite py_get_field, Hp; reflexivity].
  run_gets. cbn [andb].
  destruct (py_float (field (field o "price" (PDict [])) "total" (PInt 0)));
    [|reflexivity]. cbn [is_ok andb rbind].
  run_gets.
  destruct (iterable (field o "itineraries" (PList []))) eqn:Hi.
  - rewrite (py_iter_items _ Hi). cbn [andb rbind].
    rewrite <- (rfold_is_ok (@add_itinerary F _) (@itinerary_shaped F) _
                 add_itinerary_is_ok ([], [])).
    destruct (rfold _ _ _); reflexivity.
  - destruct (py_iter_not_iterable _ Hi) as [e ->]. reflexivity.
Qed.

(** The price and the currency of a parsed offer: the values found, or
    the defaults [0] and ["USD"]. *)
Lemma parse_offer_price (o : pyval F) (po : parsed_offer F) :
  parse_offer o = Ok po ->
  py_float (field (field o "price" (PDict [])) "total" (PInt 0)) = Ok (price po)
  /\ currency po = field (field o "price" (PDict [])) "currency" (PStr "USD").
Proof.
  unfold parse_offer.
  destruct (is_dict o) eqn:Ho;
    [|rewrite py_get_field, Ho; discriminate].
  run_gets.
  destruct (is_dict (field o "price" (PDict []))) eqn:Hp;
    [|rewrite py_get_field, Hp; discriminate].
  run_gets.
  destruct (py_float _) as [f|]; [|discriminate]. cbn [rbind].
  run_gets.
  destruct (py_iter _); [|discriminate]. cbn [rbind].
  destruct (rfold _ _ _); [|discriminate]. cbn [rbind].
  intros [= <-]. split; reflexivity.
Qed.

Lemma parse_offers_is_ok (response : pyval F) :
  is_ok (_parse_offers response) = response_shaped response.
Proof.
  unfold _parse_offers, response_shaped. rewrite py_get_field.
  destruct (is_dict response); [|reflexivity]. cbn [andb rbind].
  destruct (iterable (field response "data" (PList []))) eqn:Hi.
  - rewrite (py_iter_items _ Hi). cbn [andb rbind]. rewrite rmap_is_ok.
    apply forallb_pointwise. intros o. apply parse_offer_is_ok.
  - destruct (py_iter_not_iterable _ Hi) as [e ->]. reflexivity.
Qed.

Lemma distinct_snoc (s : list (pyval F)) (v : pyval F) :
  distinct s -> Forall (fun a => py_eqb v a = false) s -> distinct (List.app s [v]).
Proof.
  unfold distinct. induction 1 as [|a l Ha _ IH]; intros Hv; cbn [List.app].
  - repeat constructor.
  - inversion Hv as [|? ? Hva Hvl]; subst. constructor.
    + apply Forall_app. split; [exact Ha | repeat constructor; exact Hva].
    + exact (IH Hvl).
Qed.

Lemma existsb_false_all (v : pyval F) (s : list (pyval F)) :
  existsb (py_eqb v) s = false -> Forall (fun a => py_eqb v a = false) s.
Proof.
  induction s as [|a s IH]; cbn [existsb]; intros H; constructor.
  - now destruct (py_eqb v a).
  - apply IH. now destruct (py_eqb v a).
Qed.

Lemma reads_no_segment (acc : list (segment_info F) * list (pyval F)) :
  reads_segments [] acc acc.
Proof.
  unfold reads_segments. cbn [map]. rewrite List.app_nil_r.
  repeat split; auto using incl_refl. intros v [].
Qed.

Lemma reads_segments_app (s1 s2 : list (pyval F))
    (a b c : list (segment_info F) * list (pyval F)) :
  reads_segments s1 a b -> reads_segments s2 b c ->
  reads_segments (List.app s1 s2) a c.
Proof.
  intros (H1 & H2 & H3 & H4 & H5) (K1 & K2 & K3 & K4 & K5).
  unfold reads_segments. rewrite !map_app. repeat split.
  - now rewrite K1, H1, List.app_assoc.
  - eapply incl_tran; eassumption.
  - intros x Hx. destruct (K3 x Hx) as [Hb|Hs2].
    + destruct (H3 x Hb) as [Ha|Hs1]; [now left | right; apply in_or_app; now left].
    + right. apply in_or_app. now right.
  - intros v Hin. apply in_app_or in Hin as [Hin|Hin].
    + destruct (H4 v Hin) as [Hb|(x & Hx & Heq)]; [left; now apply K2|].
      right. exists x. split; [now apply K2 | exact Heq].
    + now apply K4.
  - auto.
Qed.

Lemma add_segment_reads (acc acc' : list (segment_info F) * list (pyval F))
    (seg : pyval F) :
  add_segment acc seg = Ok acc' -> reads_segments [seg] acc acc'.
Proof.
  unfold add_segment. rewrite parse_segment_spec.
  destruct (is_dict seg) eqn:Hs; [|discriminate]. cbn [andb].
  destruct (is_dict (field seg "departure" (PDict []))); [|discriminate]. cbn [andb].
  destruct (is_dict (field seg "arrival" (PDict []))); [|discriminate]. cbn [andb rbind].
  rewrite is_dict_get by assumption. cbn [rbind]. fold (carrier_code seg).
  unfold set_add. destruct (hashable (carrier_code seg)); [|discriminate]. cbn [rbind].
  intros [= <-]. unfold reads_segments. cbn [fst snd map].
  split; [reflexivity|].
  destruct (existsb (py_eqb (carrier_code seg)) (snd acc)) eqn:Hex.
  - repeat split; auto using incl_refl.
    intros v [<-|[]]. apply existsb_exists in Hex as (x & Hx & Heq).
    right. now exists x.
  - repeat split.
    + apply incl_appl, incl_refl.
    + intros a Ha. apply in_app_or in Ha as [Ha|[<-|[]]]; [now left | right; now left].
    + intros v [<-|[]]. left. apply in_or_app. right. now left.
    + intros Hd. apply distinct_snoc; [exact Hd | now apply existsb_false_all].
Qed.

Lemma rfold_segments_reads (segs : list (pyval F)) :
  forall acc acc', rfold add_segment segs acc = Ok acc' -> reads_segments segs acc acc'.
Proof.
  induction segs as [|seg segs IH]; cbn [rfold]; intros acc acc' H.
  - injection H as <-. apply reads_no_segment.
  - destruct (add_segment acc seg) as [acc1|] eqn:H1; [|discriminate].
    apply (reads_segments_app [seg] segs acc acc1 acc').
    + now apply add_segment_reads.
    + now apply IH.
Qed.

Lemma add_itinerary_reads (acc acc' : list (segment_info F) * list (pyval F))
    (it : pyval F) :
  add_itinerary acc it = Ok acc' ->
  reads_segments (items_of (field it "segments" (PList []))) acc acc'.
Proof.
  unfold add_itinerary. rewrite py_get_field.
  destruct (is_dict it); [|discriminate]. cbn [rbind].
  unfold items_of.
  destruct (py_iter (field it "segments" (PList []))) as [segs|]; [|discriminate].
  cbn [rbind]. apply rfold_segments_reads.
Qed.

Lemma rfold_itineraries_reads (its : list (pyval F)) :
  forall acc acc',
    rfold add_itinerary its acc = Ok acc' ->
    reads_segments
      (flat_map (fun it => items_of (field it "segments" (PList []))) its) acc acc'.
Proof.
  induction its as [|it its IH]; cbn [rfold flat_map]; intros acc acc' H.
  - injection H as <-. apply reads_no_segment.
  - destruct (add_itinerary acc it) as [acc1|] eqn:H1; [|discriminate].
    apply (reads_segments_app _ _ acc acc1 acc').
    + now apply add_itinerary_reads.
    + now apply IH.
Qed.

Lemma parse_offer_reads (o : pyval F) (po : parsed_offer F) :
  parse_offer o = Ok po ->
  reads_segments (offer_segments o) ([], []) (segments po, airlines po).
Proof.
  unfold parse_offer.
  destruct (is_dict o) eqn:Ho; [|rewrite py_get_field, Ho; discriminate].
  rewrite is_dict_get by assumption. cbn [rbind].
  destruct (is_dict (field o "price" (PDict []))) eqn:Hp;
    [|rewrite py_get_field, Hp; discriminate].
  repeat (rewrite is_dict_get by assumption; cbn [rbind]).
  destruct (py_float _) as [f|]; [|discriminate]. cbn [rbind].
  repeat (rewrite is_dict_get by assumption; cbn [rbind]).
  unfold offer_segments, items_of.
  destruct (py_iter (field o "itineraries" (PList []))) as [its|]; [|discriminate].
  cbn [rbind].
  destruct (rfold add_itinerary its ([], [])) as [[ss al]|] eqn:Hf; [|discriminate].
  cbn [rbind fst snd]. intros [= <-]. cbn [segments airlines].
  now apply rfold_itineraries_reads.
Qed.

Lemma py_get_raise (v : pyval F) (k : string) (dflt : pyval F) (e : exn) :
  py_get v k dflt = Raise e -> e = AttributeError.
Proof.
  rewrite py_get_field. destruct (is_dict v); [discriminate|]. now intros [= <-].
Qed.

Lemma py_iter_raise (v : pyval F) (e : exn) : py_iter v = Raise e -> e = TypeError.
Proof. destruct v; cbn [py_iter]; try discriminate; now intros [= <-]. Qed.

Lemma py_float_raise (v : pyval F) (e : exn) : py_float v = Raise e -> parse_error e.
Proof.
  unfold parse_error.
  destruct v as [|b|z|f|s|l|d]; cbn [py_float];
    try (intros [= <-]; tauto); try discriminate.
  - destruct (float_of_int _); [discriminate | intros [= <-]; tauto].
  - destruct (float_of_int _); [discriminate | intros [= <-]; tauto].
  - destruct (float_of_str _); [discriminate | intros [= <-]; tauto].
Qed.

Lemma rbind_raise {A B} (m : result A) (k : A -> result B) (e : exn) :
  rbind m k = Raise e -> m = Raise e \/ exists a, m = Ok a /\ k a = Raise e.
Proof. destruct m as [a|e']; cbn [rbind]; [right; eauto | intros [= <-]; now left]. Qed.

Lemma rfold_raise {A S} (f : S -> A -> result S) (P : exn -> Prop) (l : list A) :
  (forall s a e, f s a = Raise e -> P e) ->
  forall s e, rfold f l s = Raise e -> P e.
Proof.
  intros Hf. induction l as [|a l IH]; intros s e; cbn [rfold]; [discriminate|].
  destruct (f s a) as [s'|e'] eqn:Ha.
  - apply IH.
  - intros [= <-]. exact (Hf s a e' Ha).
Qed.

Lemma add_segment_raise (acc : list (segment_info F) * list (pyval F)) (seg : pyval F)
    (e : exn) :
  add_segment acc seg = Raise e -> parse_error e.
Proof.
  unfold add_segment, parse_error. rewrite parse_segment_spec.
  destruct (is_dict seg) eqn:Hs; [|intros [= <-]; tauto]. cbn [andb].
  destruct (is_dict (field seg "departure" (PDict []))); [|intros [= <-]; tauto].
  cbn [andb].
  destruct (is_dict (field seg "arrival" (PDict []))); [|intros [= <-]; tauto].
  cbn [andb rbind]. rewrite is_dict_get by assumption. cbn [rbind].
  unfold set_add. destruct (hashable _); [discriminate | intros [= <-]; tauto].
Qed.

Lemma add_itinerary_raise (acc : list (segment_info F) * list (pyval F)) (it : pyval F)
    (e : exn) :
  add_itinerary acc it = Raise e -> parse_error e.
Proof.
  unfold add_itinerary. intros H.
  apply rbind_raise in H as [H|(segs & _ & H)];
    [apply py_get_raise in H; subst; unfold parse_error; tauto|].
  apply rbind_raise in H as [H|(l & _ & H)];
    [apply py_iter_raise in H; subst; unfold parse_error; tauto|].
  revert H. apply rfold_raise. intros s a e'. apply add_segment_raise.
Qed.

Lemma parse_offer_raise (o : pyval F) (e : exn) :
  parse_offer o = Raise e -> parse_error e.
Proof.
  unfold parse_offer. intros H.
  apply rbind_raise in H as [H|(p1 & _ & H)];
    [apply py_get_raise in H; subst; unfold parse_error; tauto|].
  apply rbind_raise in H as [H|(total & _ & H)];
    [apply py_get_raise in H; subst; unfold parse_error; tauto|].
  apply rbind_raise in H as [H|(v_price & _ & H)]; [now apply py_float_raise in H|].
  apply rbind_raise in H as [H|(p2 & _ & H)];
    [apply py_get_raise in H; subst; unfold parse_error; tauto|].
  apply rbind_raise in H as [H|(v_currency & _ & H)];
    [apply py_get_raise in H; subst; unfold parse_error; tauto|].
  apply rbind_raise in H as [H|(its & _ & H)];
    [apply py_get_raise in H; subst; unfold parse_error; tauto|].
  apply rbind_raise in H as [H|(l & _ & H)];
    [apply py_iter_raise in H; subst; unfold parse_error; tauto|].
  apply rbind_raise in H as [H|(acc & _ & H)]; [|discriminate].
  revert H. apply rfold_raise. intros s a e'. apply add_itinerary_raise.
Qed.

Lemma parse_offers_raise (response : pyval F) (e : exn) :
  _parse_offers response = Raise e -> parse_error e.
Proof.
  unfold _parse_offers. intros H.
  apply rbind_raise in H as [H|(data & _ & H)];
    [apply py_get_raise in H; subst; unfold parse_error; tauto|].
  apply rbind_raise in H as [H|(l & _ & H)];
    [apply py_iter_raise in H; subst; unfold parse_error; tauto|].
  apply rmap_raise_from in H as (o & _ & Ho). now apply parse_offer_raise in Ho.
Qed.

Lemma parse_offer_segments (o : pyval F) (po : parsed_offer F) :
  parse_offer o = Ok po ->
  segments po = map (fun s => segment_fields s) (offer_segments o)
  /\ (forall a, In a (airlines po) -> In a (map carrier_code (offer_segments o)))
  /\ (forall v, In v (map carrier_code (offer_segments o)) ->
        In v (airlines po) \/ exists x, In x (airlines po) /\ py_eqb v x = true)
  /\ distinct (airlines po).
Proof.
  intros H. destruct (parse_offer_reads o po H) as (H1 & _ & H3 & H4 & H5).
  cbn [fst snd] in *. repeat split.
  - exact H1.
  - intros a Ha. destruct (H3 a Ha) as [[]|Hs]. exact Hs.
  - exact H4.
  - apply H5. constructor.
Qed.

(** C1 (as amended).  [_parse_offers] returns exactly when the response
    and every offer in it are readable, that is, when every field that is
    present has the type the parser expects; fields that are missing are
    allowed.  Then each offer of the response has its parsed form, in order,
    and every field of it is the value found or, where the field is
    missing, its default: the price is [float] of the total or of [0], the
    currency defaults to ["USD"], the segments are those of all the
    itineraries of the offer (none when there is no itinerary), each with
    its fields or [None], and the airlines are the carrier codes of these
    segments, each once ([None] for a segment without carrier code).  An
    offer without any field has price [float(0)], currency ["USD"], no
    segments and no airlines, and a segment without any field has [None]
    everywhere.  An offer that is not readable raises, and the exception is
    that of the whole parse, whatever precedes and follows it; it is an
    [AttributeError], a [TypeError], the [ValueError] of [float] or an
    [OverflowError]. *)
Theorem parse_offers_tolerates_missing_fields (response : pyval F) :
  is_ok (_parse_offers response) = response_shaped response
  /\ (forall parsed, _parse_offers response = Ok parsed ->
        Forall2 (fun o po =>
                   parse_offer o = Ok po
                   /\ py_float (field (field o "price" (PDict [])) "total" (PInt 0))
                      = Ok (price po)
                   /\ currency po = field (field o "price" (PDict [])) "currency" (PStr "USD")
                   /\ segments po = map (fun s => segment_fields s) (offer_segments o)
                   /\ (forall a, In a (airlines po) ->
                         In a (map carrier_code (offer_segments o)))
                   /\ (forall v, In v (map carrier_code (offer_segments o)) ->
                         In v (airlines po)
                         \/ exists x, In x (airlines po) /\ py_eqb v x = true)
                   /\ distinct (airlines po))
                (items_of (field response "data" (PList []))) parsed)
  /\ (forall entries key dflt,
        dict_get key entries = None -> field (PDict entries : pyval F) key dflt = dflt)
  /\ (forall f0, float_of_int 0 = Some f0 ->
        parse_offer (PDict []) = Ok (mk_offer f0 (PStr "USD") [] []))
  /\ parse_segment (PDict [] : pyval F)
     = Ok (mk_segment PNone PNone PNone PNone PNone PNone PNone)
  /\ (forall before bad after e,
        forallb offer_shaped before = true -> parse_offer bad = Raise e ->
        _parse_offers (PDict [("data", PList (List.app before (bad :: after)))]) = Raise e)
  /\ (forall e, _parse_offers response = Raise e -> parse_error e).
Proof.
  split; [apply parse_offers_is_ok|]. split; [|split; [|split; [|split; [|split]]]].
  - intros parsed H.
    assert (Hs : response_shaped response = true)
      by (rewrite <- parse_offers_is_ok, H; reflexivity).
    unfold response_shaped in Hs.
    apply andb_true_iff in Hs as [Hs _]. apply andb_true_iff in Hs as [Hd Hi].
    unfold _parse_offers in H.
    rewrite py_get_field, Hd in H. cbn [rbind] in H.
    rewrite (py_iter_items _ Hi) in H. cbn [rbind] in H.
    apply rmap_pointwise in H.
    eapply Forall2_impl; [|exact H].
    intros o po Hpo. split; [exact Hpo|].
    destruct (parse_offer_price o po Hpo) as [Hprice Hcur].
    split; [exact Hprice|]. split; [exact Hcur|]. now apply parse_offer_segments.
  - intros entries key dflt Hk. cbn [field]. now rewrite Hk.
  - intros f0 H0. unfold parse_offer. cbn. rewrite H0. reflexivity.
  - reflexivity.
  - intros before bad after e Hb He. unfold _parse_offers. cbn [py_get dict_get String.eqb].
    cbn. apply rmap_first_failure; [|exact He].
    rewrite <- Hb. apply forallb_pointwise. intros o. apply parse_offer_is_ok.
  - apply parse_offers_raise.
Qed.

End Parsing.

(** C1, the claim as stated fails: a response whose first offer has a
    [price] that is a string instead of an object.  Reading it raises
    [AttributeError], and the well-formed offer after it is lost with it. *)
Lemma malformed_offer_discards_the_rest :
  parse_offer example_offer
  = Ok (mk_offer (mk_decimal false 245 (Decimal.D5 Decimal.Nil)) (PStr "USD")
          [mk_segment (PStr "PHL") (PStr "DEN") (PStr "2026-01-24T07:00:00") PNone
                      (PStr "UA") (PStr "1234") PNone]
          [PStr "UA"])
  /\ _parse_offers (PDict [("data", PList [PDict [("price", PStr "free")]; example_offer])])
     = Raise AttributeError.
Proof. split; reflexivity. Qed.

Lemma parse_offers_tolerates_missing_fields_witness :
  _parse_offers (PDict [("data", PList [example_offer; PDict []])])
  = Ok [mk_offer (mk_decimal false 245 (Decimal.D5 Decimal.Nil)) (PStr "USD")
          [mk_segment (PStr "PHL") (PStr "DEN") (PStr "2026-01-24T07:00:00") PNone
                      (PStr "UA") (PStr "1234") PNone]
          [PStr "UA"];
        mk_offer (mk_decimal false 0 Decimal.Nil) (PStr "USD") [] []]
  /\ Forall2 (fun o po =>
                parse_offer o = Ok po
                /\ py_float (field (field o "price" (PDict [])) "total" (PInt 0))
                   = Ok (price po)
                /\ currency po = field (field o "price" (PDict [])) "currency" (PStr "USD")
                /\ segments po = map (fun s => segment_fields s) (offer_segments o)
                /\ (forall a, In a (airlines po) ->
                      In a (map carrier_code (offer_segments o)))
                /\ (forall v, In v (map carrier_code (offer_segments o)) ->
                      In v (airlines po)
                      \/ exists x, In x (airlines po) /\ py_eqb v x = true)
                /\ distinct (airlines po))
       [example_offer; PDict []]
       [mk_offer (mk_decimal false 245 (Decimal.D5 Decimal.Nil)) (PStr "USD")
          [mk_segment (PStr "PHL") (PStr "DEN") (PStr "2026-01-24T07:00:00") PNone
                      (PStr "UA") (PStr "1234") PNone]
          [PStr "UA"];
        mk_offer (mk_decimal false 0 Decimal.Nil) (PStr "USD") [] []].
Proof.
  split; [reflexivity|].
  exact (proj1 (proj2 (parse_offers_tolerates_missing_fields decimal
           (PDict [("data", PList [example_offer; PDict []])]))) _ eq_refl).
Defined.

(* ================================================================== *)
(** ** Examples of the aggregator *)



Lemma skyscanner_date_error_propagates_witness :
  valid_date "next friday" && valid_date "2026-01-26" = false
  /\ exists why,
       generate_skyscanner_url "PHL" "DEN" "next friday" "2026-01-26" 2
       = Raise (ValueError why)
       /\ forall (use_api : bool) (w : world decimal),
            fst (search_flights "PHL" "DEN" "next friday" "2026-01-26" 2 use_api w)
            = Raise (ValueError why).
Proof.
  split; [reflexivity|].
  exact (skyscanner_date_error_propagates decimal "PHL" "DEN" "next friday" "2026-01-26" 2
           eq_refl).
Defined.

(** C5, the claim as stated fails: the Kayak generator returns a URL for
    date strings that [strptime] rejects. *)
Lemma kayak_accepts_any_date_text :
  strptime "next friday" = Raise (ValueError TimeDataMismatch)
  /\ strptime "someday" = Raise (ValueError TimeDataMismatch)
  /\ generate_kayak_url "PHL" "DEN" "next friday" "someday" 1
     = "https://www.kayak.com/flights/PHL-DEN/next friday/someday/".
Proof. repeat split. Qed.

Lemma unknown_preset_fails_witness :
  dict_get "hawaii_trip" PRESETS = None
  /\ search_date_combinations "hawaii_trip" online_world
     = (Raise (ValueError (UnknownPreset "hawaii_trip")), online_world).
Proof.
  split; [reflexivity|].
  exact (unknown_preset_fails decimal "hawaii_trip" online_world eq_refl).
Defined.

Lemma preset_search_is_cartesian_witness :
  dict_get "colorado_trip" PRESETS = Some colorado_trip
  /\ exists results w',
       search_date_combinations "colorado_trip" online_world = (Ok results, w')
       /\ length results = (2 * 4)%nat
       /\ map (@search_params decimal) results
          = map (params_of colorado_trip)
              [("2026-01-23", "2026-01-26"); ("2026-01-23", "2026-01-27");
               ("2026-01-23", "2026-01-28"); ("2026-01-23", "2026-01-29");
               ("2026-01-24", "2026-01-26"); ("2026-01-24", "2026-01-27");
               ("2026-01-24", "2026-01-28"); ("2026-01-24", "2026-01-29")]
       /\ Forall (fun r => trip_name r = Some "colorado_trip") results
       /\ clock_reads w' = (clock_reads online_world + 2 * 4)%nat
       /\ searched_in_order "colorado_trip" colorado_trip
              [("2026-01-23", "2026-01-26"); ("2026-01-23", "2026-01-27");
               ("2026-01-23", "2026-01-28"); ("2026-01-23", "2026-01-29");
               ("2026-01-24", "2026-01-26"); ("2026-01-24", "2026-01-27");
               ("2026-01-24", "2026-01-28"); ("2026-01-24", "2026-01-29")]
            online_world results w'
       /\ Forall2 (fun dr r => pair_urls colorado_trip dr r)
              [("2026-01-23", "2026-01-26"); ("2026-01-23", "2026-01-27");
               ("2026-01-23", "2026-01-28"); ("2026-01-23", "2026-01-29");
               ("2026-01-24", "2026-01-26"); ("2026-01-24", "2026-01-27");
               ("2026-01-24", "2026-01-28"); ("2026-01-24", "2026-01-29")]
            results.
Proof.
  split; [reflexivity|].
  exact (preset_search_is_cartesian decimal "colorado_trip" colorado_trip online_world eq_refl).
Defined.

Lemma no_api_no_network_witness :
  valid_date "2026-01-24" = true
  /\ valid_date "2026-01-26" = true
  /\ exists r w' sky,
       search_flights "PHL" "DEN" "2026-01-24" "2026-01-26" 2 false online_world = (Ok r, w')
       /\ requests w' = requests online_world
       /\ stderr w' = stderr online_world
       /\ api_results r = None
       /\ generate_skyscanner_url "PHL" "DEN" "2026-01-24" "2026-01-26" 2 = Ok sky
       /\ urls r
          = [("google_flights",
              generate_google_flights_direct_url "PHL" "DEN" "2026-01-24" "2026-01-26" 2);
             ("kayak", generate_kayak_url "PHL" "DEN" "2026-01-24" "2026-01-26" 2);
             ("skyscanner", sky);
             ("southwest", generate_southwest_url "PHL" "DEN" "2026-01-24" "2026-01-26" 2)]
       /\ map fst (urls r) = url_names
       /\ Ok (urls r) = comparison_urls "PHL" "DEN" "2026-01-24" "2026-01-26" 2
       /\ points_urls r
          = [("chase_ultimate_rewards", "https://ultimaterewardspoints.chase.com/travel");
             ("citi_thankyou", "https://www.thankyou.com/cms/thankyou/travel.page")]
       /\ points_urls r = portal_urls.
Proof.
  refine (conj eq_refl (conj eq_refl _)).
  exact (proj2 (proj2 (no_api_no_network decimal "PHL" "DEN" "2026-01-24" "2026-01-26" 2
                         online_world)) eq_refl eq_refl).
Defined.

(* ================================================================== *)
(** ** The text report *)

Section TextReport.

Variable F : Type.
Context {float_ops : PyFloat F}.

(** C10.  In text mode the formatter raises [IndexError] on the empty
    sequence: the loop over the results appends nothing, and the
    points-portal section then reads [results[0]].  On a sequence with a
    first result that read succeeds, and the report is returned exactly when
    the lines of every result can be built. *)
Theorem text_report_needs_a_result :
  format_results (@nil (search_result F)) "text" = Raise IndexError
  /\ forall (r : search_result F) (rs : list (search_result F)),
       is_ok (format_results (r :: rs) "text") = is_ok (rmap result_lines (r :: rs)).
Proof.
  split; [reflexivity|].
  intros r rs. unfold format_results. cbn [String.eqb Ascii.eqb Bool.eqb].
  change (String.eqb "text" "json") with false. cbv iota.
  destruct (rmap result_lines (r :: rs)); reflexivity.
Qed.

End TextReport.

(* ================================================================== *)
(** ** JSON: what [json.dumps] writes, [json.loads] reads back *)

(** *** Strings *)

Lemma scanstring_escape (c : ascii) (rest acc : list ascii) :
  scanstring (List.app (escape_char c) rest) acc = scanstring rest (c :: acc).
Proof.
  destruct c as [[] [] [] [] [] [] [] []]; reflexivity.
Qed.

Lemma scanstring_escaped (cs rest acc : list ascii) :
  scanstring (List.app (flat_map escape_char cs) (quote :: rest)) acc
  = Ok (text (rev (List.app (rev cs) acc)), rest).
Proof.
  revert acc. induction cs as [|c cs IH]; intros acc.
  - reflexivity.
  - cbn [flat_map]. rewrite <- List.app_assoc, scanstring_escape, IH.
    cbn [rev]. now rewrite <- List.app_assoc.
Qed.

(** The decoder reads an encoded string back. *)
Lemma scanstring_encode_string (s : string) (rest : list ascii) :
  scanstring (List.app (tl (encode_string s)) rest) [] = Ok (s, rest).
Proof.
  unfold encode_string. cbn [tl]. rewrite <- List.app_assoc. cbn [List.app].
  rewrite scanstring_escaped, List.app_nil_r, List.rev_involutive. now rewrite text_chars.
Qed.

(** *** Numbers *)

Lemma number_end_no_digit (rest : list ascii) :
  number_end rest = true ->
  match rest with [] => True | c :: _ => is_digit c = false end.
Proof.
  destruct rest as [|c rest]; [trivial|]. cbn [number_end].
  destruct (is_digit c); [discriminate | reflexivity].
Qed.

Lemma span_digits_all (ds rest : list ascii) :
  all_digits ds ->
  match rest with [] => True | c :: _ => is_digit c = false end ->
  span_digits (List.app ds rest) = (ds, rest).
Proof.
  intros Hds Hrest. induction Hds as [|c ds Hc _ IH]; cbn [List.app span_digits].
  - destruct rest as [|c rest]; [reflexivity|]. cbn [span_digits]. now rewrite Hrest.
  - now rewrite Hc, IH.
Qed.

(** The decimal digits of a positive number start with a digit that is
    not zero. *)
Lemma nzhead_head (d : Decimal.uint) :
  match Decimal.nzhead d with Decimal.D0 _ => False | _ => True end.
Proof. induction d; cbn; trivial. Qed.

Lemma pos_to_uint_normal (p : positive) :
  Pos.to_uint p = Decimal.nzhead (Pos.to_uint p).
Proof.
  pose proof (DecimalPos.Unsigned.to_of (Pos.to_uint p)) as H.
  rewrite DecimalPos.Unsigned.of_to in H. cbn [N.to_uint] in H.
  unfold Decimal.unorm in H.
  destruct (Decimal.nzhead (Pos.to_uint p)) eqn:E; try exact H.
  exfalso. exact (Unsigned.to_uint_nonzero p H).
Qed.

Lemma pos_chars (p : positive) :
  exists c ds,
    uint_chars (Pos.to_uint p) = c :: ds
    /\ in_range 49 57 c = true /\ all_digits ds.
Proof.
  pose proof (nzhead_head (Pos.to_uint p)) as Hh.
  rewrite <- pos_to_uint_normal in Hh.
  pose proof (Unsigned.to_uint_nonnil p) as Hn.
  pose proof (uint_chars_digits (Pos.to_uint p)) as Hd.
  unfold uint_chars, NilZero.string_of_uint in *.
  destruct (Pos.to_uint p) as [|u|u|u|u|u|u|u|u|u|u]; try contradiction;
    cbn in Hd |- *; inversion Hd; subst; do 2 eexists; (split; [reflexivity|]);
    split; solve [reflexivity | assumption].
Qed.

Lemma digit_of_nonzero (c : ascii) : in_range 49 57 c = true -> is_digit c = true.
Proof.
  unfold is_digit, in_range. intros H. apply andb_true_iff in H as [H1 H2].
  apply andb_true_iff. split; [|exact H2].
  apply Nat.leb_le in H1. apply Nat.leb_le. lia.
Qed.

Lemma nonzero_not_zero (c : ascii) : in_range 49 57 c = true -> Ascii.eqb c "0" = false.
Proof.
  intros H. destruct (Ascii.eqb_spec c "0") as [->|]; [discriminate | reflexivity].
Qed.

(** The integer part of a number token, for a natural number. *)
Lemma scan_int_part_nat (n : N) (rest : list ascii) :
  match rest with [] => True | c :: _ => is_digit c = false end ->
  scan_int_part (List.app (uint_chars (N.to_uint n)) rest)
  = Some (uint_chars (N.to_uint n), rest).
Proof.
  intros Hrest. destruct n as [|p]; [reflexivity|]. cbn [N.to_uint].
  destruct (pos_chars p) as (c & ds & -> & Hc & Hds).
  cbn [List.app scan_int_part]. rewrite (nonzero_not_zero c Hc), Hc.
  now rewrite (span_digits_all ds rest Hds Hrest).
Qed.

Lemma uint_chars_head_digit (d : Decimal.uint) :
  exists c ds, uint_chars d = c :: ds /\ is_digit c = true /\ all_digits ds.
Proof.
  pose proof (uint_chars_digits d) as H. pose proof (uint_chars_nonempty d) as Hn.
  destruct (uint_chars d) as [|c ds]; [contradiction|].
  inversion H; subst. eauto.
Qed.

Lemma scan_frac_none (rest : list ascii) :
  match rest with [] => True | c :: _ => Ascii.eqb c "." = false end ->
  scan_frac rest = ([], rest).
Proof.
  destruct rest as [|c rest]; [reflexivity|]. cbn [scan_frac]. now intros ->.
Qed.

Lemma scan_frac_digits (d : Decimal.uint) (rest : list ascii) :
  match rest with [] => True | c :: _ => is_digit c = false end ->
  scan_frac ("."%char :: List.app (uint_chars d) rest) = ("."%char :: uint_chars d, rest).
Proof.
  intros Hrest. cbn [scan_frac]. change (Ascii.eqb "." ".") with true. cbv iota.
  rewrite (span_digits_all _ rest (uint_chars_digits d) Hrest).
  destruct (uint_chars_head_digit d) as (c & ds & -> & _). reflexivity.
Qed.

Lemma scan_exp_none (rest : list ascii) :
  match rest with
  | [] => True
  | c :: _ => Ascii.eqb c "e" || Ascii.eqb c "E" = false
  end ->
  scan_exp rest = ([], rest).
Proof.
  destruct rest as [|c rest]; [reflexivity|]. cbn [scan_exp]. now intros ->.
Qed.

Lemma scan_exp_digits (eneg : bool) (d : Decimal.uint) (rest : list ascii) :
  match rest with [] => True | c :: _ => is_digit c = false end ->
  scan_exp ("e"%char :: (if eneg then "-"%char else "+"%char) :: List.app (uint_chars d) rest)
  = ("e"%char :: (if eneg then "-"%char else "+"%char) :: uint_chars d, rest).
Proof.
  intros Hrest. cbn [scan_exp]. change (Ascii.eqb "e" "e" || Ascii.eqb "e" "E") with true.
  cbv iota.
  assert (Hs : Ascii.eqb (if eneg then "-"%char else "+"%char) "-"
               || Ascii.eqb (if eneg then "-"%char else "+"%char) "+" = true)
    by (destruct eneg; reflexivity).
  rewrite Hs, (span_digits_all _ rest (uint_chars_digits d) Hrest).
  destruct (uint_chars_head_digit d) as (c & ds & -> & _). reflexivity.
Qed.

Lemma digit_not_minus (c : ascii) : is_digit c = true -> Ascii.eqb c "-" = false.
Proof.
  intros H. destruct (Ascii.eqb_spec c "-") as [->|]; [discriminate | reflexivity].
Qed.

Lemma scan_number_plain (l : list ascii) :
  match l with [] => True | c :: _ => Ascii.eqb c "-" = false end ->
  scan_number l = scan_unsigned [] l.
Proof.
  unfold scan_number, scan_unsigned. destruct l as [|c l]; [reflexivity|].
  intros ->. reflexivity.
Qed.

Lemma scan_number_minus (l : list ascii) :
  scan_number ("-"%char :: l) = scan_unsigned ["-"%char] l.
Proof.
  unfold scan_number, scan_unsigned. change (Ascii.eqb "-" "-") with true. cbv iota.
  destruct (scan_int_part l) as [[int_tok rest]|]; reflexivity.
Qed.

Lemma number_end_parts (rest : list ascii) :
  number_end rest = true ->
  match rest with [] => True | c :: _ => is_digit c = false end
  /\ match rest with [] => True | c :: _ => Ascii.eqb c "." = false end
  /\ match rest with [] => True | c :: _ => Ascii.eqb c "e" || Ascii.eqb c "E" = false end.
Proof.
  destruct rest as [|c rest]; [auto|]. cbn [number_end].
  destruct (is_digit c), (Ascii.eqb c "."), (Ascii.eqb c "e"), (Ascii.eqb c "E");
    cbn; intros H; try discriminate; auto.
Qed.

(** An integer is read back as one token without fraction or exponent. *)
Lemma scan_unsigned_nat (sign : list ascii) (n : N) (rest : list ascii) :
  number_end rest = true ->
  scan_unsigned sign (List.app (uint_chars (N.to_uint n)) rest)
  = Some (List.app sign (uint_chars (N.to_uint n)), false, rest).
Proof.
  intros Hrest. destruct (number_end_parts rest Hrest) as (Hd & Hf & He).
  unfold scan_unsigned. rewrite (scan_int_part_nat n rest Hd).
  rewrite (scan_frac_none rest Hf), (scan_exp_none rest He).
  now rewrite List.app_nil_r.
Qed.

Lemma scan_number_int (z : Z) (rest : list ascii) :
  number_end rest = true ->
  scan_number (List.app (chars (py_str_int z)) rest)
  = Some (chars (py_str_int z), false, rest).
Proof.
  intros Hrest. destruct z as [|p|p].
  - change (chars (py_str_int 0)) with (uint_chars (N.to_uint 0)).
    rewrite scan_number_plain by reflexivity.
    apply (scan_unsigned_nat [] 0%N rest Hrest).
  - change (chars (py_str_int (Z.pos p))) with (uint_chars (N.to_uint (N.pos p))).
    rewrite scan_number_plain.
    + apply (scan_unsigned_nat [] (N.pos p) rest Hrest).
    + cbn [N.to_uint]. destruct (pos_chars p) as (c & ds & -> & Hc & _).
      cbn [List.app]. apply digit_not_minus, digit_of_nonzero, Hc.
  - change (chars (py_str_int (Z.neg p)))
      with ("-"%char :: uint_chars (N.to_uint (N.pos p))).
    cbn [List.app]. rewrite scan_number_minus.
    apply (scan_unsigned_nat ["-"%char] (N.pos p) rest Hrest).
Qed.

Lemma int_text_read_back (z : Z) : py_int_of_str (text (chars (py_str_int z))) = Some z.
Proof.
  rewrite text_chars. unfold py_int_of_str, py_str_int.
  rewrite NilZero.isi.
  - cbn [option_map]. now rewrite DecimalZ.of_to.
  - destruct z; cbn; try discriminate.
    intros [= H]. exact (Unsigned.to_uint_nonnil _ H).
  - destruct z; cbn; try discriminate.
    intros [= H]. exact (Unsigned.to_uint_nonnil _ H).
Qed.

Lemma decimal_tail_scanned (frac : option Decimal.uint) (expo : option (bool * Decimal.uint))
    (rest : list ascii) :
  number_end rest = true ->
  exists frac_tok exp_tok,
    scan_frac (List.app (decimal_tail frac expo) rest)
    = (frac_tok, List.app exp_tok rest)
    /\ scan_exp (List.app exp_tok rest) = (exp_tok, rest)
    /\ decimal_tail frac expo = List.app frac_tok exp_tok
    /\ match frac_tok, exp_tok with [], [] => false | _, _ => true end = true
    /\ match decimal_tail frac expo with [] => True | c :: _ => is_digit c = false end.
Proof.
  intros Hrest. destruct (number_end_parts rest Hrest) as (Hd & Hf & He).
  destruct frac as [d|], expo as [[eneg e]|]; unfold decimal_tail.
  - exists ("."%char :: uint_chars d),
           ("e"%char :: (if eneg then "-"%char else "+"%char) :: uint_chars e).
    rewrite <- List.app_assoc. cbn [List.app].
    rewrite (scan_frac_digits d
               ("e"%char :: (if eneg then "-"%char else "+"%char) :: List.app (uint_chars e) rest)
               eq_refl).
    rewrite (scan_exp_digits eneg e rest Hd).
    repeat split.
  - exists ("."%char :: uint_chars d), [].
    rewrite List.app_nil_r. cbn [List.app].
    rewrite (scan_frac_digits d rest Hd), (scan_exp_none rest He).
    repeat split.
  - exists [], ("e"%char :: (if eneg then "-"%char else "+"%char) :: uint_chars e).
    cbn [List.app].
    rewrite (scan_exp_digits eneg e rest Hd).
    repeat split.
  - exists ("."%char :: uint_chars (Decimal.D0 Decimal.Nil)), [].
    change (chars ".0") with ("."%char :: uint_chars (Decimal.D0 Decimal.Nil)).
    cbn [List.app].
    rewrite (scan_frac_digits (Decimal.D0 Decimal.Nil) rest Hd), (scan_exp_none rest He).
    repeat split.
Qed.

Lemma scan_unsigned_decimal (sign : list ascii) (n : N)
    (frac : option Decimal.uint) (expo : option (bool * Decimal.uint)) (rest : list ascii) :
  number_end rest = true ->
  scan_unsigned sign
    (List.app (List.app (uint_chars (N.to_uint n)) (decimal_tail frac expo)) rest)
  = Some (List.app sign (List.app (uint_chars (N.to_uint n)) (decimal_tail frac expo)),
          true, rest).
Proof.
  intros Hrest.
  destruct (decimal_tail_scanned frac expo rest Hrest)
    as (ft & et & Hf & He & Ht & Hflag & Hhead).
  unfold scan_unsigned. rewrite <- List.app_assoc.
  rewrite (scan_int_part_nat n).
  - rewrite Hf, He, Hflag, Ht. now rewrite <- List.app_assoc.
  - destruct (decimal_tail frac expo) as [|c l]; [|exact Hhead].
    cbn [List.app]. apply number_end_no_digit, Hrest.
Qed.

Lemma render_decimal (neg : bool) (n : N)
    (frac : option Decimal.uint) (expo : option (bool * Decimal.uint)) :
  render_float (TextDecimal neg n frac expo)
  = List.app (if neg then ["-"%char] else [])
      (List.app (uint_chars (N.to_uint n)) (decimal_tail frac expo)).
Proof. destruct frac, expo as [[? ?]|]; reflexivity. Qed.

Lemma scan_number_decimal (neg : bool) (n : N)
    (frac : option Decimal.uint) (expo : option (bool * Decimal.uint)) (rest : list ascii) :
  number_end rest = true ->
  scan_number (List.app (render_float (TextDecimal neg n frac expo)) rest)
  = Some (render_float (TextDecimal neg n frac expo), true, rest).
Proof.
  intros Hrest. rewrite render_decimal. destruct neg; cbn [List.app].
  - rewrite scan_number_minus. apply (scan_unsigned_decimal ["-"%char] n frac expo rest Hrest).
  - rewrite scan_number_plain.
    + apply (scan_unsigned_decimal [] n frac expo rest Hrest).
    + destruct (uint_chars_head_digit (N.to_uint n)) as (c & ds & -> & Hc & _).
      cbn [List.app]. apply digit_not_minus, Hc.
Qed.

(** *** Values *)

Section JsonRoundTrip.

Variable F : Type.
Context {float_ops : PyFloat F}.

(** Induction on a value, with the property for the items of a list and
    for the values of a dict. *)
Lemma pyval_ind' (P : pyval F -> Prop) :
  P PNone ->
  (forall b, P (PBool b)) ->
  (forall z, P (PInt z)) ->
  (forall f, P (PFloat f)) ->
  (forall s, P (PStr s)) ->
  (forall items, Forall P items -> P (PList items)) ->
  (forall entries, Forall (fun kv => P (snd kv)) entries -> P (PDict entries)) ->
  forall v, P v.
Proof.
  intros Hnone Hbool Hint Hfloat Hstr Hlist Hdict.
  refine (fix IH (v : pyval F) : P v :=
            match v with
            | PNone => Hnone
            | PBool b => Hbool b
            | PInt z => Hint z
            | PFloat f => Hfloat f
            | PStr s => Hstr s
            | PList items =>
                Hlist items
                  ((fix all (l : list (pyval F)) : Forall P l :=
                      match l with
                      | [] => Forall_nil P
                      | x :: l' => Forall_cons x (IH x) (all l')
                      end) items)
            | PDict entries =>
                Hdict entries
                  ((fix all (l : list (string * pyval F))
                      : Forall (fun kv => P (snd kv)) l :=
                      match l with
                      | [] => Forall_nil _
                      | kv :: l' => Forall_cons kv (IH (snd kv)) (all l')
                      end) entries)
            end).
Qed.

Lemma encode_list (level : nat) (x : pyval F) (xs : list (pyval F)) :
  encode level (PList (x :: xs))
  = "["%char ::
    List.app (newline_indent (S level))
      (List.app (encode (S level) x)
         (List.app (encode_items level xs)
            (List.app (newline_indent level) ["]"%char]))).
Proof.
  cbn [encode]. do 4 f_equal.
  induction xs as [|y xs IH]; [reflexivity|].
  cbn [encode_items flat_map List.app]. rewrite <- List.app_assoc. now rewrite IH.
Qed.

Lemma encode_dict (level : nat) (kv : string * pyval F) (xs : list (string * pyval F)) :
  encode level (PDict (kv :: xs))
  = "{"%char ::
    List.app (newline_indent (S level))
      (List.app (encode_entry level kv)
         (List.app (encode_entries level xs)
            (List.app (newline_indent level) ["}"%char]))).
Proof.
  destruct kv as [k x]. cbn [encode]. unfold encode_entry. cbn [fst snd].
  do 2 f_equal. rewrite <- List.app_assoc. cbn [List.app]. do 5 f_equal.
  induction xs as [|[k' y] xs IH]; [reflexivity|].
  rewrite IH. unfold encode_entries, encode_entry. cbn [flat_map List.app fst snd].
  rewrite <- !List.app_assoc. reflexivity.
Qed.

Lemma reread_dict (entries : list (string * pyval F)) :
  reread (PDict entries) = PDict (map (fun kv => (fst kv, reread (snd kv))) entries).
Proof.
  cbn [reread]. f_equal.
  induction entries as [|[k x] entries IH]; [reflexivity|]. cbn [map fst snd]. now rewrite IH.
Qed.

Lemma keys_unique_list (items : list (pyval F)) :
  keys_unique (PList items) <-> Forall (@keys_unique F) items.
Proof.
  cbn [keys_unique]. induction items as [|x items IH].
  - split; [constructor | trivial].
  - split.
    + intros [Hx H]. constructor; [exact Hx | now apply IH].
    + intros H. inversion H; subst. split; [assumption | now apply IH].
Qed.

Lemma keys_unique_dict (entries : list (string * pyval F)) :
  keys_unique (PDict entries)
  <-> NoDup (map fst entries) /\ Forall (fun kv => keys_unique (snd kv)) entries.
Proof.
  cbn [keys_unique]. apply and_iff_compat_l.
  induction entries as [|[k x] entries IH].
  - split; [constructor | trivial].
  - split.
    + intros [Hx H]. constructor; [exact Hx | now apply IH].
    + intros H. inversion H; subst. split; [assumption | now apply IH].
Qed.

Lemma value_end_number_end (rest : list ascii) :
  value_end rest = true -> number_end rest = true.
Proof.
  destruct rest as [|c rest]; [reflexivity|]. cbn [value_end number_end].
  destruct c as [[] [] [] [] [] [] [] []]; try discriminate; reflexivity.
Qed.

Lemma value_start_not_space (c : ascii) :
  value_start c = true ->
  is_ws c = false /\ Ascii.eqb c "]" = false /\ Ascii.eqb c "}" = false.
Proof.
  destruct c as [[] [] [] [] [] [] [] []]; try discriminate; repeat split.
Qed.

Lemma skip_ws_indent (level : nat) (l : list ascii) :
  skip_ws (List.app (newline_indent level) l) = skip_ws l.
Proof.
  unfold newline_indent. cbn [List.app skip_ws].
  change (is_ws newline) with true. cbv iota.
  induction (2 * level)%nat as [|n IH]; [reflexivity|]. exact IH.
Qed.

Lemma skip_ws_value (c : ascii) (l : list ascii) :
  is_ws c = false -> skip_ws (c :: l) = c :: l.
Proof. intros H. cbn [skip_ws]. now rewrite H. Qed.

Lemma digits_start (ds : list ascii) :
  ds <> [] -> all_digits ds -> exists c l, ds = c :: l /\ is_digit c = true.
Proof.
  intros Hn Hd. destruct ds as [|c l]; [contradiction|].
  inversion Hd; subst. eauto.
Qed.

Lemma digit_value_start (c : ascii) : is_digit c = true -> value_start c = true.
Proof.
  intros H. unfold value_start. rewrite H. now rewrite !orb_true_r.
Qed.

Lemma render_float_start (t : float_text) :
  exists c l, render_float t = c :: l /\ value_start c = true.
Proof.
  destruct t as [|[]|neg n frac expo]; try (do 2 eexists; split; reflexivity).
  rewrite render_decimal. destruct neg.
  - do 2 eexists; split; reflexivity.
  - destruct (uint_chars_head_digit (N.to_uint n)) as (c & ds & -> & Hc & _).
    cbn [List.app]. do 2 eexists. split; [reflexivity|]. now apply digit_value_start.
Qed.

Lemma encode_start (level : nat) (v : pyval F) :
  exists c l, encode level v = c :: l /\ value_start c = true.
Proof.
  destruct v as [|[]|z|f|s|[|x xs]|[|[k x] xs]];
    try (do 2 eexists; split; reflexivity).
  - cbn [encode]. destruct (py_str_int_chars z) as (ds & Hn & Hd & ->).
    destruct (z <? 0).
    + do 2 eexists; split; reflexivity.
    + destruct (digits_start ds Hn Hd) as (c & l & -> & Hc).
      do 2 eexists. split; [reflexivity|]. now apply digit_value_start.
  - apply render_float_start.
Qed.

Lemma skip_ws_encode (level : nat) (v : pyval F) (l : list ascii) :
  skip_ws (List.app (encode level v) l) = List.app (encode level v) l.
Proof.
  destruct (encode_start level v) as (c & l' & -> & Hc).
  cbn [List.app]. apply skip_ws_value. now destruct (value_start_not_space c Hc).
Qed.

(** *** Fuel *)

Lemma size_list (xs : list (pyval F)) : size (PList xs) = S (items_size xs).
Proof.
  reflexivity.
Qed.

Lemma size_dict (xs : list (string * pyval F)) : size (PDict xs) = S (entries_size xs).
Proof.
  cbn [size]. f_equal.
  induction xs as [|[k x] xs IH]; [reflexivity|].
  cbn [entries_size fold_right snd]. now rewrite IH.
Qed.

Lemma size_positive (v : pyval F) : (1 <= size v)%nat.
Proof. destruct v; cbn [size]; lia. Qed.

(** *** Atoms *)

Lemma scan_once_number (fuel : nat) (c : ascii) (l : list ascii) :
  is_digit c || Ascii.eqb c "-" || Ascii.eqb c "N" || Ascii.eqb c "I" = true ->
  scan_once (S fuel) (c :: l) = number_or_constant (c :: l).
Proof.
  destruct c as [[] [] [] [] [] [] [] []]; try discriminate; intros _; reflexivity.
Qed.

Lemma scan_once_int (fuel : nat) (z : Z) (rest : list ascii) :
  value_end rest = true ->
  scan_once (S fuel) (List.app (chars (py_str_int z)) rest) = Ok (PInt z, rest).
Proof.
  intros Hrest. apply value_end_number_end in Hrest.
  assert (Hn : number_or_constant (List.app (chars (py_str_int z)) rest) = Ok (PInt z, rest)).
  { unfold number_or_constant.
    rewrite (scan_number_int z rest Hrest), int_text_read_back. reflexivity. }
  destruct (py_str_int_chars z) as (ds & Hne & Hd & E). rewrite E in *.
  destruct (z <? 0).
  - cbn [List.app] in *. rewrite scan_once_number by reflexivity. exact Hn.
  - destruct (digits_start ds Hne Hd) as (c & l & -> & Hc).
    cbn [List.app] in *. rewrite scan_once_number by (now rewrite Hc). exact Hn.
Qed.

Lemma scan_once_float (fuel : nat) (f : F) (rest : list ascii) :
  value_end rest = true ->
  scan_once (S fuel) (List.app (render_float (float_repr f)) rest)
  = Ok (PFloat (reread_float f), rest).
Proof.
  intros Hrest. apply value_end_number_end in Hrest.
  unfold reread_float.
  destruct (float_repr f) as [|[]|neg n frac expo] eqn:E; try reflexivity.
  assert (Hn : number_or_constant
                 (List.app (render_float (TextDecimal neg n frac expo)) rest)
               = Ok (PFloat (float_of_json (text (render_float (TextDecimal neg n frac expo)))),
                     rest)).
  { unfold number_or_constant.
    rewrite (scan_number_decimal neg n frac expo rest Hrest). reflexivity. }
  revert Hn. rewrite render_decimal. destruct neg; cbn [List.app].
  - intros Hn. rewrite scan_once_number by reflexivity. exact Hn.
  - destruct (uint_chars_head_digit (N.to_uint n)) as (c & ds & -> & Hc & _).
    cbn [List.app]. intros Hn. rewrite scan_once_number by (now rewrite Hc). exact Hn.
Qed.

Lemma scan_once_string (fuel : nat) (s : string) (rest : list ascii) :
  scan_once (S fuel) (List.app (encode_string s) rest) = Ok (PStr s, rest).
Proof.
  pose proof (scanstring_encode_string s rest) as H.
  unfold encode_string in *. cbn [tl List.app] in *.
  cbn [scan_once]. change (Ascii.eqb quote quote) with true. cbv iota.
  rewrite H. reflexivity.
Qed.

(** *** Dicts *)

Lemma dict_set_fresh {V} (k : string) (v : V) (d : list (string * V)) :
  ~ In k (map fst d) -> dict_set k v d = List.app d [(k, v)].
Proof.
  induction d as [|[k' v'] d IH]; intros Hk; [reflexivity|].
  cbn [dict_set List.app]. cbn [map fst In] in Hk.
  destruct (String.eqb_spec k k') as [->|_]; [exfalso; apply Hk; now left|].
  rewrite IH; [reflexivity|]. intros H. apply Hk. now right.
Qed.

Lemma dict_of_pairs_unique {V} (pairs acc : list (string * V)) :
  NoDup (map fst (List.app acc pairs)) ->
  fold_left (fun d kv => dict_set (fst kv) (snd kv) d) pairs acc = List.app acc pairs.
Proof.
  revert acc. induction pairs as [|[k v] pairs IH]; intros acc Hn.
  - now rewrite List.app_nil_r.
  - cbn [fold_left fst snd].
    assert (Hk : ~ In k (map fst acc)).
    { rewrite map_app in Hn. cbn [map fst] in Hn.
      apply NoDup_remove_2 in Hn. intros H. apply Hn, in_or_app. now left. }
    rewrite (dict_set_fresh k v acc Hk), IH.
    + now rewrite <- List.app_assoc.
    + now rewrite <- List.app_assoc.
Qed.

Lemma dict_of_unique_pairs {V} (pairs : list (string * V)) :
  NoDup (map fst pairs) -> dict_of_pairs pairs = pairs.
Proof. intros H. unfold dict_of_pairs. now rewrite dict_of_pairs_unique. Qed.

(** *** Containers *)

Lemma value_end_items (level : nat) (xs : list (pyval F)) (l : list ascii) :
  value_end (List.app (encode_items level xs) (List.app (newline_indent level) l)) = true.
Proof. destruct xs; reflexivity. Qed.

Lemma value_end_entries (level : nat) (xs : list (string * pyval F)) (l : list ascii) :
  value_end (List.app (encode_entries level xs) (List.app (newline_indent level) l)) = true.
Proof. destruct xs; reflexivity. Qed.

(** The equations of the decoder's loops. *)
Lemma scan_items_eq (fuel : nat) (l : list ascii) (acc : list (pyval F)) :
  scan_items (S fuel) l acc
  = rbind (scan_once fuel l)
      (fun r =>
         match skip_ws (snd r) with
         | d :: rest =>
             if Ascii.eqb d "]" then Ok (rev (fst r :: acc), rest)
             else if Ascii.eqb d ","
             then scan_items fuel (skip_ws rest) (fst r :: acc)
             else Raise JSONDecodeError
         | [] => Raise JSONDecodeError
         end).
Proof. reflexivity. Qed.

Lemma scan_pairs_eq (fuel : nat) (l : list ascii) (acc : list (string * pyval F)) :
  scan_pairs (S fuel) l acc
  = rbind (scanstring l [])
      (fun k =>
         match skip_ws (snd k) with
         | c :: rest =>
             if Ascii.eqb c ":" then
               rbind (scan_once fuel (skip_ws rest))
                 (fun r =>
                    match skip_ws (snd r) with
                    | d :: rest' =>
                        if Ascii.eqb d "}" then Ok (rev ((fst k, fst r) :: acc), rest')
                        else if Ascii.eqb d "," then
                          match skip_ws rest' with
                          | q :: rest'' =>
                              if Ascii.eqb q quote
                              then scan_pairs fuel rest'' ((fst k, fst r) :: acc)
                              else Raise JSONDecodeError
                          | [] => Raise JSONDecodeError
                          end
                        else Raise JSONDecodeError
                    | [] => Raise JSONDecodeError
                    end)
             else Raise JSONDecodeError
         | [] => Raise JSONDecodeError
         end).
Proof. reflexivity. Qed.

Lemma scan_once_list_eq (fuel : nat) (l : list ascii) :
  scan_once (S fuel) ("["%char :: l)
  = match skip_ws l with
    | d :: l'' =>
        if Ascii.eqb d "]" then Ok (PList [], l'')
        else rbind (scan_items fuel (d :: l'') []) (fun r => Ok (PList (fst r), snd r))
    | [] => Raise JSONDecodeError
    end.
Proof. reflexivity. Qed.

Lemma scan_once_dict_eq (fuel : nat) (l : list ascii) :
  scan_once (S fuel) ("{"%char :: l)
  = match skip_ws l with
    | d :: l'' =>
        if Ascii.eqb d "}" then Ok (PDict [], l'')
        else if Ascii.eqb d quote then
          rbind (scan_pairs fuel l'' [])
                (fun r => Ok (PDict (dict_of_pairs (fst r)), snd r))
        else Raise JSONDecodeError
    | [] => Raise JSONDecodeError
    end.
Proof. reflexivity. Qed.

(** The loop of [JSONArray] over the items written by [encode]. *)
Lemma scan_items_encoded (level : nat) (rest : list ascii) (xs : list (pyval F)) :
  Forall reads_back xs -> Forall (@keys_unique F) xs ->
  forall (x : pyval F) (fuel : nat) (acc : list (pyval F)),
    reads_back x -> keys_unique x ->
    (items_size (x :: xs) <= fuel)%nat ->
    scan_items fuel
      (List.app (encode (S level) x)
         (List.app (encode_items level xs)
            (List.app (newline_indent level) ("]"%char :: rest))))
      acc
    = Ok (List.app (rev acc) (map (@reread F _) (x :: xs)), rest).
Proof.
  intros Hxs Hks. induction Hxs as [|y ys Hy Hys IH]; intros x fuel acc Hx Hkx Hfuel.
  - destruct fuel as [|fuel]; [cbn in Hfuel; lia|].
    cbn [items_size fold_right] in Hfuel.
    rewrite scan_items_eq.
    rewrite (Hx Hkx (S level) fuel _ ltac:(lia)
               (value_end_items level [] ("]"%char :: rest))).
    cbn [rbind fst snd encode_items flat_map List.app].
    rewrite skip_ws_indent. cbn [skip_ws].
    change (is_ws "]") with false. cbv iota.
    change (Ascii.eqb "]" "]") with true. cbv iota.
    cbn [rev map]. reflexivity.
  - inversion Hks as [|? ? Hky Hkys]; subst.
    destruct fuel as [|fuel]; [cbn in Hfuel; lia|].
    cbn [items_size fold_right] in Hfuel. fold (items_size ys) in Hfuel.
    rewrite scan_items_eq.
    rewrite (Hx Hkx (S level) fuel _ ltac:(lia) (value_end_items level (y :: ys) _)).
    cbn [rbind fst snd encode_items flat_map List.app skip_ws].
    change (is_ws ",") with false. cbv iota.
    change (Ascii.eqb "," "]") with false. change (Ascii.eqb "," ",") with true. cbv iota.
    rewrite <- !List.app_assoc, skip_ws_indent, skip_ws_encode.
    fold (encode_items level ys).
    rewrite (IH Hkys y fuel (reread x :: acc) Hy Hky).
    + cbn [rev map]. now rewrite <- List.app_assoc.
    + cbn [items_size fold_right]. fold (items_size ys). lia.
Qed.

Lemma skip_ws_space (l : list ascii) : skip_ws (" "%char :: l) = skip_ws l.
Proof. reflexivity. Qed.

Lemma tl_encode_entry (level : nat) (kv : string * pyval F) :
  tl (encode_entry level kv)
  = List.app (tl (encode_string (fst kv)))
             (":"%char :: " "%char :: encode (S level) (snd kv)).
Proof. reflexivity. Qed.

(** The loop of [JSONObject] over the entries written by [encode]. *)
Lemma scan_pairs_encoded (level : nat) (rest : list ascii) (xs : list (string * pyval F)) :
  Forall (fun kv => reads_back (snd kv)) xs ->
  Forall (fun kv => keys_unique (snd kv)) xs ->
  forall (kv : string * pyval F) (fuel : nat) (acc : list (string * pyval F)),
    reads_back (snd kv) -> keys_unique (snd kv) ->
    (entries_size (kv :: xs) <= fuel)%nat ->
    scan_pairs fuel
      (List.app (tl (encode_entry level kv))
         (List.app (encode_entries level xs)
            (List.app (newline_indent level) ("}"%char :: rest))))
      acc
    = Ok (List.app (rev acc)
            (map (fun kv => (fst kv, reread (snd kv))) (kv :: xs)), rest).
Proof.
  intros Hxs Hks. induction Hxs as [|y ys Hy Hys IH]; intros [k x] fuel acc Hx Hkx Hfuel;
    cbn [fst snd] in Hx, Hkx.
  - destruct fuel as [|fuel]; [cbn in Hfuel; lia|].
    cbn [entries_size fold_right snd] in Hfuel.
    rewrite scan_pairs_eq, tl_encode_entry. cbn [fst snd].
    rewrite <- List.app_assoc. rewrite scanstring_encode_string.
    cbn [rbind fst snd skip_ws].
    change (List.app (":"%char :: " "%char :: encode (S level) x) ?t)
      with (":"%char :: " "%char :: List.app (encode (S level) x) t).
    cbn [skip_ws].
    change (is_ws ":") with false. cbv iota.
    change (Ascii.eqb ":" ":") with true. cbv iota.
    rewrite skip_ws_space, skip_ws_encode.
    rewrite (Hx Hkx (S level) fuel _ ltac:(lia)
               (value_end_entries level [] ("}"%char :: rest))).
    cbn [rbind fst snd encode_entries flat_map List.app].
    rewrite skip_ws_indent. cbn [skip_ws].
    change (is_ws "}") with false. cbv iota.
    change (Ascii.eqb "}" "}") with true. cbv iota.
    cbn [rev map fst snd]. reflexivity.
  - inversion Hks as [|? ? Hky Hkys]; subst.
    destruct fuel as [|fuel]; [cbn in Hfuel; lia|].
    cbn [entries_size fold_right snd] in Hfuel. fold (entries_size ys) in Hfuel.
    rewrite scan_pairs_eq, tl_encode_entry. cbn [fst snd].
    rewrite <- List.app_assoc. rewrite scanstring_encode_string.
    cbn [rbind fst snd skip_ws].
    change (List.app (":"%char :: " "%char :: encode (S level) x) ?t)
      with (":"%char :: " "%char :: List.app (encode (S level) x) t).
    cbn [skip_ws].
    change (is_ws ":") with false. cbv iota.
    change (Ascii.eqb ":" ":") with true. cbv iota.
    rewrite skip_ws_space, skip_ws_encode.
    rewrite (Hx Hkx (S level) fuel _ ltac:(lia) (value_end_entries level (y :: ys) _)).
    cbn [rbind fst snd encode_entries flat_map List.app skip_ws].
    change (is_ws ",") with false. cbv iota.
    change (Ascii.eqb "," "}") with false. change (Ascii.eqb "," ",") with true. cbv iota.
    rewrite <- !List.app_assoc, skip_ws_indent.
    fold (encode_entries level ys).
    assert (Hq : encode_entry level y = quote :: tl (encode_entry level y))
      by (unfold encode_entry, encode_string; reflexivity).
    rewrite Hq at 1. cbn [List.app skip_ws].
    change (is_ws quote) with false. cbv iota.
    change (Ascii.eqb quote quote) with true. cbv iota.
    rewrite (IH Hkys y fuel ((k, reread x) :: acc) Hy Hky).
    + cbn [rev map fst snd]. now rewrite <- List.app_assoc.
    + cbn [entries_size fold_right]. fold (entries_size ys). lia.
Qed.

Lemma map_fst_reread (xs : list (string * pyval F)) :
  map fst (map (fun kv => (fst kv, reread (snd kv))) xs) = map fst xs.
Proof. rewrite map_map. reflexivity. Qed.

(** Every value is read back. *)
Lemma scan_once_encode (v : pyval F) : reads_back v.
Proof.
  induction v as [|b|z|f|s|items IH|entries IH] using pyval_ind';
    intros Hk level fuel rest Hfuel Hrest;
    (destruct fuel as [|fuel];
     [match type of Hfuel with (size ?x <= _)%nat => pose proof (size_positive x) end; lia|]).
  - reflexivity.
  - destruct b; reflexivity.
  - apply scan_once_int, Hrest.
  - apply scan_once_float, Hrest.
  - apply scan_once_string.
  - destruct items as [|x xs]; [reflexivity|].
    apply keys_unique_list in Hk.
    inversion Hk as [|? ? Hkx Hkxs]; subst. inversion IH as [|? ? Hx Hxs]; subst.
    rewrite size_list in Hfuel.
    rewrite encode_list. cbn [List.app]. rewrite scan_once_list_eq.
    rewrite <- !List.app_assoc, skip_ws_indent, skip_ws_encode.
    change (List.app ["]"%char] rest) with ("]"%char :: rest).
    pose proof (scan_items_encoded level rest xs Hxs Hkxs x fuel [] Hx Hkx ltac:(lia)) as H.
    destruct (encode_start (S level) x) as (c & l & Hc & Hs).
    destruct (value_start_not_space c Hs) as (_ & Hb & _).
    revert H. rewrite Hc. cbn [List.app]. rewrite Hb. intros ->. reflexivity.
  - destruct entries as [|kv xs]; [reflexivity|].
    apply keys_unique_dict in Hk. destruct Hk as [Hnd Hk].
    inversion Hk as [|? ? Hkx Hkxs]; subst. inversion IH as [|? ? Hx Hxs]; subst.
    rewrite size_dict in Hfuel.
    rewrite encode_dict, reread_dict. cbn [List.app]. rewrite scan_once_dict_eq.
    rewrite <- !List.app_assoc, skip_ws_indent.
    change (List.app ["}"%char] rest) with ("}"%char :: rest).
    pose proof (scan_pairs_encoded level rest xs Hxs Hkxs kv fuel [] Hx Hkx ltac:(lia)) as H.
    cbn [List.app rev] in H.
    assert (Hq : encode_entry level kv = quote :: tl (encode_entry level kv))
      by (unfold encode_entry, encode_string; reflexivity).
    rewrite Hq at 1. cbn [List.app skip_ws].
    change (is_ws quote) with false. cbv iota.
    change (Ascii.eqb quote "}") with false. change (Ascii.eqb quote quote) with true.
    cbv iota.
    rewrite H. cbn [rbind fst snd].
    rewrite dict_of_unique_pairs; [reflexivity|].
    now rewrite map_fst_reread.
Qed.

(** *** The fuel [json_loads] starts with is enough *)

Lemma encode_nonempty (level : nat) (v : pyval F) : (1 <= length (encode level v))%nat.
Proof.
  destruct (encode_start level v) as (c & l & -> & _). cbn [length]. lia.
Qed.

Lemma newline_indent_length (level : nat) :
  length (newline_indent level) = S (2 * level).
Proof. unfold newline_indent. cbn [length]. now rewrite repeat_length. Qed.

Lemma items_size_le (level : nat) (xs : list (pyval F)) :
  Forall (fun x => forall lv, (size x <= length (encode lv x))%nat) xs ->
  (items_size xs <= length (encode_items level xs))%nat.
Proof.
  induction 1 as [|y ys Hy _ IH]; [cbn; lia|].
  cbn [items_size fold_right encode_items flat_map]. rewrite length_app.
  cbn [length]. rewrite length_app.
  fold (items_size ys). fold (encode_items level ys).
  specialize (Hy (S level)). lia.
Qed.

Lemma entry_size_le (level : nat) (kv : string * pyval F) :
  (size (snd kv) <= length (encode (S level) (snd kv)))%nat ->
  (size (snd kv) <= length (encode_entry level kv))%nat.
Proof.
  intros H. unfold encode_entry. rewrite length_app. cbn [length]. lia.
Qed.

Lemma entries_size_le (level : nat) (xs : list (string * pyval F)) :
  Forall (fun kv => forall lv, (size (snd kv) <= length (encode lv (snd kv)))%nat) xs ->
  (entries_size xs <= length (encode_entries level xs))%nat.
Proof.
  induction 1 as [|y ys Hy _ IH]; [cbn; lia|].
  cbn [entries_size fold_right encode_entries flat_map]. rewrite length_app.
  cbn [length]. rewrite length_app.
  fold (entries_size ys). fold (encode_entries level ys).
  pose proof (entry_size_le level y (Hy (S level))). lia.
Qed.

Lemma size_le_encode (v : pyval F) :
  forall level, (size v <= length (encode level v))%nat.
Proof.
  induction v as [|b|z|f|s|items IH|entries IH] using pyval_ind'; intros level;
    try apply encode_nonempty.
  - destruct items as [|x xs]; [cbn; lia|].
    rewrite size_list, encode_list. inversion IH as [|? ? Hx Hxs]; subst.
    cbn [length items_size fold_right]. rewrite !length_app. fold (items_size xs).
    pose proof (items_size_le level xs Hxs).
    specialize (Hx (S level)). rewrite !newline_indent_length. cbn [length]. lia.
  - destruct entries as [|kv xs]; [cbn; lia|].
    rewrite size_dict, encode_dict. inversion IH as [|? ? Hx Hxs]; subst.
    cbn [length entries_size fold_right]. rewrite !length_app. fold (entries_size xs).
    pose proof (entries_size_le level xs Hxs).
    pose proof (entry_size_le level kv (Hx (S level))).
    rewrite !newline_indent_length. cbn [length]. lia.
Qed.

(** [json.loads(json.dumps(v, indent=2))] is [v] with its floats read back
    from their text. *)
Lemma json_loads_dumps (v : pyval F) :
  keys_unique v -> json_loads (json_dumps v) = Ok (reread v).
Proof.
  intros Hk. unfold json_loads, json_dumps. rewrite chars_text.
  rewrite <- (List.app_nil_r (encode 0 v)), skip_ws_encode.
  rewrite (scan_once_encode v Hk 0%nat _ []).
  - reflexivity.
  - rewrite List.app_nil_r. pose proof (size_le_encode v 0%nat). lia.
  - reflexivity.
Qed.

(** *** Search results *)

Lemma reread_urls (d : list (string * string)) :
  reread (py_of_urls F d) = py_of_urls F d.
Proof.
  unfold py_of_urls. rewrite reread_dict, map_map. reflexivity.
Qed.

Lemma reread_params (p : search_params_t) :
  reread (py_of_params F p) = py_of_params F p.
Proof. reflexivity. Qed.

(** The parts of a result that the round trip compares. *)
Lemma reread_result_fields (r : search_result F) :
  field (reread (py_of_result r)) "search_params" PNone = py_of_params F (search_params r)
  /\ field (reread (py_of_result r)) "urls" PNone = py_of_urls F (urls r)
  /\ field (reread (py_of_result r)) "points_urls" PNone = py_of_urls F (points_urls r).
Proof.
  unfold py_of_result. rewrite reread_dict. cbn [List.app map fst snd].
  rewrite !reread_urls. repeat split.
Qed.

(** C9.  For every sequence of search results whose dicts have unique
    keys, formatting it as JSON and parsing the text gives a list with one
    value per result, whose [search_params], [urls] and [points_urls] are
    those of the result, in order. *)
Theorem json_round_trip (results : list (search_result F)) :
  Forall (fun r => result_keys_unique r) results ->
  exists s vs,
    format_results results "json" = Ok s
    /\ json_loads s = Ok (PList vs)
    /\ map (fun v => field v "search_params" PNone) vs
       = map (fun r => py_of_params F (search_params r)) results
    /\ map (fun v => field v "urls" PNone) vs
       = map (fun r => py_of_urls F (urls r)) results
    /\ map (fun v => field v "points_urls" PNone) vs
       = map (fun r => py_of_urls F (points_urls r)) results.
Proof.
  intros Hk.
  exists (json_dumps (PList (map (fun r => py_of_result r) results))),
         (map (fun r => reread (py_of_result r)) results).
  split; [reflexivity|]. split.
  - rewrite json_loads_dumps.
    + cbn [reread]. now rewrite map_map.
    + apply keys_unique_list. apply Forall_map. exact Hk.
  - rewrite !map_map. repeat split; apply map_ext; intros r; apply reread_result_fields.
Qed.

End JsonRoundTrip.

Ltac solve_nodup :=
  repeat (apply NoDup_cons; [cbn; intuition discriminate|]); apply NoDup_nil.

Lemma example_results_keys_unique :
  Forall (fun r => result_keys_unique r) example_results.
Proof.
  unfold example_results, result_keys_unique.
  repeat (apply Forall_cons || apply Forall_nil);
    cbn; repeat split; solve_nodup.
Qed.

Lemma json_round_trip_witness :
  Forall (fun r => result_keys_unique r) example_results
  /\ exists s vs,
       format_results example_results "json" = Ok s
       /\ json_loads s = Ok (PList vs)
       /\ map (fun v => field v "search_params" PNone) vs
          = map (fun r => py_of_params decimal (search_params r)) example_results
       /\ map (fun v => field v "urls" PNone) vs
          = map (fun r => py_of_urls decimal (urls r)) example_results
       /\ map (fun v => field v "points_urls" PNone) vs
          = map (fun r => py_of_urls decimal (points_urls r)) example_results.
Proof.
  exact (conj example_results_keys_unique
              (json_round_trip decimal example_results example_results_keys_unique)).
Defined.

(* ================================================================== *)
(** ** Percent-encoding *)

Lemma hex_digit_safe (n : nat) : (n < 16)%nat -> always_safe (hex_digit n) = true.
Proof.
  intros H. do 16 (destruct n as [|n]; [reflexivity|]). lia.
Qed.

Lemma quote_plus_char_safe (c : ascii) :
  Forall (fun x => url_safe x = true) (quote_plus_char c).
Proof.
  unfold quote_plus_char, url_safe.
  destruct (always_safe c) eqn:Hs.
  - repeat constructor. now rewrite Hs.
  - destruct (Ascii.eqb c " ").
    + repeat constructor.
    + constructor; [reflexivity|].
      constructor; [|constructor; [|constructor]].
      * rewrite hex_digit_safe; [reflexivity|].
        apply Nat.Div0.div_lt_upper_bound. pose proof (nat_ascii_bounded c).
        unfold code. lia.
      * rewrite hex_digit_safe; [reflexivity|].
        apply Nat.mod_upper_bound. discriminate.
Qed.

Lemma quote_plus_chars_safe (s : string) :
  Forall (fun x => url_safe x = true) (chars (quote_plus s)).
Proof.
  unfold quote_plus. rewrite chars_text.
  induction (chars s) as [|c l IH]; [constructor|].
  cbn [flat_map]. apply Forall_app. split; [apply quote_plus_char_safe | exact IH].
Qed.

Lemma count_char_app (c : ascii) (a b : string) :
  count_char c (a ++ b) = (count_char c a + count_char c b)%nat.
Proof. unfold count_char. now rewrite chars_app, count_occ_app. Qed.

Lemma count_char_quoted (c : ascii) (s : string) :
  url_safe c = false -> count_char c (quote_plus s) = 0%nat.
Proof.
  intros Hc. unfold count_char. apply count_occ_not_In.
  intros Hin. pose proof (quote_plus_chars_safe s) as H.
  rewrite Forall_forall in H. specialize (H c Hin). congruence.
Qed.

(** A character that percent-encoding never writes occurs in an encoded
    query only as a separator: [&] between the parameters, [=] in each. *)
Lemma count_char_urlencode (c : ascii) (params : list (string * string)) :
  url_safe c = false ->
  count_char c (urlencode params)
  = (count_char c "&" * (length params - 1) + count_char c "=" * length params)%nat.
Proof.
  intros Hc. unfold urlencode, py_join.
  induction params as [|kv params IH]; [cbn; lia|].
  cbn [map String.concat]. destruct params as [|kv' params].
  - cbn [map]. rewrite !count_char_app, !count_char_quoted by exact Hc.
    cbn [length]. lia.
  - cbn [map] in *. rewrite !count_char_app, IH, !count_char_quoted by exact Hc.
    cbn [length]. nia.
Qed.

(** X1.  Whatever the airport codes, the dates and the passenger count, the
    query of the Southwest URL has exactly its fourteen parameters: the text
    after the base URL holds thirteen [&] and fourteen [=], and no space,
    because [urlencode] escapes every value. *)
Theorem southwest_query_has_fourteen_parameters (o d dep rt : string) (p : Z) :
  exists query,
    generate_southwest_url o d dep rt p
    = "https://www.southwest.com/air/booking/select.html?" ++ query
    /\ count_char "&" query = 13%nat
    /\ count_char "=" query = 14%nat
    /\ count_char " " query = 0%nat.
Proof.
  exists (urlencode (southwest_params o d dep rt p)).
  split; [reflexivity|].
  repeat split; rewrite count_char_urlencode by reflexivity; reflexivity.
Qed.

(** X2.  The query-style Google Flights generator escapes its text: the
    query of its URL has exactly the three parameters [hl], [curr] and
    [q], with two [&], three [=] and no space, whatever the airport codes
    and the dates hold. *)
Theorem google_query_has_three_parameters (o d dep rt : string) (p : Z) :
  exists query,
    generate_google_flights_url o d dep rt p
    = "https://www.google.com/travel/flights?" ++ query
    /\ count_char "&" query = 2%nat
    /\ count_char "=" query = 3%nat
    /\ count_char " " query = 0%nat.
Proof.
  unfold generate_google_flights_url.
  set (q := if 1 <? p then _ else _).
  exists (urlencode [("hl", "en"); ("curr", "USD"); ("q", q)]).
  split; [reflexivity|].
  repeat split; rewrite count_char_urlencode by reflexivity; reflexivity.
Qed.

(* ================================================================== *)
(** ** The Skyscanner URL *)

Lemma in_range_bounds (lo hi : nat) (c : ascii) :
  in_range lo hi c = true -> (lo <= code c <= hi)%nat.
Proof.
  unfold in_range. intros H. apply andb_true_iff in H as [H1 H2].
  apply Nat.leb_le in H1. apply Nat.leb_le in H2. lia.
Qed.

Lemma digit_val_bounds (lo hi : nat) (c : ascii) :
  in_range lo hi c = true -> Z.of_nat lo <= digit_val c + 48 <= Z.of_nat hi.
Proof. intros H. apply in_range_bounds in H. unfold digit_val. lia. Qed.

Lemma match_year_bounds (l rest : list ascii) (y : Z) :
  match_year l = Some (y, rest) -> 0 <= y <= 9999.
Proof.
  unfold match_year. destruct l as [|a [|b [|c [|d l]]]]; try discriminate.
  destruct (is_digit a) eqn:Ha; [|discriminate].
  destruct (is_digit b) eqn:Hb; [|discriminate].
  destruct (is_digit c) eqn:Hc; [|discriminate].
  destruct (is_digit d) eqn:Hd; [|discriminate].
  change (true && true && true && true) with true. cbv iota.
  intros H. assert (Hy : y = 1000 * digit_val a + 100 * digit_val b + 10 * digit_val c + digit_val d)
    by congruence.
  clear H. subst y.
  apply (digit_val_bounds 48 57) in Ha. apply (digit_val_bounds 48 57) in Hb.
  apply (digit_val_bounds 48 57) in Hc. apply (digit_val_bounds 48 57) in Hd.
  lia.
Qed.

Lemma Forall_append {A} (P : A -> Prop) (l1 l2 : list A) :
  Forall P l1 -> Forall P l2 -> Forall P (List.app l1 l2).
Proof. intros H1 H2. apply Forall_app. now split. Qed.

Lemma match_month_bounds (l : list ascii) :
  Forall (fun mr => 1 <= fst mr <= 12) (match_month l).
Proof.
  unfold match_month. apply Forall_append; [|apply Forall_append].
  - destruct l as [|a [|b l]]; try constructor.
    destruct (Ascii.eqb a "1" && in_range 48 50 b) eqn:H; [|constructor].
    apply andb_true_iff in H as [_ H]. apply digit_val_bounds in H.
    repeat constructor; cbn [fst]; lia.
  - destruct l as [|a [|b l]]; try constructor.
    destruct (Ascii.eqb a "0" && in_range 49 57 b) eqn:H; [|constructor].
    apply andb_true_iff in H as [_ H]. apply digit_val_bounds in H.
    repeat constructor; cbn [fst]; lia.
  - destruct l as [|a l]; try constructor.
    destruct (in_range 49 57 a) eqn:H; [|constructor].
    apply digit_val_bounds in H. repeat constructor; cbn [fst]; lia.
Qed.

Lemma match_day_bounds (l : list ascii) :
  Forall (fun dr => 1 <= fst dr <= 31) (match_day l).
Proof.
  unfold match_day.
  apply Forall_append; [|apply Forall_append; [|apply Forall_append; [|apply Forall_append]]].
  - destruct l as [|a [|b l]]; try constructor.
    destruct (Ascii.eqb a "3" && in_range 48 49 b) eqn:H; [|constructor].
    apply andb_true_iff in H as [_ H]. apply digit_val_bounds in H.
    repeat constructor; cbn [fst]; lia.
  - destruct l as [|a [|b l]]; try constructor.
    destruct (in_range 49 50 a && is_digit b) eqn:H; [|constructor].
    apply andb_true_iff in H as [H1 H2].
    apply digit_val_bounds in H1. apply (digit_val_bounds 48 57) in H2.
    repeat constructor; cbn [fst]; lia.
  - destruct l as [|a [|b l]]; try constructor.
    destruct (Ascii.eqb a "0" && in_range 49 57 b) eqn:H; [|constructor].
    apply andb_true_iff in H as [_ H]. apply digit_val_bounds in H.
    repeat constructor; cbn [fst]; lia.
  - destruct l as [|a l]; try constructor.
    destruct (in_range 49 57 a) eqn:H; [|constructor].
    apply digit_val_bounds in H. repeat constructor; cbn [fst]; lia.
  - destruct l as [|a [|b l]]; try constructor.
    destruct (Ascii.eqb a " " && in_range 49 57 b) eqn:H; [|constructor].
    apply andb_true_iff in H as [_ H]. apply digit_val_bounds in H.
    repeat constructor; cbn [fst]; lia.
Qed.

Lemma first_month_day_bounds (ms : list (Z * list ascii)) (m d : Z) (rest : list ascii) :
  Forall (fun mr => 1 <= fst mr <= 12) ms ->
  first_month_day ms = Some (m, d, rest) ->
  1 <= m <= 12 /\ 1 <= d <= 31.
Proof.
  induction 1 as [|[m' r'] ms Hm _ IH]; cbn [first_month_day]; [discriminate|].
  destruct (expect_dash r') as [r''|]; [|exact IH].
  pose proof (match_day_bounds r'') as Hd.
  destruct (match_day r'') as [|[d' r3] ds]; [exact IH|].
  intros [= <- <- <-]. inversion Hd; subst. cbn [fst] in *. auto.
Qed.

(** A date [strptime] returns is a day of the calendar. *)
Lemma strptime_calendar_date (s : string) (dt : date) :
  strptime s = Ok dt ->
  1 <= year dt <= 9999 /\ 1 <= month dt <= 12
  /\ 1 <= day dt <= days_in_month (year dt) (month dt).
Proof.
  unfold strptime.
  destruct (match_year (chars s)) as [[y rest]|] eqn:Hy; [|discriminate].
  destruct (expect_dash rest) as [rest'|]; [|discriminate].
  destruct (first_month_day (match_month rest')) as [[[m d] [|c l]]|] eqn:Hmd;
    try discriminate.
  destruct ((1 <=? y) && (d <=? days_in_month y m)) eqn:Hok; [|discriminate].
  intros [= <-]. cbn [year month day].
  apply andb_true_iff in Hok as [H1 H2].
  apply Z.leb_le in H1. apply Z.leb_le in H2.
  apply match_year_bounds in Hy.
  destruct (first_month_day_bounds _ _ _ _ (match_month_bounds rest') Hmd).
  lia.
Qed.

Lemma two_digits_shape (n : Z) : 0 <= n < 100 -> digits_n 2 (two_digits n).
Proof.
  intros H. rewrite <- (Z2Nat.id n) by lia.
  assert (Hk : (Z.to_nat n < 100)%nat) by lia.
  generalize dependent (Z.to_nat n). clear n H. intros k Hk.
  do 100 (destruct k as [|k]; [split; [reflexivity | repeat constructor]|]).
  lia.
Qed.

Lemma digits_n_app (n m : nat) (a b : string) :
  digits_n n a -> digits_n m b -> digits_n (n + m) (a ++ b).
Proof.
  intros [Ha1 Ha2] [Hb1 Hb2]. split.
  - rewrite <- Ha1, <- Hb1. clear. induction a as [|c a IH]; cbn; [reflexivity | now rewrite IH].
  - rewrite chars_app. apply Forall_app. now split.
Qed.

Lemma strftime_six_digits (s : string) (dt : date) :
  strptime s = Ok dt -> digits_n 6 (strftime_yymmdd dt).
Proof.
  intros H. apply strptime_calendar_date in H as (Hy & Hm & Hd).
  assert (Hd' : day dt <= 31).
  { unfold days_in_month in Hd.
    destruct (month dt =? 2); [destruct (is_leap (year dt))|
      destruct ((month dt =? 4) || (month dt =? 6) || (month dt =? 9) || (month dt =? 11))];
      lia. }
  unfold strftime_yymmdd.
  apply (digits_n_app 2 4); [apply two_digits_shape, Z.mod_pos_bound; lia|].
  apply (digits_n_app 2 2); apply two_digits_shape; lia.
Qed.

(** X3.  When the Skyscanner generator returns, its URL is the fixed
    prefix, the two airport codes in lower case (the second followed by
    [e]) and two date fields of exactly six digits each. *)
Theorem skyscanner_url_shape (o d dep rt : string) (p : Z) (url : string) :
  generate_skyscanner_url o d dep rt p = Ok url ->
  exists a b,
    digits_n 6 a /\ digits_n 6 b
    /\ url = "https://www.skyscanner.com/transport/flights/" ++ py_lower o ++ "/"
             ++ py_lower d ++ "e/" ++ a ++ "/" ++ b ++ "/".
Proof.
  unfold generate_skyscanner_url, rbind.
  destruct (strptime dep) as [dd|] eqn:Hd; [|discriminate].
  destruct (strptime rt) as [rd|] eqn:Hr; [|discriminate].
  intros [= <-]. exists (strftime_yymmdd dd), (strftime_yymmdd rd).
  split; [eapply strftime_six_digits; eassumption|].
  split; [eapply strftime_six_digits; eassumption|]. reflexivity.
Qed.

Lemma skyscanner_url_shape_witness :
  generate_skyscanner_url "PHL" "DEN" "2026-01-24" "2026-1-5" 2
  = Ok "https://www.skyscanner.com/transport/flights/phl/dene/260124/260105/"
  /\ exists a b,
       digits_n 6 a /\ digits_n 6 b
       /\ "https://www.skyscanner.com/transport/flights/phl/dene/260124/260105/"
          = "https://www.skyscanner.com/transport/flights/" ++ py_lower "PHL" ++ "/"
            ++ py_lower "DEN" ++ "e/" ++ a ++ "/" ++ b ++ "/".
Proof.
  split; [reflexivity|].
  exact (skyscanner_url_shape "PHL" "DEN" "2026-01-24" "2026-1-5" 2 _ eq_refl).
Defined.

Lemma to_lower_idempotent (c : ascii) : to_lower (to_lower c) = to_lower c.
Proof. destruct c as [[] [] [] [] [] [] [] []]; reflexivity. Qed.

Lemma py_lower_idempotent (s : string) : py_lower (py_lower s) = py_lower s.
Proof.
  unfold py_lower. rewrite chars_text, map_map. f_equal.
  apply map_ext. intros c. apply to_lower_idempotent.
Qed.

(** X4.  The Skyscanner generator does not distinguish the case of the
    airport codes: the codes and their lower-case forms give the same
    outcome, URL or exception. *)
Theorem skyscanner_ignores_case (o d dep rt : string) (p : Z) :
  generate_skyscanner_url (py_lower o) (py_lower d) dep rt p
  = generate_skyscanner_url o d dep rt p.
Proof.
  unfold generate_skyscanner_url. now rewrite !py_lower_idempotent.
Qed.

(* ================================================================== *)
(** ** Segments and airlines of a parsed offer *)

Section ParsedOffer.

Variable F : Type.
Context {float_ops : PyFloat F}.

(** X5.  The segments of a parsed offer are those of all its itineraries,
    in order, in one list: outbound and return legs are not kept apart.
    Each is the parsed form of the response segment, with its fields or
    [None] where they are missing. *)
Theorem parsed_segments_are_flattened (o : pyval F) (po : parsed_offer F) :
  parse_offer o = Ok po ->
  segments po = map (fun s => segment_fields s) (offer_segments o).
Proof.
  intros H. now destruct (parse_offer_reads F o po H) as (H1 & _).
Qed.

Lemma py_eqb_str_exact (s : string) : exact (PStr s : pyval F).
Proof.
  intros x. destruct x; cbn [py_eqb]; try discriminate.
  intros H. apply String.eqb_eq in H. now subst.
Qed.

Lemma py_eqb_none_exact : exact (PNone : pyval F).
Proof. intros x. destruct x; cbn [py_eqb]; try discriminate. reflexivity. Qed.

Lemma carrier_of_segment_fields (segs : list (pyval F)) :
  map (fun s => carrier s) (map (fun s => segment_fields s) segs) = map carrier_code segs.
Proof. rewrite map_map. reflexivity. Qed.

(** X6.  The airlines of a parsed offer are carrier codes of its segments;
    every carrier code that is a string, and [None] when a segment has no
    carrier code, is among them; and no entry compares equal to an earlier
    one. *)
Theorem parsed_airlines_are_the_carriers (o : pyval F) (po : parsed_offer F) :
  parse_offer o = Ok po ->
  (forall a, In a (airlines po) -> In a (map (fun s => carrier s) (segments po)))
  /\ (forall s, In (PStr s) (map (fun s => carrier s) (segments po)) ->
                In (PStr s) (airlines po))
  /\ (In PNone (map (fun s => carrier s) (segments po)) -> In PNone (airlines po))
  /\ ForallOrdPairs (fun a b => py_eqb b a = false) (airlines po).
Proof.
  intros H. destruct (parse_offer_reads F o po H) as (H1 & _ & H3 & H4 & H5).
  cbn [fst snd] in *. rewrite H1. cbn [List.app]. rewrite carrier_of_segment_fields.
  repeat split.
  - intros a Ha. destruct (H3 a Ha) as [[]|Hs]. exact Hs.
  - intros s Hs. destruct (H4 _ Hs) as [Hin|(x & Hx & Heq)]; [exact Hin|].
    now rewrite <- (py_eqb_str_exact s x Heq).
  - intros Hn. destruct (H4 _ Hn) as [Hin|(x & Hx & Heq)]; [exact Hin|].
    now rewrite <- (py_eqb_none_exact x Heq).
  - apply H5. constructor.
Qed.

End ParsedOffer.

Lemma parsed_segments_are_flattened_witness :
  parse_offer example_offer = Ok example_parsed_offer
  /\ segments example_parsed_offer
     = map (fun s => segment_fields s) (offer_segments example_offer).
Proof.
  exact (conj eq_refl
           (parsed_segments_are_flattened decimal example_offer example_parsed_offer eq_refl)).
Defined.

Lemma parsed_airlines_are_the_carriers_witness :
  parse_offer example_offer = Ok example_parsed_offer
  /\ (forall a, In a (airlines example_parsed_offer) ->
                In a (map (fun s => carrier s) (segments example_parsed_offer)))
  /\ (forall s, In (PStr s) (map (fun s => carrier s) (segments example_parsed_offer)) ->
                In (PStr s) (airlines example_parsed_offer))
  /\ (In PNone (map (fun s => carrier s) (segments example_parsed_offer)) ->
      In PNone (airlines example_parsed_offer))
  /\ ForallOrdPairs (fun a b => py_eqb b a = false) (airlines example_parsed_offer).
Proof.
  exact (conj eq_refl
           (parsed_airlines_are_the_carriers decimal example_offer example_parsed_offer
              eq_refl)).
Defined.

(* ================================================================== *)
(** ** The text report *)

Section TextReportLines.

Variable F : Type.
Context {float_ops : PyFloat F}.

Lemma str_items_is_ok (l : list (pyval F)) :
  is_ok (rmap str_item l) = forallb is_str l.
Proof.
  rewrite rmap_is_ok. apply forallb_pointwise. intros v. now destruct v.
Qed.

Lemma str_items_raise (l : list (pyval F)) (e : exn) :
  rmap str_item l = Raise e -> e = TypeError.
Proof.
  induction l as [|v l IH]; cbn [rmap]; [discriminate|].
  destruct (str_item v) as [s|e'] eqn:Hv.
  - destruct (rmap str_item l); [discriminate|].
    intros [= <-]. now apply IH.
  - intros [= <-]. destruct v; try discriminate; now injection Hv as <-.
Qed.

Lemma str_items_names (l : list (pyval F)) (names : list string) :
  rmap str_item l = Ok names -> l = map (fun s => PStr s) names.
Proof.
  revert names. induction l as [|v l IH]; cbn [rmap]; intros names.
  - now intros [= <-].
  - destruct (str_item v) as [s|] eqn:Hv; [|discriminate].
    destruct (rmap str_item l) as [ns|]; [|discriminate].
    intros [= <-]. cbn [map]. rewrite <- (IH ns eq_refl).
    destruct v; try discriminate. now injection Hv as ->.
Qed.

Lemma offer_lines_is_ok (l : list (parsed_offer F)) :
  forall i,
    is_ok (offer_lines i l) = forallb (fun o => forallb is_str (airlines o)) l.
Proof.
  induction l as [|o l IH]; intros i; [reflexivity|].
  cbn [offer_lines forallb]. rewrite <- str_items_is_ok.
  destruct (rmap str_item (airlines o)); [|reflexivity].
  cbn [rbind is_ok andb]. rewrite <- (IH (i + 1)).
  destruct (offer_lines (i + 1) l); reflexivity.
Qed.

Lemma offer_lines_raise (l : list (parsed_offer F)) (e : exn) :
  forall i, offer_lines i l = Raise e -> e = TypeError.
Proof.
  induction l as [|o l IH]; intros i; cbn [offer_lines]; [discriminate|].
  destruct (rmap str_item (airlines o)) eqn:Hn.
  - cbn [rbind]. destruct (offer_lines (i + 1) l) eqn:Hr; [discriminate|].
    cbn [rbind]. intros [= <-]. now apply (IH (i + 1)).
  - cbn [rbind]. intros [= <-]. now apply str_items_raise in Hn.
Qed.

Lemma offer_lines_nth (l : list (parsed_offer F)) :
  forall i ls,
    offer_lines i l = Ok ls ->
    length ls = length l
    /\ forall n o,
         nth_error l n = Some o ->
         exists names,
           airlines o = map (fun s => PStr s) names
           /\ nth_error ls n
              = Some ("  " ++ py_str_int (i + Z.of_nat n) ++ ". $"
                      ++ float_format_2f (price o) ++ " - " ++ py_join ", " names).
Proof.
  induction l as [|o l IH]; intros i ls; cbn [offer_lines].
  - intros [= <-]. split; [reflexivity|]. intros [|n] o'; discriminate.
  - destruct (rmap str_item (airlines o)) as [names|] eqn:Hn; [|discriminate].
    cbn [rbind]. destruct (offer_lines (i + 1) l) as [rest|] eqn:Hr; [|discriminate].
    cbn [rbind]. intros [= <-]. destruct (IH (i + 1) rest Hr) as [Hlen Hnth].
    split; [cbn [length]; now rewrite Hlen|].
    intros [|n] o'; cbn [nth_error].
    + intros [= <-]. exists names. split; [now apply str_items_names|].
      now rewrite Z.add_0_r.
    + intros Ho. destruct (Hnth n o' Ho) as (ns & Ha & Hl).
      exists ns. split; [exact Ha|]. rewrite Hl. do 4 f_equal. lia.
Qed.

Lemma shown_offers_when_falsy (r : search_result F) :
  offers_truthy (api_results r) = false -> shown_offers r = [].
Proof.
  unfold shown_offers. destruct (api_results r) as [[|? ?]|]; try reflexivity; discriminate.
Qed.

Lemma result_lines_is_ok (r : search_result F) :
  is_ok (result_lines r) = reportable r.
Proof.
  unfold result_lines, reportable.
  destruct (offers_truthy (api_results r)) eqn:Ht.
  - fold (shown_offers r). rewrite <- (offer_lines_is_ok (shown_offers r) 1).
    destruct (offer_lines 1 (shown_offers r)); reflexivity.
  - now rewrite (shown_offers_when_falsy r Ht).
Qed.

Lemma result_lines_raise (r : search_result F) (e : exn) :
  result_lines r = Raise e -> e = TypeError.
Proof.
  unfold result_lines. destruct (offers_truthy (api_results r)); [|discriminate].
  fold (shown_offers r). destruct (offer_lines 1 (shown_offers r)) eqn:Hl; [discriminate|].
  cbn [rbind]. intros [= <-]. now apply offer_lines_raise in Hl.
Qed.

Lemma text_branch (results : list (search_result F)) (fmt : string) :
  String.eqb fmt "json" = false ->
  format_results results fmt
  = rbind (rmap result_lines results)
      (fun body =>
         rbind (match results with
                | r :: _ => Ok r
                | [] => Raise IndexError
                end)
           (fun first =>
              Ok (py_join nl
                    (List.app
                       (List.app
                          (List.app
                             (List.app [py_repeat "=" 70; "FLIGHT SEARCH RESULTS";
                                        py_repeat "=" 70] (concat body))
                             [py_repeat "=" 70; "POINTS PORTALS:"])
                          (map url_line (points_urls first)))
                       [""; "NOTE: Points redemption values vary. Check portals for current rates:";
                        "  - Chase UR: Often 1.25-1.5 cents/point via portal";
                        "  - Citi TY: Often 1-1.25 cents/point via portal";
                        "  - Transfer partners may offer better value"])))).
Proof. intros H. unfold format_results. now rewrite H. Qed.

(** X7.  Any format name other than [json] gives the text report.  It is
    returned exactly when there is a result and, in every result, the
    airlines of each of the first five offers are all strings; otherwise
    the formatter raises, [TypeError] when some airline is not a string
    (even if there is no result to head the points section) and
    [IndexError] when the sequence is empty. *)
Theorem text_report_outcome (results : list (search_result F)) (fmt : string) :
  String.eqb fmt "json" = false ->
  match format_results results fmt with
  | Ok _ => results <> [] /\ forallb reportable results = true
  | Raise e =>
      e = (if forallb reportable results then IndexError else TypeError)
      /\ (forallb reportable results = true -> results = [])
  end.
Proof.
  intros Hfmt. rewrite (text_branch results fmt Hfmt).
  rewrite <- (forallb_pointwise _ _ results result_lines_is_ok).
  rewrite <- rmap_is_ok.
  destruct (rmap result_lines results) as [body|e] eqn:Hb; cbn [rbind is_ok].
  - destruct results as [|r rs]; cbn [rbind].
    + split; [reflexivity | reflexivity].
    + split; [discriminate | reflexivity].
  - split; [|discriminate].
    apply rmap_raise_from in Hb as (r & _ & Hr). now apply result_lines_raise in Hr.
Qed.

(** X8.  The block of one result has nine fixed lines, one line per shown
    offer and one per comparison URL; at most five offers are shown. *)
Theorem result_block_length (r : search_result F) (ls : list string) :
  result_lines r = Ok ls ->
  length ls = (9 + length (shown_offers r) + length (urls r))%nat
  /\ (length (shown_offers r) <= 5)%nat.
Proof.
  intros H. split; [|unfold shown_offers; rewrite length_firstn; lia].
  revert H. unfold result_lines.
  destruct (offers_truthy (api_results r)) eqn:Ht.
  - fold (shown_offers r).
    destruct (offer_lines 1 (shown_offers r)) as [ols|] eqn:Hl; [|discriminate].
    cbn [rbind]. intros [= <-].
    destruct (offer_lines_nth _ _ _ Hl) as [Hlen _].
    repeat (progress cbn [length] || rewrite length_app || rewrite length_map).
    rewrite Hlen. lia.
  - cbn [rbind]. intros [= <-]. rewrite (shown_offers_when_falsy r Ht).
    repeat (progress cbn [length] || rewrite length_app || rewrite length_map). lia.
Qed.

(** X9.  Offers are listed in the order of the API response, numbered from
    1: the shown offer at index [n] is on line [6 + n] of the block of its
    result, with the number [n + 1], its price and its airlines joined by
    a comma. *)
Theorem offers_listed_in_response_order (r : search_result F) (ls : list string)
    (n : nat) (o : parsed_offer F) :
  result_lines r = Ok ls ->
  nth_error (shown_offers r) n = Some o ->
  exists names,
    airlines o = map (fun s => PStr s) names
    /\ nth_error ls (6 + n)
       = Some ("  " ++ py_str_int (Z.of_nat n + 1) ++ ". $"
               ++ float_format_2f (price o) ++ " - " ++ py_join ", " names).
Proof.
  unfold result_lines. destruct (offers_truthy (api_results r)) eqn:Ht.
  - fold (shown_offers r).
    destruct (offer_lines 1 (shown_offers r)) as [ols|] eqn:Hl; [|discriminate].
    cbn [rbind]. intros [= <-] Ho.
    destruct (offer_lines_nth _ _ _ Hl) as [Hlen Hnth].
    destruct (Hnth n o Ho) as (names & Ha & Hline).
    exists names. split; [exact Ha|].
    cbn [List.app Nat.add nth_error]. rewrite (Z.add_comm (Z.of_nat n) 1), <- Hline.
    assert (Hn : (n < length ols)%nat).
    { apply nth_error_Some. rewrite Hline. discriminate. }
    now rewrite nth_error_app1 by exact Hn.
  - intros _. rewrite (shown_offers_when_falsy r Ht). destruct n; discriminate.
Qed.

Lemma result_lines_same_input (a b : search_result F) :
  same_report_input a b -> result_lines a = result_lines b.
Proof.
  intros (Hp & Ha & Hu). unfold result_lines. now rewrite Hp, Ha, Hu.
Qed.

Lemma rmap_pointwise_eq {A B} (f : A -> result B) (l l' : list A) :
  Forall2 (fun a b => f a = f b) l l' -> rmap f l = rmap f l'.
Proof.
  induction 1 as [|a b l l' Hab _ IH]; [reflexivity|].
  cbn [rmap]. now rewrite Hab, IH.
Qed.

(** X10.  The text report shows only the parameters, the offers and the
    comparison URLs of each result, and the points-portal URLs of the first
    one: timestamps, trip names and the points URLs of later results do not
    appear in it. *)
Theorem text_report_reads_first_portals (rs rs' : list (search_result F)) (fmt : string) :
  String.eqb fmt "json" = false ->
  Forall2 (fun a b => same_report_input a b) rs rs' ->
  same_first_portals rs rs' ->
  format_results rs fmt = format_results rs' fmt.
Proof.
  intros Hfmt Hall Hfirst. rewrite !(text_branch _ fmt Hfmt).
  rewrite (rmap_pointwise_eq result_lines rs rs').
  - destruct Hall as [|a b l l' _ _]; [reflexivity|].
    cbn [same_first_portals] in Hfirst.
    destruct (rmap result_lines (b :: l')); [|reflexivity].
    cbn [rbind]. now rewrite Hfirst.
  - clear Hfirst. induction Hall as [|a b l l' Hab _ IH]; [constructor|].
    constructor; [now apply result_lines_same_input | exact IH].
Qed.

End TextReportLines.

Lemma text_report_outcome_witness :
  String.eqb "text" "json" = false
  /\ match format_results example_results "text" with
     | Ok _ => example_results <> [] /\ forallb reportable example_results = true
     | Raise e =>
         e = (if forallb reportable example_results then IndexError else TypeError)
         /\ (forallb reportable example_results = true -> example_results = [])
     end.
Proof.
  exact (conj eq_refl (text_report_outcome decimal example_results "text" eq_refl)).
Defined.

Lemma result_block_length_witness :
  exists ls,
    result_lines example_result = Ok ls
    /\ length ls = (9 + length (shown_offers example_result) + length (urls example_result))%nat
    /\ (length (shown_offers example_result) <= 5)%nat.
Proof.
  eexists. split; [reflexivity|].
  exact (result_block_length decimal example_result _ eq_refl).
Defined.

Lemma offers_listed_in_response_order_witness :
  exists ls,
    result_lines example_result = Ok ls
    /\ nth_error (shown_offers example_result) 0 = Some example_parsed_offer
    /\ exists names,
         airlines example_parsed_offer = map (fun s => PStr s) names
         /\ nth_error ls 6
            = Some ("  " ++ py_str_int 1 ++ ". $"
                    ++ float_format_2f (price example_parsed_offer) ++ " - "
                    ++ py_join ", " names).
Proof.
  eexists. split; [reflexivity|]. split; [reflexivity|].
  exact (offers_listed_in_response_order decimal example_result _ 0 example_parsed_offer
           eq_refl eq_refl).
Defined.

Lemma text_report_reads_first_portals_witness :
  String.eqb "text" "json" = false
  /\ Forall2 (fun a b => same_report_input a b)
       [example_result] [set_trip_name "colorado_trip" example_result]
  /\ same_first_portals [example_result] [set_trip_name "colorado_trip" example_result]
  /\ format_results [example_result] "text"
     = format_results [set_trip_name "colorado_trip" example_result] "text".
Proof.
  assert (H : Forall2 (fun a b : search_result decimal => same_report_input a b)
                [example_result] [set_trip_name "colorado_trip" example_result]).
  { repeat constructor. }
  exact (conj eq_refl (conj H (conj eq_refl
           (text_report_reads_first_portals decimal _ _ "text" eq_refl H eq_refl)))).
Defined.

(* ================================================================== *)
(** ** From the API response to the text report *)

Section ResponseToReport.

Variable F : Type.
Context {float_ops : PyFloat F}.

Lemma text_report_is_ok (results : list (search_result F)) (fmt : string) :
  String.eqb fmt "json" = false ->
  is_ok (format_results results fmt)
  = match results with
    | [] => false
    | _ => forallb reportable results
    end.
Proof.
  intros Hfmt. rewrite (text_branch F results fmt Hfmt).
  rewrite <- (forallb_pointwise _ _ results (result_lines_is_ok F)).
  rewrite <- rmap_is_ok.
  destruct (rmap result_lines results) as [body|e]; destruct results; reflexivity.
Qed.

Lemma str_eq_is_str (v x : pyval F) : py_eqb v x = true -> is_str x = true -> is_str v = true.
Proof. destruct v, x; cbn [py_eqb is_str]; congruence. Qed.

Lemma airlines_all_str (o : pyval F) (po : parsed_offer F) :
  parse_offer o = Ok po ->
  forallb is_str (airlines po)
  = forallb (fun seg => is_str (carrier_code seg)) (offer_segments o).
Proof.
  intros H. destruct (parse_offer_reads F o po H) as (_ & _ & H3 & H4 & _).
  cbn [fst snd] in *. apply eq_true_iff_eq. rewrite !forallb_forall. split.
  - intros Hall seg Hseg.
    destruct (H4 (carrier_code seg) (in_map _ _ _ Hseg)) as [Hin|(x & Hx & Heq)].
    + now apply Hall.
    + apply (str_eq_is_str _ x Heq). now apply Hall.
  - intros Hall a Ha. destruct (H3 a Ha) as [[]|Hin].
    apply in_map_iff in Hin as (seg & <- & Hseg). now apply Hall.
Qed.

Lemma Forall2_firstn {A B} (R : A -> B -> Prop) (n : nat) (l : list A) (l' : list B) :
  Forall2 R l l' -> Forall2 R (firstn n l) (firstn n l').
Proof.
  intros H. revert n. induction H as [|a b l l' Hab _ IH]; intros [|n]; cbn [firstn];
    constructor; auto.
Qed.

Lemma Forall2_forallb {A B} (f : A -> bool) (g : B -> bool) (l : list A) (l' : list B) :
  Forall2 (fun a b => g b = f a) l l' -> forallb g l' = forallb f l.
Proof.
  induction 1 as [|a b l l' Hab _ IH]; [reflexivity|].
  cbn [forallb]. now rewrite Hab, IH.
Qed.

Lemma parse_offers_pointwise (response : pyval F) (offers : list (parsed_offer F)) :
  _parse_offers response = Ok offers ->
  Forall2 (fun o po => parse_offer o = Ok po)
          (items_of (field response "data" (PList []))) offers.
Proof.
  unfold _parse_offers. rewrite py_get_field.
  destruct (is_dict response); [|discriminate]. cbn [rbind]. unfold items_of.
  destruct (py_iter (field response "data" (PList []))) as [items|]; [|discriminate].
  cbn [rbind]. apply rmap_pointwise.
Qed.

(** X11.  When the offers of a result were parsed from an API response,
    the text report of that result is returned exactly when every segment
    of the first five offers of the response carries a string as its
    carrier code: a segment without a carrier code puts [None] among the
    airlines, which the report cannot join. *)
Theorem text_report_needs_carrier_codes (response : pyval F)
    (offers : list (parsed_offer F)) (p : search_params_t)
    (us pus : list (string * string)) (ts : string) (tn : option string) (fmt : string) :
  String.eqb fmt "json" = false ->
  _parse_offers response = Ok offers ->
  is_ok (format_results [mk_result p (Some offers) us pus ts tn] fmt)
  = forallb (fun o => forallb (fun seg => is_str (carrier_code seg)) (offer_segments o))
            (firstn 5 (items_of (field response "data" (PList [])))).
Proof.
  intros Hfmt Hparse. rewrite (text_report_is_ok _ fmt Hfmt).
  cbn [forallb]. rewrite andb_true_r. unfold reportable, shown_offers. cbn [api_results].
  apply Forall2_forallb. apply Forall2_firstn.
  apply parse_offers_pointwise in Hparse.
  induction Hparse as [|o po l l' Ho _ IH]; constructor; [|exact IH].
  now apply airlines_all_str.
Qed.

End ResponseToReport.

Lemma text_report_needs_carrier_codes_witness :
  String.eqb "text" "json" = false
  /\ _parse_offers (PDict [("data", PList [example_offer])]) = Ok [example_parsed_offer]
  /\ is_ok (format_results
              [mk_result (mk_params "PHL" "DEN" "2026-01-24" "2026-01-26" 2)
                         (Some [example_parsed_offer]) [] [] "2026-01-10T09:00:00" None]
              "text")
     = forallb (fun o => forallb (fun seg => is_str (carrier_code seg)) (offer_segments o))
               (firstn 5 (items_of (field (PDict [("data", PList [example_offer])])
                                          "data" (PList [])))).
Proof.
  exact (conj eq_refl (conj eq_refl
           (text_report_needs_carrier_codes decimal
              (PDict [("data", PList [example_offer])]) [example_parsed_offer]
              (mk_params "PHL" "DEN" "2026-01-24" "2026-01-26" 2) [] []
              "2026-01-10T09:00:00" None "text" eq_refl eq_refl))).
Defined.

(* ================================================================== *)
(** ** The JSON output *)

Lemma escape_char_ascii (c : ascii) : forallb json_char (escape_char c) = true.
Proof. destruct c as [[] [] [] [] [] [] [] []]; reflexivity. Qed.

Lemma digit_json_char (c : ascii) : is_digit c = true -> json_char c = true.
Proof. destruct c as [[] [] [] [] [] [] [] []]; try reflexivity; discriminate. Qed.

Lemma digits_json_chars (l : list ascii) :
  all_digits l -> Forall (fun c => json_char c = true) l.
Proof.
  unfold all_digits. intros H. eapply Forall_impl; [|exact H].
  intros c. apply digit_json_char.
Qed.

Lemma encode_string_ascii (s : string) :
  Forall (fun c => json_char c = true) (encode_string s).
Proof.
  unfold encode_string. constructor; [reflexivity|].
  apply Forall_append; [|repeat constructor].
  induction (chars s) as [|c l IH]; [constructor|].
  cbn [flat_map]. apply Forall_append; [|exact IH].
  apply Forall_forall. intros x Hx.
  pose proof (escape_char_ascii c) as H. rewrite forallb_forall in H. now apply H.
Qed.

Lemma newline_indent_ascii (level : nat) :
  Forall (fun c => json_char c = true) (newline_indent level).
Proof.
  unfold newline_indent. constructor; [reflexivity|].
  induction (2 * level)%nat as [|n IH]; cbn [repeat]; constructor; [reflexivity | exact IH].
Qed.

Lemma py_str_int_ascii (z : Z) :
  Forall (fun c => json_char c = true) (chars (py_str_int z)).
Proof.
  destruct (py_str_int_chars z) as (ds & _ & Hd & ->).
  destruct (z <? 0); [constructor; [reflexivity|]|]; now apply digits_json_chars.
Qed.

Lemma render_float_ascii (t : float_text) :
  Forall (fun c => json_char c = true) (render_float t).
Proof.
  destruct t as [|[]|neg ip frac expo]; cbn [render_float]; try (repeat constructor).
  apply Forall_append; [destruct neg; repeat constructor|].
  apply Forall_append; [apply digits_json_chars, uint_chars_digits|].
  assert (Hfrac : Forall (fun c => json_char c = true)
                    match frac with
                    | Some d => "."%char :: uint_chars d
                    | None => []
                    end).
  { destruct frac; [|constructor].
    constructor; [reflexivity | apply digits_json_chars, uint_chars_digits]. }
  assert (Hexp : Forall (fun c => json_char c = true)
                   match expo with
                   | Some (eneg, d) =>
                       "e"%char :: (if eneg then "-"%char else "+"%char) :: uint_chars d
                   | None => []
                   end).
  { destruct expo as [[[] d]|]; [| |constructor];
      (constructor; [reflexivity|constructor; [reflexivity|]]);
      apply digits_json_chars, uint_chars_digits. }
  destruct frac, expo; try (apply Forall_append; assumption).
  repeat constructor.
Qed.

Section JsonOutput.

Variable F : Type.
Context {float_ops : PyFloat F}.

Lemma encode_ascii (v : pyval F) :
  forall level, Forall (fun c => json_char c = true) (encode level v).
Proof.
  induction v as [|b|z|f|s|items IH|entries IH] using (pyval_ind' F); intros level.
  - repeat constructor.
  - destruct b; repeat constructor.
  - apply py_str_int_ascii.
  - apply render_float_ascii.
  - apply encode_string_ascii.
  - destruct items as [|x xs]; [repeat constructor|].
    rewrite encode_list. inversion IH as [|? ? Hx Hxs]; subst.
    constructor; [reflexivity|].
    apply Forall_append; [apply newline_indent_ascii|].
    apply Forall_append; [apply Hx|].
    apply Forall_append;
      [|apply Forall_append; [apply newline_indent_ascii | repeat constructor]].
    unfold encode_items. clear IH Hx. induction Hxs as [|y ys Hy _ IHys]; [constructor|].
    cbn [flat_map]. apply Forall_append; [|exact IHys].
    constructor; [reflexivity|].
    apply Forall_append; [apply newline_indent_ascii | apply Hy].
  - destruct entries as [|kv xs]; [repeat constructor|].
    rewrite encode_dict.
    assert (Hentry : forall e : string * pyval F,
               (forall level, Forall (fun c => json_char c = true) (encode level (snd e))) ->
               Forall (fun c => json_char c = true) (encode_entry level e)).
    { intros e He. unfold encode_entry.
      apply Forall_append; [apply encode_string_ascii|].
      constructor; [reflexivity|]. constructor; [reflexivity|]. apply He. }
    inversion IH as [|? ? Hx Hxs]; subst.
    constructor; [reflexivity|].
    apply Forall_append; [apply newline_indent_ascii|].
    apply Forall_append; [now apply Hentry|].
    apply Forall_append;
      [|apply Forall_append; [apply newline_indent_ascii | repeat constructor]].
    unfold encode_entries. clear IH Hx. induction Hxs as [|y ys Hy _ IHys]; [constructor|].
    cbn [flat_map]. apply Forall_append; [|exact IHys].
    constructor; [reflexivity|].
    apply Forall_append; [apply newline_indent_ascii | now apply Hentry].
Qed.

(** X12.  The JSON report is always produced, also for no result at all,
    and is made of printable ASCII characters and line breaks only,
    whatever characters the strings of the results hold: every other
    character is written as an escape. *)
Theorem json_report_is_ascii (results : list (search_result F)) :
  exists s,
    format_results results "json" = Ok s
    /\ Forall (fun c => json_char c = true) (chars s).
Proof.
  eexists. split; [reflexivity|].
  unfold json_dumps. rewrite chars_text. apply encode_ascii.
Qed.

End JsonOutput.

Section JsonExact.

Variable F : Type.
Context {float_ops : PyFloat F}.

Lemma keys_unique_urls (d : list (string * string)) :
  NoDup (map fst d) -> keys_unique (py_of_urls F d).
Proof.
  intros H. unfold py_of_urls. apply keys_unique_dict. split.
  - rewrite map_map. exact H.
  - apply Forall_map. apply Forall_forall. intros kv _. exact I.
Qed.

Lemma keys_unique_params (p : search_params_t) : keys_unique (py_of_params F p).
Proof.
  unfold py_of_params. apply keys_unique_dict. split.
  - cbn [map fst]. solve_nodup.
  - repeat constructor.
Qed.

Lemma without_offers_keys_unique (r : search_result F) :
  without_offers r -> keys_unique (py_of_result r).
Proof.
  intros (Ha & Hu & Hp). unfold py_of_result. rewrite Ha.
  apply keys_unique_dict. split.
  - destruct (trip_name r); cbn [List.app map fst]; solve_nodup.
  - apply Forall_append.
    + apply Forall_cons; [apply keys_unique_params|].
      apply Forall_cons; [exact I|].
      apply Forall_cons; [now apply keys_unique_urls|].
      apply Forall_cons; [now apply keys_unique_urls|].
      apply Forall_cons; [exact I | apply Forall_nil].
    + destruct (trip_name r); [apply Forall_cons; [exact I|]|]; apply Forall_nil.
Qed.

Lemma without_offers_reread (r : search_result F) :
  without_offers r -> reread (py_of_result r) = py_of_result r.
Proof.
  intros (Ha & _). unfold py_of_result. rewrite Ha, reread_dict.
  rewrite map_app. cbn [map fst snd]. rewrite reread_params, !reread_urls.
  destruct (trip_name r); reflexivity.
Qed.

Lemma json_exact_without_offers (results : list (search_result F)) :
  Forall (fun r => without_offers r) results ->
  json_loads (json_dumps (PList (map (fun r => py_of_result r) results)))
  = Ok (PList (map (fun r => py_of_result r) results)).
Proof.
  intros H. rewrite json_loads_dumps.
  - cbn [reread]. rewrite map_map. do 2 f_equal.
    apply map_ext_in. intros r Hr. apply without_offers_reread.
    rewrite Forall_forall in H. now apply H.
  - apply keys_unique_list, Forall_map.
    eapply Forall_impl; [|exact H]. intros r. apply without_offers_keys_unique.
Qed.

(** X13.  For results without API offers the JSON report has full
    fidelity: reading it back gives the list of the result dicts, each
    with all its keys and values, the timestamp and the trip name
    included, provided no URL name is repeated. *)
Theorem json_is_exact_without_offers (results : list (search_result F)) :
  Forall (fun r => without_offers r) results ->
  exists s,
    format_results results "json" = Ok s
    /\ json_loads s = Ok (PList (map (fun r => py_of_result r) results)).
Proof.
  intros H. eexists. split; [reflexivity|]. now apply json_exact_without_offers.
Qed.

(** X14.  What a search without the API returns can be written as JSON
    and read back without any loss. *)
Theorem offline_search_survives_json (o d dep rt : string) (p : Z)
    (w w' : world F) (r : search_result F) :
  search_flights o d dep rt p false w = (Ok r, w') ->
  exists s,
    format_results [r] "json" = Ok s
    /\ json_loads s = Ok (PList [py_of_result r]).
Proof.
  intros H. eexists. split; [reflexivity|].
  apply (json_exact_without_offers [r]). constructor; [|constructor].
  destruct (search_flights_outcome F o d dep rt p false w)
    as (api & w1 & Heq & _ & _ & Hoff & _).
  destruct (Hoff eq_refl) as (-> & _).
  rewrite H in Heq. injection Heq as Heq _.
  unfold comparison_urls in Heq.
  destruct (generate_skyscanner_url o d dep rt p) as [sky|]; [|discriminate].
  cbn [rbind] in Heq. injection Heq as ->.
  unfold without_offers. cbn [api_results urls points_urls map fst].
  repeat split; unfold portal_urls; cbn [map fst]; solve_nodup.
Qed.

End JsonExact.

Lemma json_is_exact_without_offers_witness :
  Forall (fun r => without_offers r)
    [mk_result (mk_params "PHL" "DEN" "2026-01-24" "2026-01-27" 2) None
       [("kayak", "https://www.kayak.com/flights/PHL-DEN/2026-01-24/2026-01-27/2adults")]
       portal_urls "2026-01-10T09:00:01" (Some "colorado_trip") : search_result decimal]
  /\ exists s,
       format_results
         [mk_result (mk_params "PHL" "DEN" "2026-01-24" "2026-01-27" 2) None
            [("kayak", "https://www.kayak.com/flights/PHL-DEN/2026-01-24/2026-01-27/2adults")]
            portal_urls "2026-01-10T09:00:01" (Some "colorado_trip") : search_result decimal]
         "json" = Ok s
       /\ json_loads s
          = Ok (PList (map (fun r => py_of_result r)
                  [mk_result (mk_params "PHL" "DEN" "2026-01-24" "2026-01-27" 2) None
                     [("kayak",
                       "https://www.kayak.com/flights/PHL-DEN/2026-01-24/2026-01-27/2adults")]
                     portal_urls "2026-01-10T09:00:01" (Some "colorado_trip")])).
Proof.
  assert (H : Forall (fun r : search_result decimal => without_offers r)
    [mk_result (mk_params "PHL" "DEN" "2026-01-24" "2026-01-27" 2) None
       [("kayak", "https://www.kayak.com/flights/PHL-DEN/2026-01-24/2026-01-27/2adults")]
       portal_urls "2026-01-10T09:00:01" (Some "colorado_trip")]).
  { constructor; [|constructor]. unfold without_offers, portal_urls.
    cbn [api_results urls points_urls map fst]. repeat split; solve_nodup. }
  exact (conj H (json_is_exact_without_offers decimal _ H)).
Defined.

Lemma offline_search_survives_json_witness :
  exists r w',
    search_flights "PHL" "DEN" "2026-01-24" "2026-01-26" 2 false offline_world = (Ok r, w')
    /\ exists s,
         format_results [r] "json" = Ok s
         /\ json_loads s = Ok (PList [py_of_result r]).
Proof.
  eexists. eexists. split; [reflexivity|].
  exact (offline_search_survives_json decimal "PHL" "DEN" "2026-01-24" "2026-01-26" 2
           offline_world _ _ eq_refl).
Defined.

(* ================================================================== *)
(** ** The requests and the diagnostics of a search *)

Section ApiTrace.

Variable F : Type.
Context {float_ops : PyFloat F}.

Ltac trace_step :=
  cbn [fst snd negb token api_key api_secret base_url length
       requests urlopen_json environ now_isoformat clock_reads stderr].

Ltac traced sent said :=
  exists sent, said; split;
  [unfold world_after; cbn [Nat.add]; rewrite ?List.app_nil_r, <- ?List.app_assoc; reflexivity|].

Lemma try_api_trace (o d dep rt : string) (p : Z) (w : world F) :
  exists api sent said,
    try_api o d dep rt p w = (Ok api, world_after w 0 sent said)
    /\ api_run w o d dep rt p api sent said.
Proof.
  unfold try_api, AmadeusAPI_init, AmadeusAPI_search_flights, AmadeusAPI_authenticate,
    AmadeusAPI_fetch_offers, AmadeusAPI_is_configured,
    bind, getenv, ret, try_except, eprint, send, lift.
  cbn [api_key api_secret token base_url truthy negb fst snd].
  destruct (nonempty (environ w "AMADEUS_API_KEY") && nonempty (environ w "AMADEUS_API_SECRET"))
    eqn:Hc; trace_step.
  2:{ exists None. traced (@nil (request F)) [@not_configured_line].
      eapply run_not_configured; eassumption. }
  destruct (urlopen_json w (length (requests w))
              (TokenRequest (environ w "AMADEUS_API_KEY") (environ w "AMADEUS_API_SECRET")))
    as [v|e] eqn:Htok; trace_step.
  2:{ exists None.
      traced [credentials_request w]
             [searching_line o d; ErrorLine "Amadeus auth error: " e].
      eapply run_auth_error; eassumption. }
  destruct (is_dict v) eqn:Hd.
  2:{ rewrite not_dict_get by exact Hd. trace_step. exists None.
      traced [credentials_request w]
             [searching_line o d; ErrorLine "Amadeus auth error: " AttributeError].
      eapply run_auth_not_object; eassumption. }
  rewrite is_dict_get by exact Hd. trace_step.
  fold (access_token v).
  destruct (truthy (access_token v)) eqn:Ht; trace_step.
  2:{ exists None. traced [credentials_request w] [searching_line o d].
      eapply run_no_token; eassumption. }
  rewrite length_app, Nat.add_1_r.
  destruct (urlopen_json w (S (length (requests w)))
              (OffersRequest (access_token v) o d dep rt p 10))
    as [body|e] eqn:Hoff; trace_step.
  2:{ exists None.
      traced [credentials_request w; OffersRequest (access_token v) o d dep rt p 10]
             [searching_line o d; ErrorLine "Amadeus search error: " e].
      eapply run_search_error; eassumption. }
  destruct (_parse_offers body) as [offers|e] eqn:Hp; trace_step.
  2:{ exists None.
      traced [credentials_request w; OffersRequest (access_token v) o d dep rt p 10]
             [searching_line o d; ErrorLine "Amadeus search error: " e].
      eapply run_parse_error; eassumption. }
  exists (Some offers),
         [credentials_request w; OffersRequest (access_token v) o d dep rt p 10],
         (searching_line o d :: found_lines offers).
  split; [|eapply run_offers; eassumption].
  destruct offers; cbn [offers_truthy]; trace_step;
    unfold world_after; cbn [Nat.add found_lines];
    rewrite <- ?List.app_assoc; reflexivity.
Qed.

Lemma api_run_same_network (w w1 : world F) (o d dep rt : string) (p : Z)
    (api : option (list (parsed_offer F))) (sent : list (request F)) (said : list diag) :
  environ w1 = environ w -> urlopen_json w1 = urlopen_json w ->
  requests w1 = requests w ->
  api_run w1 o d dep rt p api sent said -> api_run w o d dep rt p api sent said.
Proof.
  intros He Hu Hr Hrun.
  assert (Hc : configured w1 = configured w) by (unfold configured; now rewrite He).
  assert (Ht : token_reply w1 = token_reply w)
    by (unfold token_reply; now rewrite He, Hu, Hr).
  assert (Ho : forall tok, offers_reply w1 tok o d dep rt p = offers_reply w tok o d dep rt p)
    by (intros tok; unfold offers_reply; now rewrite Hu, Hr).
  assert (Hq : credentials_request w1 = credentials_request w)
    by (unfold credentials_request; now rewrite He).
  destruct Hrun; rewrite ?Hq; rewrite ?Hc, ?Ht, ?Ho in *.
  - eapply run_not_configured; eassumption.
  - eapply run_auth_error; eassumption.
  - eapply run_auth_not_object; eassumption.
  - eapply run_no_token; eassumption.
  - eapply run_search_error; eassumption.
  - eapply run_parse_error; eassumption.
  - eapply run_offers; eassumption.
Qed.

(** One call of the aggregator with the API enabled: the clock is read
    once, the API block runs, and the URLs are generated last. *)
Lemma search_flights_trace (o d dep rt : string) (p : Z) (w : world F) :
  exists api sent said,
    search_flights o d dep rt p true w
    = (rbind (comparison_urls o d dep rt p)
         (fun us => Ok (mk_result (mk_params o d dep rt p) api us portal_urls
                                  (now_isoformat w (clock_reads w)) None)),
       world_after w 1 sent said)
    /\ api_run w o d dep rt p api sent said.
Proof.
  unfold search_flights, bind at 1. unfold datetime_now.
  set (w1 := mk_world (environ w) (urlopen_json w) (now_isoformat w)
                      (requests w) (S (clock_reads w)) (stderr w)).
  destruct (try_api_trace o d dep rt p w1) as (api & sent & said & Hrun & Hsteps).
  exists api, sent, said. unfold bind. rewrite Hrun. unfold lift, ret. split.
  - destruct (comparison_urls o d dep rt p); reflexivity.
  - eapply api_run_same_network; [..|exact Hsteps]; reflexivity.
Qed.

(** X15.  Without credentials a search with the API enabled sends
    nothing: it prints one line saying that the API is not configured, and
    the result has no offers. *)
Theorem unconfigured_search_sends_nothing (o d dep rt : string) (p : Z) (w : world F) :
  configured w = false ->
  search_flights o d dep rt p true w
  = (rbind (comparison_urls o d dep rt p)
       (fun us => Ok (mk_result (mk_params o d dep rt p) None us portal_urls
                                (now_isoformat w (clock_reads w)) None)),
     world_after w 1 [] [not_configured_line]).
Proof.
  intros Hc. destruct (search_flights_trace o d dep rt p w) as (api & sent & said & -> & Hrun).
  destruct Hrun; congruence.
Qed.

(** X16.  When the token request is answered with an object holding a
    token, and the offers request with a response that parses, the result
    holds the parsed offers; the call has sent the token request with the
    credentials of the environment and then one offers request with that
    token and a maximum of ten, and has reported the number of offers if
    there is one at least. *)
Theorem successful_search_holds_offers (o d dep rt : string) (p : Z) (w : world F)
    (v body : pyval F) (offers : list (parsed_offer F)) :
  configured w = true ->
  token_reply w = Ok v -> is_dict v = true -> truthy (access_token v) = true ->
  offers_reply w (access_token v) o d dep rt p = Ok body ->
  _parse_offers body = Ok offers ->
  search_flights o d dep rt p true w
  = (rbind (comparison_urls o d dep rt p)
       (fun us => Ok (mk_result (mk_params o d dep rt p) (Some offers) us portal_urls
                                (now_isoformat w (clock_reads w)) None)),
     world_after w 1
       [credentials_request w; OffersRequest (access_token v) o d dep rt p 10]
       (searching_line o d :: found_lines offers)).
Proof.
  intros Hc Htok Hd Ht Hoff Hp.
  destruct (search_flights_trace o d dep rt p w) as (api & sent & said & -> & Hrun).
  destruct Hrun as [H|e H H1|v' H H1 H2|v' H H1 H2 H3|v' e H H1 H2 H3 H4
                    |v' body' e H H1 H2 H3 H4 H5|v' body' offers' H H1 H2 H3 H4 H5];
    try congruence;
    rewrite Htok in H1; try discriminate; injection H1 as <-; try congruence.
  rewrite Hoff in H4. injection H4 as <-. rewrite Hp in H5. now injection H5 as <-.
Qed.

(** X17.  A search sends two requests at most and never repeats one: the
    token request comes first, and the offers request follows only when
    the reply held a token; the clock is read once whatever happens. *)
Theorem search_sends_two_requests_at_most (o d dep rt : string) (p : Z)
    (use_api : bool) (w : world F) :
  exists sent,
    requests (snd (search_flights o d dep rt p use_api w)) = List.app (requests w) sent
    /\ (sent = []
        \/ sent = [credentials_request w]
        \/ exists tok,
             truthy tok = true
             /\ sent = [credentials_request w; OffersRequest tok o d dep rt p 10])
    /\ clock_reads (snd (search_flights o d dep rt p use_api w)) = S (clock_reads w).
Proof.
  destruct use_api.
  - destruct (search_flights_trace o d dep rt p w) as (api & sent & said & -> & Hrun).
    exists sent. cbn [snd world_after requests clock_reads].
    split; [reflexivity|]. split; [|reflexivity].
    destruct Hrun; try (now left); try (right; now left);
      right; right; exists (access_token v); now split.
  - exists []. rewrite no_api_no_request, List.app_nil_r.
    split; [reflexivity|]. split; [now left|].
    destruct (search_flights_outcome F o d dep rt p false w) as (api & w' & -> & Hc & _).
    exact Hc.
Qed.

(** X18.  A token reply without a usable token ends the search for offers
    silently: no offers request is sent and, unlike every other failure of
    the cycle, no error line is printed. *)
Theorem missing_token_is_silent (o d dep rt : string) (p : Z) (w : world F) (v : pyval F) :
  configured w = true ->
  token_reply w = Ok v -> is_dict v = true -> truthy (access_token v) = false ->
  search_flights o d dep rt p true w
  = (rbind (comparison_urls o d dep rt p)
       (fun us => Ok (mk_result (mk_params o d dep rt p) None us portal_urls
                                (now_isoformat w (clock_reads w)) None)),
     world_after w 1 [credentials_request w] [searching_line o d]).
Proof.
  intros Hc Htok Hd Ht.
  destruct (search_flights_trace o d dep rt p w) as (api & sent & said & -> & Hrun).
  destruct Hrun as [H|e H H1|v' H H1 H2|v' H H1 H2 H3|v' e H H1 H2 H3 H4
                    |v' body' e H H1 H2 H3 H4 H5|v' body' offers' H H1 H2 H3 H4 H5];
    try congruence;
    rewrite Htok in H1; try discriminate; injection H1 as <-; congruence.
Qed.

End ApiTrace.

Lemma unconfigured_search_sends_nothing_witness :
  configured bare_world = false
  /\ search_flights "PHL" "DEN" "2026-01-24" "2026-01-26" 2 true bare_world
     = (rbind (comparison_urls "PHL" "DEN" "2026-01-24" "2026-01-26" 2)
          (fun us => Ok (mk_result (mk_params "PHL" "DEN" "2026-01-24" "2026-01-26" 2)
                           None us portal_urls
                           (now_isoformat bare_world (clock_reads bare_world)) None)),
        world_after bare_world 1 [] [not_configured_line]).
Proof.
  exact (conj eq_refl
           (unconfigured_search_sends_nothing decimal "PHL" "DEN" "2026-01-24" "2026-01-26" 2
              bare_world eq_refl)).
Defined.

Lemma successful_search_holds_offers_witness :
  configured online_world = true
  /\ token_reply online_world = Ok (PDict [("access_token", PStr "t0k3n")])
  /\ offers_reply online_world (PStr "t0k3n") "PHL" "DEN" "2026-01-24" "2026-01-26" 2
     = Ok (PDict [("data", PList [example_offer; PDict []])])
  /\ _parse_offers (PDict [("data", PList [example_offer; PDict []])])
     = Ok [example_parsed_offer; empty_parsed_offer]
  /\ search_flights "PHL" "DEN" "2026-01-24" "2026-01-26" 2 true online_world
     = (rbind (comparison_urls "PHL" "DEN" "2026-01-24" "2026-01-26" 2)
          (fun us => Ok (mk_result (mk_params "PHL" "DEN" "2026-01-24" "2026-01-26" 2)
                           (Some [example_parsed_offer; empty_parsed_offer]) us portal_urls
                           (now_isoformat online_world (clock_reads online_world)) None)),
        world_after online_world 1
          [credentials_request online_world;
           OffersRequest (PStr "t0k3n") "PHL" "DEN" "2026-01-24" "2026-01-26" 2 10]
          (searching_line "PHL" "DEN"
           :: found_lines [example_parsed_offer; empty_parsed_offer])).
Proof.
  exact (conj eq_refl (conj eq_refl (conj eq_refl (conj eq_refl
           (successful_search_holds_offers decimal "PHL" "DEN" "2026-01-24" "2026-01-26" 2
              online_world (PDict [("access_token", PStr "t0k3n")])
              (PDict [("data", PList [example_offer; PDict []])])
              [example_parsed_offer; empty_parsed_offer]
              eq_refl eq_refl eq_refl eq_refl eq_refl eq_refl))))).
Defined.

Lemma missing_token_is_silent_witness :
  configured tokenless_world = true
  /\ token_reply tokenless_world = Ok (PDict [("expires_in", PInt 1799)])
  /\ truthy (access_token (PDict [("expires_in", PInt 1799)] : pyval decimal)) = false
  /\ search_flights "PHL" "DEN" "2026-01-24" "2026-01-26" 2 true tokenless_world
     = (rbind (comparison_urls "PHL" "DEN" "2026-01-24" "2026-01-26" 2)
          (fun us => Ok (mk_result (mk_params "PHL" "DEN" "2026-01-24" "2026-01-26" 2)
                           None us portal_urls
                           (now_isoformat tokenless_world (clock_reads tokenless_world))
                           None)),
        world_after tokenless_world 1 [credentials_request tokenless_world]
          [searching_line "PHL" "DEN"]).
Proof.
  exact (conj eq_refl (conj eq_refl (conj eq_refl
           (missing_token_is_silent decimal "PHL" "DEN" "2026-01-24" "2026-01-26" 2
              tokenless_world (PDict [("expires_in", PInt 1799)])
              eq_refl eq_refl eq_refl eq_refl)))).
Defined.

(* ================================================================== *)
(** ** The requests and the timestamps of a preset search *)

Section PresetTrace.

Variable F : Type.
Context {float_ops : PyFloat F}.

Lemma world_after_after (w : world F) (a b : nat) (s1 s2 : list (request F))
    (d1 d2 : list diag) :
  world_after (world_after w a s1 d1) b s2 d2
  = world_after w (b + a) (List.app s1 s2) (List.app d1 d2).
Proof.
  unfold world_after. cbn [environ urlopen_json now_isoformat requests clock_reads stderr].
  now rewrite !List.app_assoc, Nat.add_assoc.
Qed.

Lemma world_after_nothing (w : world F) : world_after w 0 [] [] = w.
Proof. destruct w. unfold world_after. cbn. now rewrite !List.app_nil_r. Qed.

Lemma token_requests_app (l1 l2 : list (request F)) :
  token_requests (List.app l1 l2) = (token_requests l1 + token_requests l2)%nat.
Proof. unfold token_requests. now rewrite filter_app, length_app. Qed.

Lemma api_run_token_requests (w : world F) (o d dep rt : string) (p : Z)
    (api : option (list (parsed_offer F))) (sent : list (request F)) (said : list diag) :
  api_run w o d dep rt p api sent said ->
  token_requests sent = (if configured w then 1 else 0)%nat.
Proof.
  intros H. destruct H as [Hc|e Hc|v Hc|v Hc|v e Hc|v body e Hc|v body offers Hc];
    rewrite Hc; reflexivity.
Qed.

Lemma search_one_trace (name : string) (p : preset) (dep rt : string) (w : world F) :
  valid_date dep = true -> valid_date rt = true ->
  exists r sent said,
    search_one name p dep rt w = (Ok r, world_after w 1 sent said)
    /\ timestamp r = now_isoformat w (clock_reads w)
    /\ token_requests sent = (if configured w then 1 else 0)%nat.
Proof.
  intros Hd Hr. unfold search_one, bind at 1 2 3, eprint.
  set (w1 := mk_world _ _ _ _ _ _).
  destruct (search_flights_trace F (p_origin p) (p_destination p) dep rt
              (p_passengers p) w1) as (api & sent & said & Hrun & Hsteps).
  destruct (comparison_urls_ok (p_origin p) (p_destination p) dep rt (p_passengers p) Hd Hr)
    as (sky & _ & Hurls).
  rewrite Hurls in Hrun. cbn [rbind] in Hrun.
  unfold bind. rewrite Hrun. unfold ret.
  eexists. exists sent.
  exists (List.app [Line (nl ++ py_repeat "=" 60); Line ("Searching: " ++ dep ++ arrow ++ rt);
                    Line (py_repeat "=" 60)] said).
  split; [|split].
  - f_equal. unfold world_after, w1.
    cbn [environ urlopen_json now_isoformat requests clock_reads stderr].
    now rewrite <- !List.app_assoc.
  - reflexivity.
  - exact (api_run_token_requests _ _ _ _ _ _ _ _ _ Hsteps).
Qed.

Lemma inner_loop_trace (name : string) (p : preset) (dep : string) (rts : list string) :
  valid_date dep = true -> forallb valid_date rts = true ->
  forall w : world F,
  exists rs sent said,
    io_map (fun rt => search_one name p dep rt) rts w
    = (Ok rs, world_after w (length rts) sent said)
    /\ map (fun r => timestamp r) rs
       = map (now_isoformat w) (seq (clock_reads w) (length rts))
    /\ token_requests sent = (if configured w then length rts else 0)%nat.
Proof.
  intros Hd. induction rts as [|rt rts IH]; intros Hrs w.
  - exists [], [], []. cbn [io_map length seq map]. unfold ret.
    rewrite world_after_nothing. repeat split. now destruct (configured w).
  - cbn [forallb] in Hrs. apply andb_true_iff in Hrs as [Hrt Hrs].
    destruct (search_one_trace name p dep rt w Hd Hrt) as (r & s1 & d1 & Hrun & Hts & Htok).
    destruct (IH Hrs (world_after w 1 s1 d1)) as (rs & s2 & d2 & Hrun2 & Hts2 & Htok2).
    exists (r :: rs), (List.app s1 s2), (List.app d1 d2).
    cbn [io_map]. unfold bind. rewrite Hrun, Hrun2. unfold ret.
    rewrite world_after_after, Nat.add_1_r. split; [reflexivity|]. split.
    + cbn [map length seq]. rewrite Hts, Hts2. reflexivity.
    + rewrite token_requests_app, Htok, Htok2.
      change (configured (world_after w 1 s1 d1)) with (configured w).
      destruct (configured w); reflexivity.
Qed.

Lemma outer_loop_trace (name : string) (p : preset) (rts : list string) (deps : list string) :
  forallb valid_date rts = true -> forallb valid_date deps = true ->
  forall w : world F,
  exists rows sent said,
    io_map (fun dep => io_map (fun rt => search_one name p dep rt) rts) deps w
    = (Ok rows, world_after w (length deps * length rts) sent said)
    /\ map (fun r => timestamp r) (concat rows)
       = map (now_isoformat w) (seq (clock_reads w) (length deps * length rts))
    /\ token_requests sent = (if configured w then length deps * length rts else 0)%nat.
Proof.
  intros Hrs. induction deps as [|dep deps IH]; intros Hds w.
  - exists [], [], []. cbn [io_map length seq map concat Nat.mul]. unfold ret.
    rewrite world_after_nothing. repeat split. now destruct (configured w).
  - cbn [forallb] in Hds. apply andb_true_iff in Hds as [Hd Hds].
    destruct (inner_loop_trace name p dep rts Hd Hrs w) as (rs & s1 & d1 & Hrun & Hts & Htok).
    destruct (IH Hds (world_after w (length rts) s1 d1))
      as (rows & s2 & d2 & Hrun2 & Hts2 & Htok2).
    exists (rs :: rows), (List.app s1 s2), (List.app d1 d2).
    cbn [io_map]. unfold bind. rewrite Hrun, Hrun2. unfold ret.
    rewrite world_after_after.
    replace (length deps * length rts + length rts)%nat
      with (length (dep :: deps) * length rts)%nat by (cbn [length]; lia).
    split; [reflexivity|]. split.
    + cbn [concat]. rewrite map_app, Hts, Hts2.
      change (now_isoformat (world_after w (length rts) s1 d1)) with (now_isoformat w).
      change (clock_reads (world_after w (length rts) s1 d1))
        with (length rts + clock_reads w)%nat.
      rewrite <- map_app. f_equal.
      replace (length (dep :: deps) * length rts)%nat
        with (length rts + length deps * length rts)%nat by (cbn [length]; lia).
      rewrite seq_app. f_equal. f_equal. lia.
    + rewrite token_requests_app, Htok, Htok2.
      change (configured (world_after w (length rts) s1 d1)) with (configured w).
      destruct (configured w); cbn [length]; lia.
Qed.

Lemma preset_search_trace (name : string) (p : preset) (w : world F) :
  dict_get name PRESETS = Some p ->
  exists results sent said,
    search_date_combinations name w
    = (Ok results,
       world_after w (length (outbound_dates p) * length (return_dates p)) sent said)
    /\ map (fun r => timestamp r) results
       = map (now_isoformat w)
           (seq (clock_reads w) (length (outbound_dates p) * length (return_dates p)))
    /\ token_requests sent
       = (if configured w
          then length (outbound_dates p) * length (return_dates p) else 0)%nat.
Proof.
  intros Hget. destruct (registered_preset name p Hget) as [Ho Hr].
  unfold search_date_combinations, search_date_combinations_in. rewrite Hget.
  destruct (outer_loop_trace name p (return_dates p) (outbound_dates p) Hr Ho w)
    as (rows & sent & said & Hrun & Hts & Htok).
  exists (concat rows), sent, said. unfold bind. rewrite Hrun. unfold ret.
  repeat split; assumption.
Qed.

(** X19.  A preset search does not keep its token: every combination of
    dates creates a new client, so with credentials set the run sends one
    token request per combination, N x M in all, and none without
    credentials. *)
Theorem preset_search_authenticates_per_combination (name : string) (p : preset)
    (w : world F) :
  dict_get name PRESETS = Some p ->
  exists sent,
    requests (snd (search_date_combinations name w)) = List.app (requests w) sent
    /\ token_requests sent
       = (if configured w
          then length (outbound_dates p) * length (return_dates p) else 0)%nat.
Proof.
  intros Hget.
  destruct (preset_search_trace name p w Hget) as (results & sent & said & -> & _ & Htok).
  exists sent. split; [reflexivity | exact Htok].
Qed.

(** X20.  The timestamps of the results of a preset search are the
    successive readings of the clock, one per combination, in the order of
    the results. *)
Theorem preset_results_are_timestamped_in_order (name : string) (p : preset)
    (w : world F) :
  dict_get name PRESETS = Some p ->
  exists results w',
    search_date_combinations name w = (Ok results, w')
    /\ map (fun r => timestamp r) results
       = map (now_isoformat w)
           (seq (clock_reads w) (length (outbound_dates p) * length (return_dates p))).
Proof.
  intros Hget.
  destruct (preset_search_trace name p w Hget) as (results & sent & said & Hrun & Hts & _).
  exists results. eexists. split; [exact Hrun | exact Hts].
Qed.

End PresetTrace.

Lemma preset_search_authenticates_per_combination_witness :
  dict_get "colorado_trip" PRESETS = Some colorado_trip
  /\ exists sent,
       requests (snd (search_date_combinations "colorado_trip" offline_world))
       = List.app (requests offline_world) sent
       /\ token_requests sent
          = (if configured offline_world
             then length (outbound_dates colorado_trip) * length (return_dates colorado_trip)
             else 0)%nat.
Proof.
  exact (conj eq_refl
           (preset_search_authenticates_per_combination decimal "colorado_trip"
              colorado_trip offline_world eq_refl)).
Defined.

Lemma preset_results_are_timestamped_in_order_witness :
  dict_get "colorado_trip" PRESETS = Some colorado_trip
  /\ exists results w',
       search_date_combinations "colorado_trip" offline_world = (Ok results, w')
       /\ map (fun r => timestamp r) results
          = map (now_isoformat offline_world)
              (seq (clock_reads offline_world)
                 (length (outbound_dates colorado_trip)
                  * length (return_dates colorado_trip))).
Proof.
  exact (conj eq_refl
           (preset_results_are_timestamped_in_order decimal "colorado_trip"
              colorado_trip offline_world eq_refl)).
Defined.

(* ================================================================== *)
(** ** The command line *)

Section CommandLineRuns.

Variable F : Type.
Context {float_ops : PyFloat F}.

Lemma print_all (lines : list string) :
  forall ps : process F,
    fold_left (fun ps s => print s ps) lines ps
    = mk_process (net ps) (List.app (stdout ps) (map Printed lines)) (files ps) (writable ps).
Proof.
  induction lines as [|s lines IH]; intros ps; cbn [fold_left map].
  - rewrite List.app_nil_r. now destruct ps.
  - rewrite IH. unfold print. cbn [net stdout files writable].
    now rewrite <- List.app_assoc.
Qed.

Lemma preset_listing_length (l : list (string * preset)) :
  length (flat_map preset_listing l) = (4 * length l)%nat.
Proof.
  induction l as [|[name config] l IH]; [reflexivity|].
  cbn [flat_map preset_listing]. rewrite length_app, IH. cbn [length]. lia.
Qed.

(** X21.  With [--list-presets] the script only prints: the heading and
    four lines per preset.  Whatever the other options are, it searches
    nothing, sends nothing, writes no file and returns. *)
Theorem list_presets_only_prints (args : cli_args) (ps : process F) :
  arg_list_presets args = true ->
  exists lines,
    main args ps
    = (Returns,
       mk_process (net ps)
         (List.app (stdout ps) (map Printed ("Available presets:" :: lines)))
         (files ps) (writable ps))
    /\ length lines = (4 * length PRESETS)%nat.
Proof.
  intros H. exists (flat_map preset_listing PRESETS). unfold main. rewrite H.
  rewrite print_all. split; [reflexivity | apply preset_listing_length].
Qed.

(** X22.  Without a preset, a missing or empty origin, destination,
    departure date or return date ends the script with exit code 1 after
    the help text and an error line on standard output; nothing is
    searched and no file is written, also when [--save] is given. *)
Theorem missing_parameter_exits_with_1 (args : cli_args) (ps : process F) :
  arg_list_presets args = false ->
  nonempty (arg_config args) = false ->
  nonempty (arg_origin args) && nonempty (arg_dest args)
    && nonempty (arg_depart args) && nonempty (arg_return_date args) = false ->
  main args ps
  = (SystemExit 1,
     mk_process (net ps)
       (List.app (stdout ps)
          [HelpText;
           Printed (nl ++ "Error: Either --config or all of --origin, --dest, --depart, --return are required")])
       (files ps) (writable ps)).
Proof.
  intros Hl Hc Hm. unfold main, cli_search. rewrite Hl, Hc, Hm.
  unfold print, print_help. cbn [net stdout files writable].
  now rewrite <- List.app_assoc.
Qed.

Lemma dict_get_set_same {V} (k : string) (v : V) (d : list (string * V)) :
  dict_get k (dict_set k v d) = Some v.
Proof.
  induction d as [|[k' v'] d IH]; cbn [dict_set dict_get].
  - now rewrite String.eqb_refl.
  - destruct (String.eqb k k') eqn:E; cbn [dict_get]; rewrite E; [reflexivity | exact IH].
Qed.

Lemma dict_get_set_other {V} (k other : string) (v : V) (d : list (string * V)) :
  other <> k -> dict_get other (dict_set k v d) = dict_get other d.
Proof.
  intros Hne. induction d as [|[k' v'] d IH]; cbn [dict_set dict_get].
  - apply String.eqb_neq in Hne. now rewrite Hne.
  - destruct (String.eqb k k') eqn:E; cbn [dict_get].
    + apply String.eqb_eq in E. subst k'.
      apply String.eqb_neq in Hne. now rewrite Hne.
    + now rewrite IH.
Qed.

(** X23.  When a run gets as far as printing its report and [--save]
    names a path that can be opened, the script returns, and the file
    holds the JSON report of the results, whether the report printed was
    the text one or the JSON one; no other file is touched. *)
Theorem saved_file_is_json (args : cli_args) (ps : process F)
    (search : world F -> result (list (search_result F)) * world F)
    (results : list (search_result F)) (w : world F) (out path : string) :
  arg_list_presets args = false ->
  cli_search args = Some search ->
  search (net ps) = (Ok results, w) ->
  format_results results (if arg_json args then "json" else "text") = Ok out ->
  arg_save args = Some path -> path <> "" -> writable ps path = true ->
  fst (main args ps) = Returns
  /\ stdout (snd (main args ps)) = List.app (stdout ps) [Printed out]
  /\ (exists content,
        dict_get path (files (snd (main args ps))) = Some content
        /\ format_results results "json" = Ok content)
  /\ (forall other, other <> path ->
        dict_get other (files (snd (main args ps))) = dict_get other (files ps)).
Proof.
  intros Hl Hs Hrun Hout Hsave Hne Hw. unfold main.
  rewrite Hl, Hs, Hrun, Hout, Hsave. cbn [nonempty value_of].
  apply String.eqb_neq in Hne. rewrite Hne. cbn [negb].
  change (writable (print out (with_net w ps)) path) with (writable ps path).
  rewrite Hw.
  cbn [fst snd]. unfold with_net, write_file, print.
  cbn [net stdout files writable]. repeat split.
  - eexists. split; [apply dict_get_set_same | reflexivity].
  - intros other Ho. now apply dict_get_set_other.
Qed.

(** X24.  A preset takes precedence: with [--config] the origin, the
    destination, the dates and the passenger count given on the command
    line are not read, and neither is [--no-api], so that a preset search
    uses the API whenever credentials are set. *)
Theorem preset_overrides_manual_options (args : cli_args) (ps : process F) :
  nonempty (arg_config args) = true ->
  main args ps
  = main (mk_args (arg_config args) None None None None 1 (arg_json args) false
                  (arg_save args) (arg_list_presets args)) ps.
Proof.
  intros H. unfold main, cli_search.
  cbn [arg_config arg_json arg_save arg_list_presets]. now rewrite H.
Qed.

(** X25.  A date given on the command line that is not a calendar date
    in the form year-month-day is not reported as a usage error: the
    search reads the clock (and runs the API block), then the [ValueError]
    of the Skyscanner generator leaves [main] uncaught, with nothing on
    standard output and no file written. *)
Theorem bad_date_escapes_main (args : cli_args) (ps : process F) :
  arg_list_presets args = false ->
  nonempty (arg_config args) = false ->
  nonempty (arg_origin args) && nonempty (arg_dest args)
    && nonempty (arg_depart args) && nonempty (arg_return_date args) = true ->
  valid_date (value_of (arg_depart args))
    && valid_date (value_of (arg_return_date args)) = false ->
  exists why w,
    main args ps
    = (Raises (ValueError why), mk_process w (stdout ps) (files ps) (writable ps))
    /\ clock_reads w = S (clock_reads (net ps)).
Proof.
  intros Hl Hc Hm Hbad. unfold main, cli_search. rewrite Hl, Hc, Hm.
  destruct (search_flights_outcome F (value_of (arg_origin args)) (value_of (arg_dest args))
              (value_of (arg_depart args)) (value_of (arg_return_date args))
              (arg_passengers args) (negb (arg_no_api args)) (net ps))
    as (api & w & Hrun & Hclock & _).
  unfold bind. rewrite Hrun.
  pose proof (skyscanner_ok_iff_dates (value_of (arg_origin args)) (value_of (arg_dest args))
                (value_of (arg_depart args)) (value_of (arg_return_date args))
                (arg_passengers args)) as Hsky.
  rewrite Hbad in Hsky.
  destruct (generate_skyscanner_url _ _ _ _ _) as [u|e] eqn:Hgen; [discriminate|].
  destruct (skyscanner_raises_value_error _ _ _ _ _ _ Hgen) as (why & ->).
  rewrite (comparison_urls_raise _ _ _ _ _ _ Hgen). cbn [rbind].
  exists why, w. split; [reflexivity | exact Hclock].
Qed.

Lemma text_report_type_error (results : list (search_result F)) (fmt : string) :
  String.eqb fmt "json" = false ->
  forallb reportable results = false ->
  format_results results fmt = Raise TypeError.
Proof.
  intros Hfmt Hbad. rewrite (text_branch F results fmt Hfmt).
  rewrite <- (forallb_pointwise _ _ results (result_lines_is_ok F)) in Hbad.
  rewrite <- rmap_is_ok in Hbad.
  destruct (rmap result_lines results) as [body|e] eqn:Hb; [discriminate|].
  apply rmap_raise_from in Hb as (r & _ & Hr).
  apply result_lines_raise in Hr. now subst.
Qed.

(** X26.  A failure of the text report is not degraded to a warning:
    when some airline among the first five offers of a result is not a
    string, the [TypeError] leaves [main] after the search has been made,
    with nothing printed on standard output and no file saved. *)
Theorem unprintable_offers_crash_main (args : cli_args) (ps : process F)
    (search : world F -> result (list (search_result F)) * world F)
    (results : list (search_result F)) (w : world F) :
  arg_list_presets args = false ->
  arg_json args = false ->
  cli_search args = Some search ->
  search (net ps) = (Ok results, w) ->
  forallb reportable results = false ->
  main args ps = (Raises TypeError, mk_process w (stdout ps) (files ps) (writable ps)).
Proof.
  intros Hl Hj Hs Hrun Hbad. unfold main. rewrite Hl, Hs, Hrun, Hj.
  now rewrite (text_report_type_error results "text" eq_refl Hbad).
Qed.

End CommandLineRuns.

Lemma list_presets_only_prints_witness :
  arg_list_presets (mk_args None None None None None 1 false false (Some "out.json") true)
  = true
  /\ exists lines,
       main (mk_args None None None None None 1 false false (Some "out.json") true)
            (example_process online_world)
       = (Returns,
          mk_process (net (example_process online_world))
            (List.app (stdout (example_process online_world))
                      (map Printed ("Available presets:" :: lines)))
            (files (example_process online_world))
            (writable (example_process online_world)))
       /\ length lines = (4 * length PRESETS)%nat.
Proof.
  exact (conj eq_refl
           (list_presets_only_prints decimal
              (mk_args None None None None None 1 false false (Some "out.json") true)
              (example_process online_world) eq_refl)).
Defined.

Lemma missing_parameter_exits_with_1_witness :
  arg_list_presets (mk_args None (Some "PHL") (Some "") (Some "2026-01-24")
                            (Some "2026-01-26") 2 false false (Some "out.json") false)
  = false
  /\ main (mk_args None (Some "PHL") (Some "") (Some "2026-01-24")
                   (Some "2026-01-26") 2 false false (Some "out.json") false)
          (example_process online_world)
     = (SystemExit 1,
        mk_process (net (example_process online_world))
          (List.app (stdout (example_process online_world))
             [HelpText;
              Printed (nl ++ "Error: Either --config or all of --origin, --dest, --depart, --return are required")])
          (files (example_process online_world))
          (writable (example_process online_world))).
Proof.
  exact (conj eq_refl
           (missing_parameter_exits_with_1 decimal
              (mk_args None (Some "PHL") (Some "") (Some "2026-01-24")
                       (Some "2026-01-26") 2 false false (Some "out.json") false)
              (example_process online_world) eq_refl eq_refl eq_refl)).
Defined.

Lemma saved_file_is_json_witness :
  exists search results w out,
    cli_search (manual_args "2026-01-24" false true (Some "out.json")) = Some search
    /\ search (net (example_process offline_world)) = (Ok results, w)
    /\ format_results results "text" = Ok out
    /\ fst (main (manual_args "2026-01-24" false true (Some "out.json"))
                 (example_process offline_world)) = Returns
    /\ stdout (snd (main (manual_args "2026-01-24" false true (Some "out.json"))
                         (example_process offline_world)))
       = List.app (stdout (example_process offline_world)) [Printed out]
    /\ (exists content,
          dict_get "out.json"
            (files (snd (main (manual_args "2026-01-24" false true (Some "out.json"))
                              (example_process offline_world)))) = Some content
          /\ format_results results "json" = Ok content)
    /\ (forall other, other <> "out.json" ->
          dict_get other
            (files (snd (main (manual_args "2026-01-24" false true (Some "out.json"))
                              (example_process offline_world))))
          = dict_get other (files (example_process offline_world))).
Proof.
  do 4 eexists.
  split; [reflexivity|]. split; [reflexivity|]. split; [reflexivity|].
  refine (saved_file_is_json decimal
            (manual_args "2026-01-24" false true (Some "out.json"))
            (example_process offline_world) _ _ _ _ "out.json"
            eq_refl eq_refl eq_refl eq_refl eq_refl _ eq_refl).
  discriminate.
Defined.

Lemma preset_overrides_manual_options_witness :
  nonempty (arg_config (mk_args (Some "colorado_trip") (Some "JFK") None None None 4
                                true true None false)) = true
  /\ main (mk_args (Some "colorado_trip") (Some "JFK") None None None 4
                   true true None false) (example_process offline_world)
     = main (mk_args (Some "colorado_trip") None None None None 1 true false None false)
            (example_process offline_world).
Proof.
  exact (conj eq_refl
           (preset_overrides_manual_options decimal
              (mk_args (Some "colorado_trip") (Some "JFK") None None None 4
                       true true None false)
              (example_process offline_world) eq_refl)).
Defined.

Lemma bad_date_escapes_main_witness :
  valid_date "2026-02-30" && valid_date "2026-01-26" = false
  /\ exists why w,
       main (manual_args "2026-02-30" true true None) (example_process offline_world)
       = (Raises (ValueError why),
          mk_process w (stdout (example_process offline_world))
            (files (example_process offline_world))
            (writable (example_process offline_world)))
       /\ clock_reads w = S (clock_reads (net (example_process offline_world))).
Proof.
  exact (conj eq_refl
           (bad_date_escapes_main decimal (manual_args "2026-02-30" true true None)
              (example_process offline_world) eq_refl eq_refl eq_refl eq_refl)).
Defined.

Lemma unprintable_offers_crash_main_witness :
  exists search results w,
    cli_search (manual_args "2026-01-24" false false (Some "out.json")) = Some search
    /\ search (net (example_process codeless_world)) = (Ok results, w)
    /\ forallb reportable results = false
    /\ main (manual_args "2026-01-24" false false (Some "out.json"))
            (example_process codeless_world)
       = (Raises TypeError,
          mk_process w (stdout (example_process codeless_world))
            (files (example_process codeless_world))
            (writable (example_process codeless_world))).
Proof.
  do 3 eexists.
  split; [reflexivity|]. split; [reflexivity|]. split; [reflexivity|].
  exact (unprintable_offers_crash_main decimal
           (manual_args "2026-01-24" false false (Some "out.json"))
           (example_process codeless_world) _ _ _
           eq_refl eq_refl eq_refl eq_refl eq_refl).
Defined.
